(** * logiEx_api: the inventory transaction workflow

    Shallow embedding of the write paths of [controllers/sales.js],
    [controllers/purchases.js] and [controllers/transfers.js] together with
    the lookups they call, and the properties of the stock ledger and of the
    pricing that the specification states about them, followed by further
    properties of the handlers that the code shows.

    Conventions of the embedding:
    - a table is the list of its rows in storage order; [limit(1)] takes the
      first row that satisfies the filter;
    - integer columns are [Z]; JavaScript numbers that carry money are
      exact rationals [Q] (compared with [==]), IEEE rounding being outside
      the model; the [numeric(10,3)] columns of [sales] hold what the store
      makes of the value written: the value rounded to 3 decimals, and the
      statement fails when the rounded value does not fit the column;
    - [ilike(column, value)] is equality up to ASCII letter case, the
      contract the specification gives for the store; LIKE wildcards in
      [value] are outside the model;
    - [new Date()] columns ([updated_at], [created_at]) are not represented;
    - a handler is a function from the request and the database to the
      response and the database it leaves behind. *)

From Stdlib Require Import List String Ascii Bool Arith ZArith QArith Lia.
From Stdlib Require Import Qround Qabs Lqa.
Import ListNotations.

Local Open Scope string_scope.
Local Open Scope list_scope.

(* ------------------------------------------------------------------ *)
(** ** JavaScript values used by the controllers *)

Module Js.

(** [parseFloat(x)] is [None] for [NaN] (the argument was absent or does
    not start with a number) and [Some q] otherwise. *)
Definition number := option Q.

(** [n || d] on numbers, which is also [n ? n : d]. *)
Definition or_num (n : number) (d : Q) : Q :=
  match n with
  | Some q => if Qeq_bool q 0 then d else q
  | None => d
  end.

(** A body field that holds a string or is [undefined]. *)
Definition field := option string.

(** [f || d] on string fields. *)
Definition or_str (f : field) (d : string) : string :=
  match f with
  | Some s => if String.eqb s "" then d else s
  | None => d
  end.

(** [n && k(n)] as a condition: [k] is evaluated on a truthy [n] only. *)
Definition and_num (n : number) (k : Q -> bool) : bool :=
  match n with
  | Some q => negb (Qeq_bool q 0) && k q
  | None => false
  end.

(** [f && f !== existing && k(f)] as a condition. *)
Definition changed (f : field) (existing : string) (k : string -> bool)
  : bool :=
  match f with
  | Some s => negb (String.eqb s "") && negb (String.eqb s existing) && k s
  | None => false
  end.

(** Truthiness of the result of a lookup ([null] when nothing is found). *)
Definition defined {A} (o : option A) : bool :=
  match o with
  | Some _ => true
  | None => false
  end.

(** [a < b] and [a > b] on finite numbers. *)
Definition lt (a b : Q) : bool := negb (Qle_bool b a).
Definition gt (a b : Q) : bool := negb (Qle_bool a b).

End Js.

(* ------------------------------------------------------------------ *)
(** ** Case-insensitive matching *)

Definition lower_ascii (c : ascii) : ascii :=
  let n := nat_of_ascii c in
  if (65 <=? n)%nat && (n <=? 90)%nat then ascii_of_nat (n + 32) else c.

Fixpoint lower (s : string) : string :=
  match s with
  | EmptyString => EmptyString
  | String c s' => String (lower_ascii c) (lower s')
  end.

(** [ilike(column, value)] of drizzle-orm. *)
Definition ilike (column value : string) : bool :=
  String.eqb (lower column) (lower value).

(* ------------------------------------------------------------------ *)
(** ** Tables *)

(** A row of [inventoryProducts], the stock ledger. [ip_id] is the primary
    key the controllers update by. *)
Record InventoryProduct := mkInventoryProduct {
  ip_id : nat;
  ip_mr_id : string;
  ip_inventory : string;
  ip_product : string;
  ip_quantity : Z
}.

(** [numeric({ precision: 10, scale: 3 })], the type of the columns
    [adjustment] and [total_amount] of schemas/sales/schema.js. The store
    rounds a value it is given to 3 decimals, ties away from zero, and
    rejects the statement ("numeric field overflow") when the rounded value
    needs more than 10 digits, 7 of them before the point. [thousandths q]
    is the rounded value counted in thousandths; [numeric_10_3 q] is the
    value the column holds, or [None] when the store rejects [q]. *)
Definition thousandths (q : Q) : Z :=
  if Qle_bool 0 q
  then Qfloor (q * 1000 + (1 # 2))
  else Qceiling (q * 1000 - (1 # 2)).

Definition numeric_10_3 (q : Q) : option Q :=
  let n := thousandths q in
  if (Z.abs n <? 10 ^ 10)%Z then Some (n # 1000) else None.

(** A row of [sales] (schemas/sales/schema.js): [adjustment] and
    [total_amount] are [numeric(10,3)] and default to 0, [status] defaults
    to "processing". The two fields hold values of the column: every
    statement that writes them passes the value through [numeric_10_3]. *)
Record Sale := mkSale {
  s_bill_id : string;
  s_customer_id : string;
  s_shipping_address : string;
  s_adjustment : Q;
  s_total_amount : Q;
  s_status : string
}.

Record SaleProduct := mkSaleProduct {
  sp_mr_id : string;
  sp_inventory : string;
  sp_bill_id : string;
  sp_product : string;
  sp_quantity : Z;
  sp_unit_price : Q;
  sp_discount : Q;
  sp_total_price : Q
}.

Record Purchase := mkPurchase {
  p_mr_id : string;
  p_vendor : string;
  p_inventory : string;
  p_adjustment : Q;
  p_total_price : Q
}.

Record PurchaseProduct := mkPurchaseProduct {
  pp_mr_id : string;
  pp_product : string;
  pp_quantity : Z;
  pp_unit_price : Q;
  pp_discount : Q;
  pp_total_price : Q
}.

Record Transfer := mkTransfer {
  t_trf_id : string;
  t_source_inventory : string;
  t_destination_inventory : string
}.

Record TransferProduct := mkTransferProduct {
  tp_trf_id : string;
  tp_mr_id : string;
  tp_product : string;
  tp_quantity : Z
}.

(** The database: the tables the three workflows read and write. The
    catalogue tables hold the key the lookups compare. *)
Record DB := mkDB {
  customers : list string;
  vendors : list string;
  inventories : list string;
  products : list string;
  purchases : list Purchase;
  purchaseProducts : list PurchaseProduct;
  inventoryProducts : list InventoryProduct;
  sales : list Sale;
  saleProducts : list SaleProduct;
  transfers : list Transfer;
  transferProducts : list TransferProduct
}.

Definition set_purchases (f : list Purchase -> list Purchase) (db : DB) : DB :=
  mkDB (customers db) (vendors db) (inventories db) (products db)
       (f (purchases db)) (purchaseProducts db) (inventoryProducts db)
       (sales db) (saleProducts db) (transfers db) (transferProducts db).

Definition set_purchaseProducts
  (f : list PurchaseProduct -> list PurchaseProduct) (db : DB) : DB :=
  mkDB (customers db) (vendors db) (inventories db) (products db)
       (purchases db) (f (purchaseProducts db)) (inventoryProducts db)
       (sales db) (saleProducts db) (transfers db) (transferProducts db).

Definition set_inventoryProducts
  (f : list InventoryProduct -> list InventoryProduct) (db : DB) : DB :=
  mkDB (customers db) (vendors db) (inventories db) (products db)
       (purchases db) (purchaseProducts db) (f (inventoryProducts db))
       (sales db) (saleProducts db) (transfers db) (transferProducts db).

Definition set_sales (f : list Sale -> list Sale) (db : DB) : DB :=
  mkDB (customers db) (vendors db) (inventories db) (products db)
       (purchases db) (purchaseProducts db) (inventoryProducts db)
       (f (sales db)) (saleProducts db) (transfers db) (transferProducts db).

Definition set_saleProducts
  (f : list SaleProduct -> list SaleProduct) (db : DB) : DB :=
  mkDB (customers db) (vendors db) (inventories db) (products db)
       (purchases db) (purchaseProducts db) (inventoryProducts db)
       (sales db) (f (saleProducts db)) (transfers db) (transferProducts db).

Definition set_transfers (f : list Transfer -> list Transfer) (db : DB) : DB :=
  mkDB (customers db) (vendors db) (inventories db) (products db)
       (purchases db) (purchaseProducts db) (inventoryProducts db)
       (sales db) (saleProducts db) (f (transfers db)) (transferProducts db).

Definition set_transferProducts
  (f : list TransferProduct -> list TransferProduct) (db : DB) : DB :=
  mkDB (customers db) (vendors db) (inventories db) (products db)
       (purchases db) (purchaseProducts db) (inventoryProducts db)
       (sales db) (saleProducts db) (transfers db) (f (transferProducts db)).

(* ------------------------------------------------------------------ *)
(** ** Statements of the store *)

Section Statements.
Context {Row : Type}.

(** [select().from(t).where(f).limit(1)], destructured as [[row]]. *)
Definition select_first (f : Row -> bool) (t : list Row) : option Row :=
  find f t.

(** [update(t).set(g).where(f)]: every row that satisfies [f]. *)
Definition update_where (f : Row -> bool) (g : Row -> Row) (t : list Row)
  : list Row :=
  map (fun r => if f r then g r else r) t.

(** [update(t).set(g).where(f).returning()]: the rows as written. *)
Definition returning (f : Row -> bool) (g : Row -> Row) (t : list Row)
  : list Row :=
  map g (filter f t).

(** [delete(t).where(f)]: the rows that stay. *)
Definition delete_where (f : Row -> bool) (t : list Row) : list Row :=
  filter (fun r => negb (f r)) t.

(** [insert(t).values(r)]. *)
Definition insert (r : Row) (t : list Row) : list Row := t ++ [r].
End Statements.

(** The [set] clauses on the ledger: [quantity = quantity - n] and
    [quantity = quantity + n], evaluated by the store on the row. *)
Definition quantity_minus (n : Z) (r : InventoryProduct) : InventoryProduct :=
  mkInventoryProduct (ip_id r) (ip_mr_id r) (ip_inventory r) (ip_product r)
                     (ip_quantity r - n).

Definition quantity_plus (n : Z) (r : InventoryProduct) : InventoryProduct :=
  mkInventoryProduct (ip_id r) (ip_mr_id r) (ip_inventory r) (ip_product r)
                     (ip_quantity r + n).

Definition set_inventory (inv : string) (r : InventoryProduct)
  : InventoryProduct :=
  mkInventoryProduct (ip_id r) (ip_mr_id r) inv (ip_product r) (ip_quantity r).

(** [where(eq(inventoryProducts.id, id))]. *)
Definition has_id (id : nat) (r : InventoryProduct) : bool :=
  Nat.eqb (ip_id r) id.

(** The primary key the store gives a new ledger row ([defaultRandom()] in
    the schemas): a key no row of the table has. *)
Definition fresh_id (t : list InventoryProduct) : nat :=
  S (fold_right Nat.max 0%nat (map ip_id t)).

(* ------------------------------------------------------------------ *)
(** ** Exceptions, transactions and responses *)

(** What a handler can throw: a [ZodError] of a schema, an [Error] of the
    controller or of the store, and the [TypeError] of destructuring
    [undefined]. *)
Inductive Exn :=
| ZodError
| Error (message : string)
| TypeError.

(** The body of [db.transaction(async (tx) => ...)]: it reads and writes
    the database through [tx] and either returns or throws. *)
Definition Tx (A : Type) : Type := DB -> Exn + (A * DB).

Definition ret {A} (a : A) : Tx A := fun db => inr (a, db).

Definition bind {A B} (m : Tx A) (k : A -> Tx B) : Tx B :=
  fun db =>
    match m db with
    | inl e => inl e
    | inr (a, db') => k a db'
    end.

Definition throw {A} (e : Exn) : Tx A := fun _ => inl e.

Definition get : Tx DB := fun db => inr (db, db).

Definition modify (f : DB -> DB) : Tx unit := fun db => inr (tt, f db).

Declare Scope tx_scope.
Delimit Scope tx_scope with tx.
Notation "x <- m ;; k" := (bind m (fun x => k))
  (at level 100, m at next level, right associativity) : tx_scope.
Notation "m ;;; k" := (bind m (fun _ => k))
  (at level 100, right associativity) : tx_scope.

(** [for (const x of xs) { ... }] with the array the loop pushes to. *)
Fixpoint for_of {A B} (step : B -> A -> Tx B) (xs : list A) (acc : B) : Tx B :=
  match xs with
  | [] => ret acc
  | x :: xs' => bind (step acc x) (for_of step xs')
  end.

(** [db.transaction(body)]: the writes of [body] are kept when it returns
    and discarded when it throws; the exception is thrown on. *)
Definition transaction {A} (body : Tx A) (db : DB) : (Exn + A) * DB :=
  match body db with
  | inr (a, db') => (inr a, db')
  | inl e => (inl e, db)
  end.

Record Response (A : Type) := mkResponse {
  status : nat;
  payload : option A
}.
Arguments mkResponse {A}.
Arguments status {A}.
Arguments payload {A}.

(** [res.status(n).json({ message })]. *)
Definition reply {A} (n : nat) : Response A := mkResponse n None.

(** The [catch] block every handler ends with. *)
Definition on_error {A} (e : Exn) : Response A :=
  match e with
  | ZodError => reply 400
  | _ => reply 500
  end.

(* ------------------------------------------------------------------ *)
(** ** Lookups (services) *)

(** [findSaleByBillId] of the services: the first sale whose [bill_id]
    matches. *)
Definition findSaleByBillId (db : DB) (billId : string) : option Sale :=
  select_first (fun s => ilike (s_bill_id s) billId) (sales db).

(** Modelled from the spec: services/findPurchaseByMrId.js is not in the
    source tree; a find-by-business-id lookup like [findSaleByBillId]. *)
Definition findPurchaseByMrId (db : DB) (mrId : string) : option Purchase :=
  select_first (fun p => ilike (p_mr_id p) mrId) (purchases db).

(** Modelled from the spec: services/findTransferByTrfId.js is not in the
    source tree; a find-by-business-id lookup like [findSaleByBillId]. *)
Definition findTransferByTrfId (db : DB) (trfId : string) : option Transfer :=
  select_first (fun t => ilike (t_trf_id t) trfId) (transfers db).

(** Modelled from the spec: services/findCustomerById.js is not in the
    source tree; the customer with that id, when one exists. *)
Definition findCustomerById (db : DB) (id : string) : option string :=
  select_first (String.eqb id) (customers db).

(** Modelled from the spec: services/findInventoryByName.js is not in the
    source tree; the inventory with that name, when one exists. *)
Definition findInventoryByName (db : DB) (name : string) : option string :=
  select_first (fun i => ilike i name) (inventories db).

(** Modelled from the spec: services/findVendorByName.js is not in the
    source tree; the vendor with that name, when one exists. *)
Definition findVendorByName (db : DB) (name : string) : option string :=
  select_first (fun v => ilike v name) (vendors db).

(** Modelled from the spec: services/findProductByName.js is not in the
    source tree; the catalogue product with that name, when one exists. *)
Definition findProductByName (db : DB) (name : string) : option string :=
  select_first (fun p => ilike p name) (products db).

(** [array.reduce((total, x) => total + parseFloat(x.total_price), 0)]. *)
Definition sum_total_price {Row} (total_price : Row -> Q) (rows : list Row) : Q :=
  fold_left (fun total r => total + total_price r)%Q rows 0%Q.

(** Modelled from the spec: services/calculateSalePrice.js is not in the
    source tree; the sum of the line totals persisted for the sale. *)
Definition calculateSalePrice (db : DB) (billId : string) : Q :=
  sum_total_price sp_total_price
    (filter (fun l => ilike (sp_bill_id l) billId) (saleProducts db)).

(** Modelled from the spec: services/calculatePurchasePrice.js is not in the
    source tree; the sum of the line totals persisted for the purchase. *)
Definition calculatePurchasePrice (db : DB) (mrId : string) : Q :=
  sum_total_price pp_total_price
    (filter (fun l => ilike (pp_mr_id l) mrId) (purchaseProducts db)).

(** The line total both create paths compute:
    [quantity * unit_price - (quantity * unit_price * parseDiscount) / 100]. *)
Definition productTotalPrice (quantity : Z) (unit_price parseDiscount : Q) : Q :=
  (inject_Z quantity * unit_price
   - (inject_Z quantity * unit_price * parseDiscount) / 100)%Q.

(* ------------------------------------------------------------------ *)
(** ** controllers/sales.js *)

(** A line of [req.body.products]. [l_discount] is [parseFloat(discount)]. *)
Record SaleLine := mkSaleLine {
  l_product : string;
  l_quantity : Z;
  l_unit_price : Q;
  l_discount : Js.number
}.

(** [req.body] of a sale creation; [b_products] is [None] when the field is
    not an array. *)
Record SaleBody := mkSaleBody {
  b_bill_id : string;
  b_customer_id : string;
  b_inventory : string;
  b_shipping_address : string;
  b_status : Js.field;
  b_products : option (list SaleLine)
}.

(** [req.body] of a sale update; [u_adjustment] is [parseFloat(adjustment)]. *)
Record SaleUpdate := mkSaleUpdate {
  u_bill_id : Js.field;
  u_customer_id : Js.field;
  u_shipping_address : Js.field;
  u_adjustment : Js.number;
  u_status : Js.field
}.

Definition set_total_amount (total : Q) (s : Sale) : Sale :=
  mkSale (s_bill_id s) (s_customer_id s) (s_shipping_address s)
         (s_adjustment s) total (s_status s).

(** The [bill_id] column is declared [unique()]: a statement that would
    leave two rows with one [bill_id] fails. *)
Definition unique_bill_ids (t : list Sale) : bool :=
  (fix go (ids : list string) : bool :=
     match ids with
     | [] => true
     | i :: rest => negb (existsb (String.eqb i) rest) && go rest
     end) (map s_bill_id t).

Module salesController.
Section Schemas.
(** schemas/sales/validations.js and schemas/saleProducts/validations.js
    are not in the source tree: the zod schemas are parameters. *)
Variable insertSaleSchema : SaleBody -> bool.
Variable insertSaleProductSchema : SaleLine -> bool.
Variable updateSaleSchema : SaleUpdate -> bool.

(** [tx.insert(sales).values({ bill_id, customer_id, shipping_address,
    status })]. *)
Definition insert_sale (req : SaleBody) : Tx unit :=
  fun db =>
    let row := mkSale (b_bill_id req) (b_customer_id req)
                      (b_shipping_address req) 0 0
                      (match b_status req with
                       | Some s => s
                       | None => "processing"
                       end) in
    if existsb (fun s => String.eqb (s_bill_id s) (s_bill_id row)) (sales db)
    then inl (Error "duplicate key value violates unique constraint")
    else inr (tt, set_sales (insert row) db).

(** The filter of the stock lookup of a line. *)
Definition in_stock (inventory productName : string) (quantity : Z)
           (r : InventoryProduct) : bool :=
  ilike (ip_inventory r) inventory
  && ilike (ip_product r) productName
  && (quantity <=? ip_quantity r)%Z.

(** The body of [for (const product of products)]. *)
Definition create_line (req : SaleBody) (allSaleProducts : list SaleProduct)
           (product : SaleLine) : Tx (list SaleProduct) :=
  if negb (insertSaleProductSchema product) then throw ZodError else
  (db <- get ;;
   match select_first
           (in_stock (b_inventory req) (l_product product) (l_quantity product))
           (inventoryProducts db) with
   | None => throw (Error "Product not found at inventory")
   | Some productQuery =>
       let parseDiscount := Js.or_num (l_discount product) 0 in
       let newProduct :=
         mkSaleProduct (ip_mr_id productQuery) (b_inventory req)
                       (b_bill_id req) (l_product product)
                       (l_quantity product) (l_unit_price product)
                       parseDiscount
                       (productTotalPrice (l_quantity product)
                                          (l_unit_price product)
                                          parseDiscount) in
       modify (set_saleProducts (insert newProduct)) ;;;
       modify (set_inventoryProducts
                 (update_where (has_id (ip_id productQuery))
                               (quantity_minus (l_quantity product)))) ;;;
       ret (allSaleProducts ++ [newProduct])
   end)%tx.

(** The body of [db.transaction]. The update of [total_amount] writes a
    [numeric(10,3)] column: the store rounds the sum, or rejects the
    statement, which throws. *)
Definition create_tx (req : SaleBody) (products : list SaleLine)
  : Tx (option Sale * list SaleProduct) :=
  (insert_sale req ;;;
   allSaleProducts <- for_of (create_line req) products [] ;;
   let updatedTotalPrice := sum_total_price sp_total_price allSaleProducts in
   db <- get ;;
   let matches := fun s => ilike (s_bill_id s) (b_bill_id req) in
   match numeric_10_3 updatedTotalPrice with
   | None => throw (Error "numeric field overflow")
   | Some total_amount =>
       modify (set_sales
                 (update_where matches (set_total_amount total_amount))) ;;;
       ret (hd_error (returning matches (set_total_amount total_amount)
                                (sales db)),
            allSaleProducts)
   end)%tx.

Definition create (req : SaleBody) (db : DB)
  : Response (option Sale * list SaleProduct) * DB :=
  match b_products req with
  | None | Some [] => (reply 400, db)
  | Some products =>
      if negb (insertSaleSchema req) then (on_error ZodError, db) else
      match findSaleByBillId db (b_bill_id req) with
      | Some _ => (reply 409, db)
      | None =>
          match findCustomerById db (b_customer_id req) with
          | None => (reply 404, db)
          | Some _ =>
              match findInventoryByName db (b_inventory req) with
              | None => (reply 404, db)
              | Some _ =>
                  match transaction (create_tx req products) db with
                  | (inr newSale, db') => (mkResponse 201 (Some newSale), db')
                  | (inl e, db') => (on_error e, db')
                  end
              end
          end
      end
  end.

(** The row [updatedData] writes over a sale, with the adjustment and the
    total as the columns hold them. *)
Definition updatedData (body : SaleUpdate) (existingSale : Sale)
           (setAdjustment setTotalPrice : Q) (_ : Sale) : Sale :=
  mkSale (Js.or_str (u_bill_id body) (s_bill_id existingSale))
         (Js.or_str (u_customer_id body) (s_customer_id existingSale))
         (Js.or_str (u_shipping_address body) (s_shipping_address existingSale))
         setAdjustment setTotalPrice
         (Js.or_str (u_status body) (s_status existingSale)).

(** [updateByBillId]. The update writes [adjustment] and [total_amount],
    both [numeric(10,3)]: the store rounds them, or rejects the statement,
    which throws into the [catch] block. *)
Definition updateByBillId (billId : string) (body : SaleUpdate) (db : DB)
  : Response Sale * DB :=
  if negb (updateSaleSchema body) then (on_error ZodError, db) else
  let parseAdjustment := u_adjustment body in
  match findSaleByBillId db billId with
  | None => (reply 404, db)
  | Some existingSale =>
      if Js.changed (u_bill_id body) (s_bill_id existingSale)
           (fun bill_id => Js.defined (findSaleByBillId db bill_id))
      then (reply 409, db) else
      if Js.changed (u_customer_id body) (s_customer_id existingSale)
           (fun customer_id => negb (Js.defined (findCustomerById db customer_id)))
      then (reply 404, db) else
      let availableTotalPrice := calculateSalePrice db billId in
      if Js.and_num parseAdjustment
           (fun a => Js.lt a 0 || Js.gt a availableTotalPrice)
      then (reply 400, db) else
      let setAdjustment :=
        Js.or_num parseAdjustment (s_adjustment existingSale) in
      let setTotalPrice := (availableTotalPrice - setAdjustment)%Q in
      let matches := fun s => ilike (s_bill_id s) billId in
      match numeric_10_3 setAdjustment, numeric_10_3 setTotalPrice with
      | Some adjustment, Some total_amount =>
          let set := updatedData body existingSale adjustment total_amount in
          let sales' := update_where matches set (sales db) in
          if negb (unique_bill_ids sales')
          then (on_error
                  (Error "duplicate key value violates unique constraint"),
                db)
          else
            match hd_error (returning matches set (sales db)) with
            | None => (reply 404, set_sales (fun _ => sales') db)
            | Some updatedSale =>
                (mkResponse 200 (Some updatedSale),
                 set_sales (fun _ => sales') db)
            end
      | _, _ => (on_error (Error "numeric field overflow"), db)
      end
  end.

(** [deleteByBillId]. The statement runs before the test on its result. It
    is a statement on the headers: what the store cascades to the rows that
    refer to a header is in schemas that are not in the source tree, and is
    not modelled. *)
Definition deleteByBillId (billId : string) (db : DB) : Response unit * DB :=
  let matches := fun s => ilike (s_bill_id s) billId in
  let db' := set_sales (delete_where matches) db in
  match hd_error (filter matches (sales db)) with
  | None => (reply 404, db')
  | Some deletedSale => (reply 200, db')
  end.
End Schemas.
End salesController.

(* ------------------------------------------------------------------ *)
(** ** controllers/purchases.js *)

(** A line of [req.body.products]. [pl_discount] is [parseFloat(discount)]. *)
Record PurchaseLine := mkPurchaseLine {
  pl_product : string;
  pl_quantity : Z;
  pl_unit_price : Q;
  pl_discount : Js.number
}.

Record PurchaseBody := mkPurchaseBody {
  pb_mr_id : string;
  pb_vendor : string;
  pb_inventory : string;
  pb_products : option (list PurchaseLine)
}.

(** [req.body] of a purchase update; [pu_adjustment] is
    [parseFloat(adjustment)]. *)
Record PurchaseUpdate := mkPurchaseUpdate {
  pu_mr_id : Js.field;
  pu_vendor : Js.field;
  pu_inventory : Js.field;
  pu_adjustment : Js.number
}.

Definition set_total_price (total : Q) (p : Purchase) : Purchase :=
  mkPurchase (p_mr_id p) (p_vendor p) (p_inventory p) (p_adjustment p) total.

Module purchasesController.
Section Schemas.
(** schemas/purchases/validations.js and
    schemas/purchaseProducts/validations.js are not in the source tree: the
    zod schemas are parameters. So is the table schema: the header row is
    inserted with [adjustment] and [total_price] 0, as the specification
    says, and no constraint of the table is modelled. *)
Variable insertPurchaseSchema : PurchaseBody -> bool.
Variable insertPurchaseProductSchema : PurchaseLine -> bool.
Variable updatePurchaseSchema : PurchaseUpdate -> bool.

(** The body of [for (const product of products)]. *)
Definition create_line (req : PurchaseBody)
           (allPurchaseProducts : list PurchaseProduct)
           (product : PurchaseLine) : Tx (list PurchaseProduct) :=
  (let parseDiscount := Js.or_num (pl_discount product) 0 in
   let purchaseProduct :=
     mkPurchaseProduct (pb_mr_id req) (pl_product product)
                       (pl_quantity product) (pl_unit_price product)
                       parseDiscount
                       (productTotalPrice (pl_quantity product)
                                          (pl_unit_price product)
                                          parseDiscount) in
   modify (set_purchaseProducts (insert purchaseProduct)) ;;;
   modify (set_inventoryProducts
             (fun t => insert (mkInventoryProduct (fresh_id t) (pb_mr_id req)
                                                  (pb_inventory req)
                                                  (pl_product product)
                                                  (pl_quantity product)) t)) ;;;
   ret (allPurchaseProducts ++ [purchaseProduct]))%tx.

(** The body of [db.transaction]. *)
Definition create_tx (req : PurchaseBody) (products : list PurchaseLine)
  : Tx (option Purchase * list PurchaseProduct) :=
  (modify (set_purchases
             (insert (mkPurchase (pb_mr_id req) (pb_vendor req)
                                 (pb_inventory req) 0 0))) ;;;
   allPurchaseProducts <- for_of (create_line req) products [] ;;
   let updatedTotalPrice :=
     sum_total_price pp_total_price allPurchaseProducts in
   db <- get ;;
   let matches := fun p => ilike (p_mr_id p) (pb_mr_id req) in
   modify (set_purchases
             (update_where matches (set_total_price updatedTotalPrice))) ;;;
   ret (hd_error (returning matches (set_total_price updatedTotalPrice)
                            (purchases db)),
        allPurchaseProducts))%tx.

Definition create (req : PurchaseBody) (db : DB)
  : Response (option Purchase * list PurchaseProduct) * DB :=
  match pb_products req with
  | None | Some [] => (reply 400, db)
  | Some products =>
      if negb (insertPurchaseSchema req) then (on_error ZodError, db) else
      if Js.defined (findPurchaseByMrId db (pb_mr_id req))
      then (reply 409, db) else
      if negb (Js.defined (findVendorByName db (pb_vendor req)))
      then (reply 404, db) else
      if negb (Js.defined (findInventoryByName db (pb_inventory req)))
      then (reply 404, db) else
      (* Promise.all over the lines: a schema that rejects throws, a
         product that is not found is collected in productErrors *)
      if negb (forallb insertPurchaseProductSchema products)
      then (on_error ZodError, db) else
      if negb (forallb (fun product =>
                          Js.defined (findProductByName db (pl_product product)))
                       products)
      then (reply 404, db) else
      match transaction (create_tx req products) db with
      | (inr newPurchase, db') => (mkResponse 201 (Some newPurchase), db')
      | (inl e, db') => (on_error e, db')
      end
  end.

(** The row [updatedData] writes over a purchase. *)
Definition updatedData (body : PurchaseUpdate) (existingPurchase : Purchase)
           (setAdjustment setTotalPrice : Q) (_ : Purchase) : Purchase :=
  mkPurchase (Js.or_str (pu_mr_id body) (p_mr_id existingPurchase))
             (Js.or_str (pu_vendor body) (p_vendor existingPurchase))
             (Js.or_str (pu_inventory body) (p_inventory existingPurchase))
             setAdjustment setTotalPrice.

Definition updateByMrId (mrId : string) (body : PurchaseUpdate) (db : DB)
  : Response Purchase * DB :=
  if negb (updatePurchaseSchema body) then (on_error ZodError, db) else
  let parseAdjustment := pu_adjustment body in
  match findPurchaseByMrId db mrId with
  | None => (reply 404, db)
  | Some existingPurchase =>
      if Js.changed (pu_mr_id body) (p_mr_id existingPurchase)
           (fun mr_id => Js.defined (findPurchaseByMrId db mr_id))
      then (reply 409, db) else
      if Js.changed (pu_vendor body) (p_vendor existingPurchase)
           (fun vendor => negb (Js.defined (findVendorByName db vendor)))
      then (reply 404, db) else
      if Js.changed (pu_inventory body) (p_inventory existingPurchase)
           (fun inventory => negb (Js.defined (findInventoryByName db inventory)))
      then (reply 404, db) else
      let availableTotalPrice := calculatePurchasePrice db mrId in
      if Js.and_num parseAdjustment
           (fun a => Js.lt a 0 || Js.gt a availableTotalPrice)
      then (reply 400, db) else
      let setAdjustment :=
        Js.or_num parseAdjustment (p_adjustment existingPurchase) in
      let setTotalPrice := (availableTotalPrice - setAdjustment)%Q in
      let matches := fun p => ilike (p_mr_id p) mrId in
      let set := updatedData body existingPurchase setAdjustment setTotalPrice in
      let db1 := set_purchases (update_where matches set) db in
      match hd_error (returning matches set (purchases db)) with
      | None => (reply 404, db1)
      | Some updatedPurchase =>
          (mkResponse 200 (Some updatedPurchase),
           set_inventoryProducts
             (update_where (fun r => ilike (ip_mr_id r) mrId)
                           (set_inventory (p_inventory updatedPurchase)))
             db1)
      end
  end.
End Schemas.
End purchasesController.

(* ------------------------------------------------------------------ *)
(** ** controllers/transfers.js *)

Record TransferLine := mkTransferLine {
  tl_mr_id : string;
  tl_product : string;
  tl_quantity : Z
}.

Record TransferBody := mkTransferBody {
  tb_trf_id : string;
  tb_source_inventory : string;
  tb_destination_inventory : string;
  tb_products : option (list TransferLine)
}.

(** schemas/transferProducts/validations.js: [mr_id] of 6 to 20 characters,
    [product] non-empty and of at most 80, [quantity] a positive integer. *)
Definition insertTransferProductSchema (product : TransferLine) : bool :=
  (6 <=? String.length (tl_mr_id product))%nat
  && (String.length (tl_mr_id product) <=? 20)%nat
  && (String.length (tl_product product) <=? 80)%nat
  && negb (String.eqb (tl_product product) "")
  && (0 <? tl_quantity product)%Z.

(** The filter on (inventory, mr_id, product) of the ledger lookups and
    updates of a transfer. *)
Definition at_lot (inventory mr_id productName : string)
           (r : InventoryProduct) : bool :=
  ilike (ip_inventory r) inventory
  && ilike (ip_mr_id r) mr_id
  && ilike (ip_product r) productName.

Module transfersController.
Section Schemas.
(** schemas/transfers/validations.js is not in the source tree: the zod
    schema of the header is a parameter. *)
Variable insertTransferSchema : TransferBody -> bool.
Variable updateTransferSchema : Js.field -> bool.

(** The body of [for (const product of products)] of [create]. *)
Definition create_line (req : TransferBody)
           (allTransferProducts : list TransferProduct)
           (product : TransferLine) : Tx (list TransferProduct) :=
  if negb (insertTransferProductSchema product) then throw ZodError else
  (let mr_id := tl_mr_id product in
   let productName := tl_product product in
   let quantity := tl_quantity product in
   db <- get ;;
   match select_first
           (fun r => at_lot (tb_source_inventory req) mr_id productName r
                     && (quantity <=? ip_quantity r)%Z)
           (inventoryProducts db) with
   | None => throw (Error "Product not found in inventory")
   | Some sourceInventoryProductQuery =>
       let destinationInventoryProductQuery :=
         select_first (at_lot (tb_destination_inventory req) mr_id productName)
                      (inventoryProducts db) in
       modify (set_inventoryProducts
                 (update_where (has_id (ip_id sourceInventoryProductQuery))
                               (quantity_minus quantity))) ;;;
       match destinationInventoryProductQuery with
       | Some destination =>
           modify (set_inventoryProducts
                     (update_where (has_id (ip_id destination))
                                   (quantity_plus quantity)))
       | None =>
           modify (set_inventoryProducts
                     (fun t => insert (mkInventoryProduct
                                         (fresh_id t) mr_id
                                         (tb_destination_inventory req)
                                         productName quantity) t))
       end ;;;
       let newTransferProduct :=
         mkTransferProduct (tb_trf_id req) mr_id productName quantity in
       modify (set_transferProducts (insert newTransferProduct)) ;;;
       ret (allTransferProducts ++ [newTransferProduct])
   end)%tx.

(** The body of [db.transaction] of [create]. *)
Definition create_tx (req : TransferBody) (products : list TransferLine)
  : Tx (Transfer * list TransferProduct) :=
  (let newTransfer :=
     mkTransfer (tb_trf_id req) (tb_source_inventory req)
                (tb_destination_inventory req) in
   modify (set_transfers (insert newTransfer)) ;;;
   allTransferProducts <- for_of (create_line req) products [] ;;
   ret (newTransfer, allTransferProducts))%tx.

Definition create (req : TransferBody) (db : DB)
  : Response (Transfer * list TransferProduct) * DB :=
  match tb_products req with
  | None | Some [] => (reply 400, db)
  | Some products =>
      if negb (insertTransferSchema req) then (on_error ZodError, db) else
      if Js.defined (findTransferByTrfId db (tb_trf_id req))
      then (reply 409, db) else
      if negb (Js.defined (findInventoryByName db (tb_source_inventory req)))
      then (reply 404, db) else
      if negb (Js.defined (findInventoryByName db (tb_destination_inventory req)))
      then (reply 404, db) else
      match transaction (create_tx req products) db with
      | (inr created, db') => (mkResponse 201 (Some created), db')
      | (inl e, db') => (on_error e, db')
      end
  end.

(** The body of [for (const product of allTransferProducts)] of
    [deleteByTrfId]. *)
Definition delete_line (existingTransfer : Transfer) (_ : unit)
           (product : TransferProduct) : Tx unit :=
  (db <- get ;;
   match select_first
           (at_lot (t_destination_inventory existingTransfer)
                   (tp_mr_id product) (tp_product product))
           (inventoryProducts db) with
   | None =>
       (* const { quantity } = undefined *)
       throw TypeError
   | Some DestinationInventoryProduct =>
       let availableQuantity := ip_quantity DestinationInventoryProduct in
       modify (set_inventoryProducts
                 (update_where
                    (at_lot (t_source_inventory existingTransfer)
                            (tp_mr_id product) (tp_product product))
                    (quantity_plus availableQuantity))) ;;;
       modify (set_inventoryProducts
                 (update_where
                    (at_lot (t_destination_inventory existingTransfer)
                            (tp_mr_id product) (tp_product product))
                    (quantity_minus availableQuantity)))
   end)%tx.

(** The body of [db.transaction] of [deleteByTrfId]. *)
Definition delete_tx (trfId : string) (existingTransfer : Transfer)
  : Tx unit :=
  (db <- get ;;
   let of_transfer :=
     fun l => ilike (tp_trf_id l) (t_trf_id existingTransfer) in
   let allTransferProducts := filter of_transfer (transferProducts db) in
   modify (set_transferProducts (delete_where of_transfer)) ;;;
   for_of (delete_line existingTransfer) allTransferProducts tt ;;;
   modify (set_transfers
             (delete_where (fun t => ilike (t_trf_id t) trfId))))%tx.

Definition deleteByTrfId (trfId : string) (db : DB) : Response unit * DB :=
  match select_first (fun t => ilike (t_trf_id t) trfId) (transfers db) with
  | None => (reply 404, db)
  | Some existingTransfer =>
      match transaction (delete_tx trfId existingTransfer) db with
      | (inr _, db') => (reply 200, db')
      | (inl _, db') =>
          (* this catch block has no ZodError case *)
          (reply 500, db')
      end
  end.

Definition set_trf_id (trf_id : string) (t : Transfer) : Transfer :=
  mkTransfer trf_id (t_source_inventory t) (t_destination_inventory t).

(** [retrieveByTrfId]: [findFirst] with every relation switched off, so the
    payload is the row. *)
Definition retrieveByTrfId (trfId : string) (db : DB)
  : Response Transfer * DB :=
  match select_first (fun t => ilike (t_trf_id t) trfId) (transfers db) with
  | None => (reply 404, db)
  | Some transfer => (mkResponse 200 (Some transfer), db)
  end.

(** [updateByTrfId]; [req.body] is its field [trf_id]. The new id is compared
    with the path parameter, not with the stored id. With [trf_id] undefined
    the [set] clause holds no value and drizzle-orm throws. *)
Definition updateByTrfId (trfId : string) (trf_id : Js.field) (db : DB)
  : Response (option Transfer) * DB :=
  if negb (updateTransferSchema trf_id) then (on_error ZodError, db) else
  match findTransferByTrfId db trfId with
  | None => (reply 404, db)
  | Some existingTransfer =>
      if Js.changed trf_id trfId
           (fun trf_id => Js.defined (findTransferByTrfId db trf_id))
      then (reply 409, db) else
      match trf_id with
      | None => (on_error (Error "No values to set"), db)
      | Some trf_id =>
          let matches := fun t => ilike (t_trf_id t) trfId in
          (mkResponse 200
             (Some (hd_error (returning matches (set_trf_id trf_id)
                                        (transfers db)))),
           set_transfers (update_where matches (set_trf_id trf_id)) db)
      end
  end.
End Schemas.
End transfersController.

(* ------------------------------------------------------------------ *)
(** ** Pricing in the words of the specification *)






(* ------------------------------------------------------------------ *)
(** ** Rows and checks of the handlers *)

(** The header row the transaction of a sale inserts first. *)
Definition header (req : SaleBody) : Sale :=
  mkSale (b_bill_id req) (b_customer_id req) (b_shipping_address req) 0 0
         (match b_status req with
          | Some s => s
          | None => "processing"
          end).

(** The sale line the loop inserts for [line] served from [productQuery]. *)
Definition newProduct (req : SaleBody) (line : SaleLine)
           (productQuery : InventoryProduct) : SaleProduct :=
  mkSaleProduct (ip_mr_id productQuery) (b_inventory req) (b_bill_id req)
                (l_product line) (l_quantity line) (l_unit_price line)
                (Js.or_num (l_discount line) 0)
                (productTotalPrice (l_quantity line) (l_unit_price line)
                                   (Js.or_num (l_discount line) 0)).

(** The total the loop computes for a sale line. *)
Definition sale_line_total (line : SaleLine) : Q :=
  productTotalPrice (l_quantity line) (l_unit_price line)
                    (Js.or_num (l_discount line) 0).

(** The purchase line the loop inserts for [line]. *)
Definition purchaseProduct (req : PurchaseBody) (line : PurchaseLine)
  : PurchaseProduct :=
  mkPurchaseProduct (pb_mr_id req) (pl_product line) (pl_quantity line)
                    (pl_unit_price line) (Js.or_num (pl_discount line) 0)
                    (productTotalPrice (pl_quantity line) (pl_unit_price line)
                                       (Js.or_num (pl_discount line) 0)).

(** The request passes every check that precedes the transaction of a sale
    creation. *)
Definition sale_checks_pass (insertSaleSchema : SaleBody -> bool)
           (req : SaleBody) (db : DB) (lines : list SaleLine) : Prop :=
  b_products req = Some lines
  /\ lines <> []
  /\ insertSaleSchema req = true
  /\ findSaleByBillId db (b_bill_id req) = None
  /\ findCustomerById db (b_customer_id req) <> None
  /\ findInventoryByName db (b_inventory req) <> None.



(** The adjustment field is absent, does not parse, or is 0. *)
(** The column holds [q] as it is: [q] has at most 3 decimals and fits. *)
Definition held (q : Q) : Prop :=
  exists r, numeric_10_3 q = Some r /\ r == q.

(** The money of every sale is a value of its column: the invariant that
    the statements on [sales] maintain. *)
Definition sales_in_column (db : DB) : Prop :=
  Forall (fun s => held (s_adjustment s) /\ held (s_total_amount s))
         (sales db).


(** No two sales carry one bill id up to letter case: the invariant that the
    conflict checks of creation and update maintain. *)
Definition distinct_bill_ids (db : DB) : Prop :=
  NoDup (map (fun s => lower (s_bill_id s)) (sales db)).

(* ------------------------------------------------------------------ *)
(** ** The ledger *)

(** The rows of the ledger that can serve a line, whatever the quantity. *)
Definition serves (inventory : string) (line : SaleLine) (r : InventoryProduct)
  : Prop :=
  ilike (ip_inventory r) inventory = true
  /\ ilike (ip_product r) (l_product line) = true.

(** A line is served from the row [fst m] of the ledger [t], for the
    quantity [snd m]. *)
Definition served_from (inventory : string) (t : list InventoryProduct)
           (line : SaleLine) (m : nat * Z) : Prop :=
  snd m = l_quantity line
  /\ exists r, In r t /\ ip_id r = fst m /\ serves inventory line r.

(** What the lines matched to the ledger row [id] asked for, summed; a
    matched line is the pair of the row it was served from and its
    quantity. *)
Fixpoint consumed (id : nat) (matched : list (nat * Z)) : Z :=
  match matched with
  | [] => 0
  | (i, q) :: rest => (if Nat.eqb id i then q else 0) + consumed id rest
  end.

(** [t'] is [t] with some quantities lowered. *)
Definition lowered (t' t : list InventoryProduct) : Prop :=
  Forall2 (fun r' r => ip_inventory r' = ip_inventory r
                       /\ ip_product r' = ip_product r
                       /\ (ip_quantity r' <= ip_quantity r)%Z) t' t.

(** No row of the ledger [t] holds [line] in the quantity it asks for. *)
Definition short_of (inventory : string) (t : list InventoryProduct)
           (line : SaleLine) : Prop :=
  forall r, In r t ->
            salesController.in_stock inventory (l_product line)
                                     (l_quantity line) r = false.

(** The quantity the rows selected by [f] hold together. *)
Definition quantity_of (f : InventoryProduct -> bool)
           (t : list InventoryProduct) : Z :=
  fold_right Z.add 0%Z (map ip_quantity (filter f t)).

(** The rows of a lot of a product, in whatever inventory. *)
Definition of_lot (mr_id productName : string) (r : InventoryProduct) : bool :=
  ilike (ip_mr_id r) mr_id && ilike (ip_product r) productName.

(** The system-wide quantity of a lot of a product. *)
Definition total_quantity (mr_id productName : string)
           (t : list InventoryProduct) : Z :=
  quantity_of (of_lot mr_id productName) t.

(** The primary keys of the ledger are pairwise distinct. *)
Definition distinct_ids (t : list InventoryProduct) : Prop :=
  NoDup (map ip_id t).

(** The rows of [t'] are the rows of [t] with other quantities. *)
Definition same_lots (t' t : list InventoryProduct) : Prop :=
  Forall2 (fun r' r => ip_inventory r' = ip_inventory r
                       /\ ip_mr_id r' = ip_mr_id r
                       /\ ip_product r' = ip_product r) t' t.

(** A run of steps, one per element of a list, from a first state to a
    last. *)
Inductive chain {A S : Type} (step : A -> S -> S -> Prop)
  : list A -> S -> S -> Prop :=
| chain_nil s : chain step [] s s
| chain_cons a l s1 s2 s3 :
    step a s1 s2 -> chain step l s2 s3 -> chain step (a :: l) s1 s3.

(** What a line of a transfer does to the ledger [t]: the first row of the
    lot at the source that holds the quantity loses it; the first row of
    the lot at the destination gains it, and when there is none a row is
    added for the lot at the destination with that quantity. *)
Definition line_moved (req : TransferBody) (line : TransferLine)
           (t t' : list InventoryProduct) : Prop :=
  exists source,
    select_first
      (fun r => at_lot (tb_source_inventory req) (tl_mr_id line)
                       (tl_product line) r
                && (tl_quantity line <=? ip_quantity r)%Z) t = Some source
    /\ let lost := fun r => if has_id (ip_id source) r
                            then tl_quantity line else 0%Z in
       match select_first
               (at_lot (tb_destination_inventory req) (tl_mr_id line)
                       (tl_product line)) t with
       | Some destination =>
           let gained := fun r => if has_id (ip_id destination) r
                                  then tl_quantity line else 0%Z in
           t' = map (fun r => quantity_plus (gained r - lost r) r) t
       | None =>
           exists id,
             ~ In id (map ip_id t)
             /\ t' = map (fun r => quantity_minus (lost r) r) t
                     ++ [mkInventoryProduct id (tl_mr_id line)
                                            (tb_destination_inventory req)
                                            (tl_product line)
                                            (tl_quantity line)]
       end.

(** What the deletion of a transfer does to the ledger [t] for a line: the
    quantity the first row of the lot at the destination holds now is added
    to the rows of the lot at the source and taken from the rows of the lot
    at the destination, which leaves the row that was read at 0 when the
    source and the destination are two inventories. *)
Definition line_moved_back (existingTransfer : Transfer)
           (line : TransferProduct) (t t' : list InventoryProduct) : Prop :=
  let at_source := at_lot (t_source_inventory existingTransfer)
                          (tp_mr_id line) (tp_product line) in
  let at_destination := at_lot (t_destination_inventory existingTransfer)
                               (tp_mr_id line) (tp_product line) in
  exists destination,
    select_first at_destination t = Some destination
    /\ let availableQuantity := ip_quantity destination in
       Forall2 (fun r r' =>
                  r' = quantity_plus
                         ((if at_source r then availableQuantity else 0)
                          - (if at_destination r then availableQuantity else 0))
                         r
                  /\ (r = destination ->
                      ilike (t_source_inventory existingTransfer)
                            (t_destination_inventory existingTransfer) = false ->
                      ip_quantity r' = 0%Z))
               t t'.

(* ------------------------------------------------------------------ *)
(** ** A shop to run the handlers on *)

Definition accept {A} (_ : A) : bool := true.

Definition positive_quantity (line : SaleLine) : bool :=
  (0 <? l_quantity line)%Z.

Definition shop : DB :=
  mkDB ["c1"] ["Acme"] ["Main"; "Depot"] ["widget"; "gadget"] [] []
       [mkInventoryProduct 1 "MR0001" "Main" "widget" 10;
        mkInventoryProduct 2 "MR0002" "Main" "gadget" 5]
       [] [] [] [].

Definition sale_of (bill_id : string) (lines : list SaleLine) : SaleBody :=
  mkSaleBody bill_id "c1" "Main" "12 Dock Road" None (Some lines).

(** Two lines for one product, and a line for more than the shop holds. *)
Definition two_widget_lines : list SaleLine :=
  [mkSaleLine "Widget" 3 (5 # 1) (Some (10 # 1));
   mkSaleLine "WIDGET" 4 (5 # 1) None].

Definition eleven_widgets : SaleLine := mkSaleLine "Widget" 11 (5 # 1) None.

Definition purchase_of (mr_id : string) (lines : list PurchaseLine)
  : PurchaseBody :=
  mkPurchaseBody mr_id "Acme" "Main" (Some lines).

Definition two_purchase_lines : list PurchaseLine :=
  [mkPurchaseLine "widget" 3 (5 # 1) (Some (10 # 1));
   mkPurchaseLine "gadget" 4 (5 # 2) None].

(** A sale of 100 and a purchase of 100, each stored with an adjustment
    of 30. *)
Definition billed : DB :=
  mkDB ["c1"] ["Acme"] ["Main"; "Depot"] ["widget"; "gadget"]
       [mkPurchase "MR0001" "Acme" "Main" (30 # 1) (70 # 1)]
       [mkPurchaseProduct "MR0001" "widget" 30 (10 # 3) 0 (100 # 1)]
       [mkInventoryProduct 1 "MR0001" "Main" "widget" 10]
       [mkSale "B-1" "c1" "12 Dock Road" (30 # 1) (70 # 1) "processing"]
       [mkSaleProduct "MR0001" "Main" "B-1" "widget" 20 (5 # 1) 0 (100 # 1)]
       [] [].


Definition adjust_sale (a : Q) : SaleUpdate :=
  mkSaleUpdate None None None (Some a) None.

Definition adjust_purchase (a : Q) : PurchaseUpdate :=
  mkPurchaseUpdate None None None (Some a).

(** A transfer of 4 widgets of lot MR0001 from Main to Depot, and the shop
    after it. *)
Definition transfer_of (trf_id : string) (lines : list TransferLine)
  : TransferBody :=
  mkTransferBody trf_id "Main" "Depot" (Some lines).

Definition four_widgets : TransferLine := mkTransferLine "mr0001" "Widget" 4.

Definition shop_after_transfer : DB :=
  snd (transfersController.create accept (transfer_of "T-1" [four_widgets]) shop).

(** The shop after the transfer with 5 more widgets of the lot received at
    the depot, and with the row of the lot at the depot gone. *)
Definition depot_restocked : DB :=
  set_inventoryProducts
    (update_where (at_lot "Depot" "MR0001" "widget") (quantity_plus 5))
    shop_after_transfer.

Definition depot_emptied : DB :=
  set_inventoryProducts
    (delete_where (fun r => ilike (ip_inventory r) "Depot"))
    shop_after_transfer.

(* ------------------------------------------------------------------ *)
(** ** Notions of the further properties *)

(** No row of the ledger holds a negative quantity. *)
Definition nonnegative (t : list InventoryProduct) : Prop :=
  Forall (fun r => (0 <= ip_quantity r)%Z) t.

(** The quantity the whole ledger holds. *)
Definition whole_stock (t : list InventoryProduct) : Z :=
  quantity_of (fun _ => true) t.

(** The quantity the lines of a sale ask for together. *)
Definition requested (lines : list SaleLine) : Z :=
  fold_right Z.add 0%Z (map l_quantity lines).

(** [row] is the sale line of [line]: it carries the bill and the inventory
    of the request, the product, quantity, price and discount of the line,
    and the lot of a row of the ledger [t] that serves the line. *)
Definition sale_line_of (req : SaleBody) (t : list InventoryProduct)
           (line : SaleLine) (row : SaleProduct) : Prop :=
  sp_bill_id row = b_bill_id req
  /\ sp_inventory row = b_inventory req
  /\ sp_product row = l_product line
  /\ sp_quantity row = l_quantity line
  /\ sp_unit_price row = l_unit_price line
  /\ sp_total_price row = sale_line_total line
  /\ exists r, In r t /\ serves (b_inventory req) line r
               /\ ip_mr_id r = sp_mr_id row.

(** The tables a sale creation has no statement for. *)
Definition same_catalogue_and_orders (db' db : DB) : Prop :=
  customers db' = customers db
  /\ vendors db' = vendors db
  /\ inventories db' = inventories db
  /\ products db' = products db
  /\ purchases db' = purchases db
  /\ purchaseProducts db' = purchaseProducts db
  /\ transfers db' = transfers db
  /\ transferProducts db' = transferProducts db.

(** The catalogue tables, which no handler of the three workflows writes. *)
Definition same_catalogue (db' db : DB) : Prop :=
  customers db' = customers db
  /\ vendors db' = vendors db
  /\ inventories db' = inventories db
  /\ products db' = products db.

(** The quantity the lines of a purchase bring in together. *)
Definition received (lines : list PurchaseLine) : Z :=
  fold_right Z.add 0%Z (map pl_quantity lines).

(** [r] is the ledger row of the purchase line [line]: the lot of the
    purchase, at the inventory of the purchase, with the product and the
    quantity of the line. *)
Definition ledger_row_of (req : PurchaseBody) (line : PurchaseLine)
           (r : InventoryProduct) : Prop :=
  ip_mr_id r = pb_mr_id req
  /\ ip_inventory r = pb_inventory req
  /\ ip_product r = pl_product line
  /\ ip_quantity r = pl_quantity line.

(** What a purchase update does to a row of the ledger: the rows of the lot
    are placed at [inventory], with their key, product and quantity; the
    other rows are kept. *)
Definition relocated (mrId inventory : string) (r r' : InventoryProduct)
  : Prop :=
  if ilike (ip_mr_id r) mrId
  then ip_id r' = ip_id r /\ ip_product r' = ip_product r
       /\ ip_quantity r' = ip_quantity r /\ ip_inventory r' = inventory
  else r' = r.

(** The header and the line that a transfer creation inserts. *)
Definition newTransfer (req : TransferBody) : Transfer :=
  mkTransfer (tb_trf_id req) (tb_source_inventory req)
             (tb_destination_inventory req).

Definition newTransferProduct (req : TransferBody) (line : TransferLine)
  : TransferProduct :=
  mkTransferProduct (tb_trf_id req) (tl_mr_id line) (tl_product line)
                    (tl_quantity line).

(** What schemas/transferProducts/validations.js asks of a line. *)
Definition valid_transfer_line (line : TransferLine) : Prop :=
  (6 <= String.length (tl_mr_id line) <= 20)%nat
  /\ tl_product line <> ""
  /\ (String.length (tl_product line) <= 80)%nat
  /\ (0 < tl_quantity line)%Z.

(** Every row of the lot at the inventory holds less than [quantity]. *)
Definition short_at (inventory : string) (line : TransferLine)
           (t : list InventoryProduct) : Prop :=
  forall r, In r t ->
            at_lot inventory (tl_mr_id line) (tl_product line) r = true ->
            (ip_quantity r < tl_quantity line)%Z.

(** The lot of the line has at most one row at the inventory, and none. *)
Definition single_row_at (inventory : string) (line : TransferLine)
           (t : list InventoryProduct) : Prop :=
  forall r r',
    In r t -> In r' t ->
    at_lot inventory (tl_mr_id line) (tl_product line) r = true ->
    at_lot inventory (tl_mr_id line) (tl_product line) r' = true ->
    r = r'.

Definition no_row_at (inventory : string) (line : TransferLine)
           (t : list InventoryProduct) : Prop :=
  forall r, In r t ->
            at_lot inventory (tl_mr_id line) (tl_product line) r = false.

(** Runs of the handlers on the shop: the sale of the two widget lines, the
    purchase of the two purchase lines, and the transfer of 4 widgets. *)
Definition widget_sale
  : Response (option Sale * list SaleProduct) * DB :=
  salesController.create accept positive_quantity
                         (sale_of "B-1" two_widget_lines) shop.

Definition widget_purchase
  : Response (option Purchase * list PurchaseProduct) * DB :=
  purchasesController.create accept accept
                             (purchase_of "MR0009" two_purchase_lines) shop.

Definition widget_transfer
  : Response (Transfer * list TransferProduct) * DB :=
  transfersController.create accept (transfer_of "T-1" [four_widgets]) shop.

(** The billed shop after the transfer of 4 widgets of its lot to the
    depot. *)
Definition billed_after_transfer : DB :=
  snd (transfersController.create accept (transfer_of "T-1" [four_widgets])
                                  billed).

(** A purchase line for a product the catalogue lacks, and a transfer line
    for more widgets than the shop holds. *)
Definition one_gizmo : PurchaseLine := mkPurchaseLine "gizmo" 1 (1 # 1) None.

Definition eleven_widgets_out : TransferLine :=
  mkTransferLine "MR0001" "widget" 11.

(* ------------------------------------------------------------------ *)
(** ** Case-insensitive matching is an equivalence *)

Lemma ilike_iff a b : ilike a b = true <-> lower a = lower b.
Proof. unfold ilike. apply String.eqb_eq. Qed.

Lemma ilike_refl a : ilike a a = true.
Proof. apply ilike_iff. reflexivity. Qed.

Lemma ilike_sym a b : ilike a b = ilike b a.
Proof. unfold ilike. apply String.eqb_sym. Qed.

Lemma ilike_trans a b c :
  ilike a b = true -> ilike b c = true -> ilike a c = true.
Proof. rewrite !ilike_iff. congruence. Qed.

Lemma ilike_congr a b c : ilike a b = true -> ilike a c = ilike b c.
Proof.
  intros Hab. apply ilike_iff in Hab. unfold ilike. now rewrite Hab.
Qed.

Lemma ilike_eq a b : a = b -> ilike a b = true.
Proof. intros ->. apply ilike_refl. Qed.

(* ------------------------------------------------------------------ *)
(** ** Transactions *)

Lemma transaction_throws {A} (body : Tx A) db e :
  body db = inl e -> transaction body db = (inl e, db).
Proof. unfold transaction. now intros ->. Qed.

Lemma transaction_returns {A} (body : Tx A) db a db' :
  body db = inr (a, db') -> transaction body db = (inr a, db').
Proof. unfold transaction. now intros ->. Qed.

Lemma transaction_unchanged {A} (body : Tx A) db e db' :
  transaction body db = (inl e, db') -> db' = db.
Proof.
  unfold transaction. destruct (body db) as [e'|[a d]]; congruence.
Qed.

Lemma on_error_status {A} e : status (@on_error A e) <> 201%nat.
Proof. destruct e; cbn; discriminate. Qed.


(* ------------------------------------------------------------------ *)
(** ** The numeric columns *)

(** 0.0004 is stored as 0.000, 0.0005 as 0.001 and -0.0005 as -0.001;
    9999999.9994 is stored as 9999999.999, and 9999999.9995, which rounds to
    10^7, is rejected. *)
Lemma numeric_10_3_examples :
  numeric_10_3 (4 # 10000) = Some (0 # 1000)
  /\ numeric_10_3 (5 # 10000) = Some (1 # 1000)
  /\ numeric_10_3 (- 5 # 10000) = Some (- 1 # 1000)
  /\ numeric_10_3 (99999999994 # 10000) = Some (9999999999 # 1000)
  /\ numeric_10_3 (99999999995 # 10000) = None.
Proof. repeat split. Qed.

Lemma thousandths_comp a b : a == b -> thousandths a = thousandths b.
Proof.
  intros H. unfold thousandths. rewrite H.
  destruct (Qle_bool 0 b);
    [apply Qfloor_comp|apply Qceiling_comp]; now rewrite H.
Qed.

Lemma numeric_10_3_comp a b : a == b -> numeric_10_3 a = numeric_10_3 b.
Proof. intros H. unfold numeric_10_3. now rewrite (thousandths_comp a b H). Qed.




Lemma Qfloor_unique x n :
  inject_Z n <= x -> x < inject_Z (n + 1) -> Qfloor x = n.
Proof.
  intros Hlo Hhi.
  pose proof (Qfloor_le x) as Hlo'. pose proof (Qlt_floor x) as Hhi'.
  assert (H1 : inject_Z n < inject_Z (Qfloor x + 1))
    by (eapply Qle_lt_trans; eauto).
  assert (H2 : inject_Z (Qfloor x) < inject_Z (n + 1))
    by (eapply Qle_lt_trans; eauto).
  rewrite <- Zlt_Qlt in H1, H2. lia.
Qed.

Lemma Qceiling_unique x n :
  inject_Z (n - 1) < x -> x <= inject_Z n -> Qceiling x = n.
Proof.
  intros Hlo Hhi.
  pose proof (Qle_ceiling x) as Hhi'. pose proof (Qceiling_lt x) as Hlo'.
  assert (H1 : inject_Z (n - 1) < inject_Z (Qceiling x))
    by (eapply Qlt_le_trans; eauto).
  assert (H2 : inject_Z (Qceiling x - 1) < inject_Z n)
    by (eapply Qlt_le_trans; eauto).
  rewrite <- Zlt_Qlt in H1, H2. lia.
Qed.

(** A value with at most 3 decimals is its own rounding. *)
Lemma thousandths_exact n : thousandths (n # 1000) = n.
Proof.
  unfold thousandths.
  assert (E : (n # 1000) * 1000 == inject_Z n)
    by (unfold Qeq, Qmult, inject_Z; cbn; lia).
  destruct (Qle_bool 0 (n # 1000)).
  - apply Qfloor_unique; rewrite E, ?inject_Z_plus;
      change (inject_Z 1) with 1; lra.
  - apply Qceiling_unique; rewrite E; unfold Z.sub;
      rewrite ?inject_Z_plus; change (inject_Z (- (1))) with (-1 # 1); lra.
Qed.

Lemma numeric_10_3_exact q n :
  q == n # 1000 -> (Z.abs n < 10 ^ 10)%Z -> held q.
Proof.
  intros Hq Hn. exists (n # 1000). split; [|now symmetry].
  rewrite (numeric_10_3_comp _ _ Hq). unfold numeric_10_3.
  rewrite thousandths_exact.
  now destruct (Z.ltb_spec (Z.abs n) (10 ^ 10)); [|lia].
Qed.

Lemma numeric_10_3_held q r : numeric_10_3 q = Some r -> held r.
Proof.
  unfold numeric_10_3.
  destruct (Z.ltb_spec (Z.abs (thousandths q)) (10 ^ 10)); [|discriminate].
  intros E. injection E as <-.
  now apply (numeric_10_3_exact _ (thousandths q)).
Qed.

(** A positive value below 0.0005 is stored as 0. *)
Lemma numeric_10_3_small q r :
  numeric_10_3 q = Some r -> Qabs q < 1 # 2000 -> r == 0.
Proof.
  unfold numeric_10_3. destruct (_ <? _)%Z; [|discriminate].
  intros H Hq. injection H as <-.
  assert (thousandths q = 0%Z) as ->; [|reflexivity].
  apply Qabs_Qlt_condition in Hq. destruct Hq as [Hlo Hhi].
  unfold thousandths. destruct (Qle_bool 0 q) eqn:E.
  - apply Qle_bool_iff in E.
    apply Qfloor_unique;
      [change (inject_Z 0) with 0|change (inject_Z (0 + 1)) with 1]; lra.
  - assert (q < 0).
    { apply Qnot_le_lt. intros H0. apply Qle_bool_iff in H0. congruence. }
    apply Qceiling_unique;
      [change (inject_Z (0 - 1)) with (-1 # 1)|change (inject_Z 0) with 0];
      lra.
Qed.

(* ------------------------------------------------------------------ *)
(** ** The ledger under the statements of a sale *)

Lemma quantity_minus_0 r : quantity_minus 0 r = r.
Proof. destruct r; unfold quantity_minus; cbn. f_equal. lia. Qed.

Lemma quantity_minus_minus a b r :
  quantity_minus b (quantity_minus a r) = quantity_minus (a + b) r.
Proof. unfold quantity_minus; cbn. f_equal. lia. Qed.

Lemma consumed_absent id matched :
  ~ In id (map fst matched) -> consumed id matched = 0%Z.
Proof.
  induction matched as [|[i q] matched IH]; cbn; intros H; [reflexivity|].
  destruct (Nat.eqb_spec id i) as [->|_]; [tauto|]. rewrite IH; tauto.
Qed.

(** A row that served one line only lost the quantity of that line. *)
Lemma consumed_single id q matched :
  In (id, q) matched -> NoDup (map fst matched) -> consumed id matched = q.
Proof.
  induction matched as [|[i q'] matched IH]; cbn; intros Hin Hnd;
    [contradiction|].
  inversion Hnd as [|? ? Hi Hrest]; subst.
  destruct Hin as [[= -> ->]|Hin].
  - rewrite Nat.eqb_refl, (consumed_absent _ _ Hi). lia.
  - destruct (Nat.eqb_spec id i) as [->|_].
    + exfalso. apply Hi. apply in_map_iff. now exists (i, q).
    + rewrite (IH Hin Hrest). lia.
Qed.

Lemma find_some_in {A} (f : A -> bool) l x :
  find f l = Some x -> In x l /\ f x = true.
Proof. apply find_some. Qed.

Lemma find_none_iff {A} (f : A -> bool) l :
  find f l = None <-> forall x, In x l -> f x = false.
Proof.
  split; [apply find_none|].
  induction l as [|a l IH]; cbn; intros H; [reflexivity|].
  rewrite (H a (or_introl eq_refl)). apply IH. intros x Hx. apply H. now right.
Qed.

Section SaleCreation.
Variable insertSaleSchema : SaleBody -> bool.
Variable insertSaleProductSchema : SaleLine -> bool.

Local Notation "'create_line'" :=
  (salesController.create_line insertSaleProductSchema).
Local Notation "'create_tx'" :=
  (salesController.create_tx insertSaleProductSchema).
Local Notation "'create'" :=
  (salesController.create insertSaleSchema insertSaleProductSchema).
Local Notation "'in_stock'" := salesController.in_stock.

Lemma create_line_returns req acc line db acc' db' :
  create_line req acc line db = inr (acc', db') ->
  exists productQuery,
    insertSaleProductSchema line = true
    /\ select_first (in_stock (b_inventory req) (l_product line) (l_quantity line))
                    (inventoryProducts db) = Some productQuery
    /\ acc' = acc ++ [newProduct req line productQuery]
    /\ db' = set_inventoryProducts
               (update_where (has_id (ip_id productQuery))
                             (quantity_minus (l_quantity line)))
               (set_saleProducts (insert (newProduct req line productQuery)) db).
Proof.
  unfold salesController.create_line.
  destruct (insertSaleProductSchema line); cbn [negb]; [|discriminate].
  unfold bind, get, throw, modify, ret.
  destruct (select_first _ _) as [pq|]; [|discriminate].
  intros H. injection H as <- <-. exists pq. repeat split; reflexivity.
Qed.

Lemma create_line_throws req acc line db e :
  create_line req acc line db = inl e ->
  (insertSaleProductSchema line = false /\ e = ZodError)
  \/ (insertSaleProductSchema line = true
      /\ select_first (in_stock (b_inventory req) (l_product line) (l_quantity line))
                      (inventoryProducts db) = None
      /\ e <> ZodError).
Proof.
  unfold salesController.create_line.
  destruct (insertSaleProductSchema line); cbn [negb].
  - unfold bind, get, throw, modify, ret.
    destruct (select_first _ _) as [pq|]; [discriminate|].
    intros H. injection H as <-. right. repeat split; discriminate.
  - unfold throw. intros H. injection H as <-. now left.
Qed.

Lemma in_update_quantity f n (t : list InventoryProduct) r' :
  In r' (update_where f (quantity_minus n) t) ->
  exists r, In r t /\ ip_id r = ip_id r' /\ ip_inventory r = ip_inventory r'
            /\ ip_product r = ip_product r' /\ ip_mr_id r = ip_mr_id r'.
Proof.
  unfold update_where. rewrite in_map_iff. intros (r & <- & Hr).
  exists r. destruct (f r); cbn; auto.
Qed.

(** The ledger after the loop: every row lost what the lines served from
    it asked for. *)
Lemma for_of_create_line_ledger req lines : forall acc db acc' db',
  for_of (create_line req) lines acc db = inr (acc', db') ->
  exists matched,
    Forall2 (served_from (b_inventory req) (inventoryProducts db)) lines matched
    /\ inventoryProducts db'
       = map (fun r => quantity_minus (consumed (ip_id r) matched) r)
             (inventoryProducts db).
Proof.
  induction lines as [|line lines IH]; intros acc db acc' db'; cbn [for_of].
  - unfold ret. intros H. injection H as <- <-. exists []. split; [constructor|].
    cbn. rewrite <- (map_id (inventoryProducts db)) at 1.
    apply map_ext. intros r. now rewrite quantity_minus_0.
  - unfold bind at 1.
    destruct (create_line req acc line db) as [e|[acc1 db1]] eqn:Hstep;
      [discriminate|].
    intros Hloop.
    apply create_line_returns in Hstep as (pq & _ & Hpq & _ & ->).
    apply IH in Hloop as (matched & Hserved & Hledger).
    apply find_some_in in Hpq as [Hin Hstock].
    exists ((ip_id pq, l_quantity line) :: matched). split.
    + constructor.
      * split; [reflexivity|]. exists pq. unfold salesController.in_stock in Hstock.
        apply andb_prop in Hstock as [Hstock _].
        apply andb_prop in Hstock as [? ?]. repeat split; assumption.
      * eapply Forall2_impl; [|exact Hserved].
        intros l m [Hq (r' & Hr' & Hid & Hs)]. split; [exact Hq|].
        cbn in Hr'. apply in_update_quantity in Hr' as (r & Hr & ? & Hi & Hp & ?).
        exists r. unfold serves in *. rewrite Hi, Hp. repeat split; try tauto.
        congruence.
    + rewrite Hledger. cbn [inventoryProducts set_inventoryProducts set_saleProducts].
      unfold update_where. rewrite map_map.
      apply map_ext. intros r. unfold has_id. cbn [consumed].
      destruct (Nat.eqb (ip_id r) (ip_id pq)) eqn:E.
      * rewrite quantity_minus_minus. reflexivity.
      * reflexivity.
Qed.

(** The loop writes the ledger and the sale lines only, and pushes one row
    per line, with the total of the line. *)
Lemma for_of_create_line_frame req lines : forall acc db acc' db',
  for_of (create_line req) lines acc db = inr (acc', db') ->
  sales db' = sales db
  /\ map sp_total_price acc'
     = map sp_total_price acc ++ map sale_line_total lines.
Proof.
  induction lines as [|line lines IH]; intros acc db acc' db'; cbn [for_of].
  - unfold ret. intros H. injection H as <- <-. cbn. now rewrite app_nil_r.
  - unfold bind at 1.
    destruct (create_line req acc line db) as [e|[acc1 db1]] eqn:Hstep;
      [discriminate|].
    intros Hloop.
    apply create_line_returns in Hstep as (pq & _ & _ & -> & ->).
    apply IH in Hloop as [Hsales Htotals]. split; [exact Hsales|].
    rewrite Htotals, map_app, <- app_assoc. reflexivity.
Qed.

Lemma lowered_refl t : lowered t t.
Proof. induction t; constructor; auto. repeat split; lia. Qed.

Lemma lowered_update t' t f n :
  (0 <= n)%Z -> lowered t' t ->
  lowered (update_where f (quantity_minus n) t') t.
Proof.
  intros Hn H. induction H as [|r' r t' t (Hi & Hp & Hq) _ IH]; cbn;
    constructor; auto.
  destruct (f r'); cbn; repeat split; auto; lia.
Qed.

Lemma lowered_in_stock t' t inventory productName quantity :
  lowered t' t ->
  (forall r, In r t -> in_stock inventory productName quantity r = false) ->
  forall r', In r' t' -> in_stock inventory productName quantity r' = false.
Proof.
  intros H. induction H as [|r' r t' t (Hi & Hp & Hq) _ IH]; cbn;
    intros Hnone x Hx; [contradiction|].
  destruct Hx as [<-|Hx]; [|apply IH; auto].
  specialize (Hnone r (or_introl eq_refl)).
  unfold salesController.in_stock in *. rewrite Hi, Hp.
  destruct (ilike (ip_inventory r) inventory && ilike (ip_product r) productName);
    cbn in *; [|reflexivity].
  apply Z.leb_gt. apply Z.leb_gt in Hnone. lia.
Qed.

Hypothesis insertSaleProductSchema_positive :
  forall line, insertSaleProductSchema line = true -> (0 < l_quantity line)%Z.

(** A line no row of the ledger can serve makes the loop throw, whatever
    the lines before it took. *)
Lemma for_of_create_line_short req t lines line : forall acc db,
  lowered (inventoryProducts db) t ->
  In line lines ->
  short_of (b_inventory req) t line ->
  exists e,
    for_of (create_line req) lines acc db = inl e
    /\ (forallb insertSaleProductSchema lines = true -> e <> ZodError).
Proof.
  induction lines as [|l lines IH]; intros acc db Hlow Hin Hshort;
    [contradiction|].
  cbn [for_of forallb]. unfold bind at 1.
  destruct (create_line req acc l db) as [e|[acc1 db1]] eqn:Hstep.
  - exists e. split; [reflexivity|]. intros Hvalid.
    apply andb_prop in Hvalid as [Hl _].
    apply create_line_throws in Hstep as [[Hl' _]|(_ & _ & He)];
      [congruence|exact He].
  - apply create_line_returns in Hstep as (pq & Hl & Hpq & -> & ->).
    destruct Hin as [->|Hin].
    + apply find_some_in in Hpq as [Hpq Hstock].
      rewrite (lowered_in_stock _ _ _ _ _ Hlow Hshort _ Hpq) in Hstock.
      discriminate.
    + destruct (IH (acc ++ [newProduct req l pq])
                   (set_inventoryProducts
                      (update_where (has_id (ip_id pq))
                                    (quantity_minus (l_quantity l)))
                      (set_saleProducts (insert (newProduct req l pq)) db)))
        as (e & He & Hz); auto.
      * cbn. apply lowered_update; [|exact Hlow].
        apply insertSaleProductSchema_positive in Hl. lia.
      * exists e. split; [exact He|]. intros Hvalid.
        apply andb_prop in Hvalid as [_ Hvalid]. auto.
Qed.

Lemma create_checks_pass req db lines :
  sale_checks_pass insertSaleSchema req db lines ->
  create req db
  = match transaction (create_tx req lines) db with
    | (inr newSale, db') => (mkResponse 201 (Some newSale), db')
    | (inl e, db') => (on_error e, db')
    end.
Proof.
  intros (Hp & Hne & Hs & Hb & Hc & Hi). unfold salesController.create.
  rewrite Hp, Hs, Hb. destruct lines as [|l lines]; [congruence|].
  cbn [negb].
  destruct (findCustomerById db (b_customer_id req)); [|congruence].
  destruct (findInventoryByName db (b_inventory req)); [|congruence].
  reflexivity.
Qed.

Lemma create_201 req db resp db' :
  create req db = (resp, db') -> status resp = 201%nat ->
  exists lines newSale,
    sale_checks_pass insertSaleSchema req db lines
    /\ create_tx req lines db = inr (newSale, db')
    /\ resp = mkResponse 201 (Some newSale).
Proof.
  unfold salesController.create.
  destruct (b_products req) as [[|l lines]|] eqn:Hp;
    try (intros H; injection H as <- <-; cbn; discriminate).
  destruct (insertSaleSchema req) eqn:Hs; cbn [negb];
    [|intros H; injection H as <- <-; cbn; discriminate].
  destruct (findSaleByBillId db (b_bill_id req)) eqn:Hb;
    [intros H; injection H as <- <-; cbn; discriminate|].
  destruct (findCustomerById db (b_customer_id req)) eqn:Hc;
    [|intros H; injection H as <- <-; cbn; discriminate].
  destruct (findInventoryByName db (b_inventory req)) eqn:Hi;
    [|intros H; injection H as <- <-; cbn; discriminate].
  unfold transaction.
  destruct (create_tx req (l :: lines) db) as [e|[newSale db1]] eqn:Htx.
  - intros H. injection H as <- <-. intros H. now apply on_error_status in H.
  - intros H. injection H as <- <-. intros _.
    exists (l :: lines), newSale. split; [|split; [exact Htx|reflexivity]].
    repeat split; auto; congruence.
Qed.

Lemma create_not_201 req db resp db' :
  create req db = (resp, db') -> status resp <> 201%nat -> db' = db.
Proof.
  unfold salesController.create.
  destruct (b_products req) as [[|l lines]|];
    try (intros H; injection H as <- <-; reflexivity).
  destruct (negb (insertSaleSchema req));
    [intros H; injection H as <- <-; reflexivity|].
  destruct (findSaleByBillId db (b_bill_id req));
    [intros H; injection H as <- <-; reflexivity|].
  destruct (findCustomerById db (b_customer_id req));
    [|intros H; injection H as <- <-; reflexivity].
  destruct (findInventoryByName db (b_inventory req));
    [|intros H; injection H as <- <-; reflexivity].
  unfold transaction.
  destruct (create_tx req (l :: lines) db) as [e|[newSale db1]].
  - intros H. injection H as <- <-. reflexivity.
  - intros H. injection H as <- <-. cbn. congruence.
Qed.

Lemma create_tx_returns req lines db newSale db' :
  create_tx req lines db = inr (newSale, db') ->
  exists db1 total_amount,
    for_of (create_line req) lines [] (set_sales (insert (header req)) db)
    = inr (snd newSale, db1)
    /\ numeric_10_3 (sum_total_price sp_total_price (snd newSale))
       = Some total_amount
    /\ db' = set_sales
               (update_where (fun s => ilike (s_bill_id s) (b_bill_id req))
                             (set_total_amount total_amount))
               db1
    /\ fst newSale
       = hd_error (returning (fun s => ilike (s_bill_id s) (b_bill_id req))
                             (set_total_amount total_amount)
                             (sales db1)).
Proof.
  unfold salesController.create_tx, salesController.insert_sale.
  unfold bind at 1. fold (header req).
  destruct (existsb _ (sales db)); [discriminate|].
  unfold bind at 1.
  destruct (for_of _ _ _ _) as [e|[all db1]] eqn:Hloop; [discriminate|].
  unfold bind at 1. unfold get at 1.
  destruct (numeric_10_3 (sum_total_price sp_total_price all))
    as [total_amount|] eqn:Hfit; [|discriminate].
  unfold bind, modify, ret. intros H. injection H as <- <-.
  exists db1, total_amount. cbn. repeat split. exact Hfit.
Qed.


Lemma find_is_some {A} (f : A -> bool) l x :
  In x l -> f x = true -> exists y, find f l = Some y.
Proof.
  intros Hx Hf. destruct (find f l) as [y|] eqn:E; [now exists y|].
  rewrite (find_none _ _ E x Hx) in Hf. discriminate.
Qed.

(** C7. A sale creation whose bill_id names an existing sale, up to letter
    case, is answered 409 and leaves every table as it was. *)
Theorem sale_create_existing_bill_id_conflict req db lines existing :
  b_products req = Some lines ->
  lines <> [] ->
  insertSaleSchema req = true ->
  In existing (sales db) ->
  lower (s_bill_id existing) = lower (b_bill_id req) ->
  create req db = (reply 409, db).
Proof.
  intros Hp Hne Hs Hin Hlow. unfold salesController.create.
  rewrite Hp, Hs. destruct lines as [|l lines]; [congruence|]. cbn [negb].
  destruct (find_is_some (fun s => ilike (s_bill_id s) (b_bill_id req))
                         (sales db) existing Hin) as [y Hy].
  - now apply ilike_iff.
  - unfold findSaleByBillId, select_first. now rewrite Hy.
Qed.


(** C1, amended. After a successful sale creation every ledger row holds
    what it held before minus the quantities of all the lines of the request
    that were served from it; a creation that is not successful leaves every
    table as it was, and a creation with a line that no ledger row of its
    inventory and product can serve in the quantity asked is not
    successful. *)
Theorem sale_create_ledger_all_or_nothing req db resp db' :
  create req db = (resp, db') ->
  (status resp = 201%nat ->
   exists lines matched,
     b_products req = Some lines
     /\ Forall2 (served_from (b_inventory req) (inventoryProducts db))
                lines matched
     /\ inventoryProducts db'
        = map (fun r => quantity_minus (consumed (ip_id r) matched) r)
              (inventoryProducts db))
  /\ (status resp <> 201%nat -> db' = db)
  /\ (forall lines line,
        b_products req = Some lines ->
        In line lines ->
        short_of (b_inventory req) (inventoryProducts db) line ->
        status resp <> 201%nat /\ db' = db).
Proof.
  intros Hrun. split; [|split].
  - intros H201.
    destruct (create_201 _ _ _ _ Hrun H201) as (lines & newSale & Hchk & Htx & _).
    apply create_tx_returns in Htx as (db1 & total_amount & Hloop & _ & -> & _).
    apply for_of_create_line_ledger in Hloop as (matched & Hserved & Hledger).
    exists lines, matched. split; [apply Hchk|]. split; [exact Hserved|].
    exact Hledger.
  - apply (create_not_201 _ _ _ _ Hrun).
  - intros lines line Hp Hin Hshort.
    assert (H : status resp <> 201%nat).
    { intros H201.
      destruct (create_201 _ _ _ _ Hrun H201)
        as (lines' & newSale & Hchk & Htx & _).
      assert (lines' = lines) by (destruct Hchk as [Hp' _]; congruence).
      subst lines'.
      apply create_tx_returns in Htx as (db1 & total_amount & Hloop & _).
      destruct (for_of_create_line_short req (inventoryProducts db) lines line
                  [] (set_sales (insert (header req)) db))
        as (e & He & _); auto.
      - apply lowered_refl.
      - congruence. }
    split; [exact H|]. now apply (create_not_201 _ _ _ _ Hrun).
Qed.

(** Bill ids distinct up to case are an invariant of the creation. *)
Lemma sale_create_invariant req db resp db' :
  create req db = (resp, db') ->
  distinct_bill_ids db -> distinct_bill_ids db'.
Proof.
  intros Hrun Hnd.
  destruct (Nat.eq_dec (status resp) 201) as [H201|Hnot];
    [|now rewrite (create_not_201 _ _ _ _ Hrun Hnot)].
  destruct (create_201 _ _ _ _ Hrun H201) as (lines & newSale & Hchk & Htx & _).
  destruct Hchk as (_ & _ & _ & Hnone & _).
  apply create_tx_returns in Htx as (db1 & total_amount & Hloop & _ & -> & _).
  apply for_of_create_line_frame in Hloop as [Hsales _].
  unfold distinct_bill_ids. cbn [sales set_sales]. rewrite Hsales.
  cbn [sales set_sales]. unfold update_where, insert. rewrite map_map.
  rewrite (map_ext _ (fun s => lower (s_bill_id s)))
    by (intros s; now destruct (ilike (s_bill_id s) (b_bill_id req))).
  rewrite map_app. apply NoDup_app; [exact Hnd| |].
  - repeat constructor. intros [].
  - intros k Hk [<-|[]]. apply in_map_iff in Hk as (s & Hs & Hin).
    unfold findSaleByBillId, select_first in Hnone.
    rewrite find_none_iff in Hnone. specialize (Hnone s Hin). cbn in Hnone.
    cbn in Hs. apply (proj2 (ilike_iff _ _)) in Hs. congruence.
Qed.

(** The stock lookup of a line finds a row as soon as the ledger holds one
    whose inventory and product equal the requested ones up to letter case
    and whose quantity suffices; the row found is such a row. *)
Lemma stock_lookup_any_case inventory line t r :
  In r t ->
  lower (ip_inventory r) = lower inventory ->
  lower (ip_product r) = lower (l_product line) ->
  (l_quantity line <= ip_quantity r)%Z ->
  exists m,
    select_first (in_stock inventory (l_product line) (l_quantity line)) t
    = Some m
    /\ serves inventory line m
    /\ (l_quantity line <= ip_quantity m)%Z.
Proof.
  intros Hin Hinv Hprod Hq.
  destruct (find_is_some
              (in_stock inventory (l_product line) (l_quantity line)) t r Hin)
    as [m Hm].
  { unfold salesController.in_stock.
    rewrite (proj2 (ilike_iff _ _) Hinv), (proj2 (ilike_iff _ _) Hprod).
    cbn. now apply Z.leb_le. }
  exists m. split; [exact Hm|].
  destruct (find_some_in _ _ _ Hm) as [_ Hstock].
  unfold salesController.in_stock in Hstock.
  apply andb_prop in Hstock as [Hstock Hle].
  apply andb_prop in Hstock as [Hi Hp].
  split; [split; assumption|]. now apply Z.leb_le.
Qed.

(** C8. Matching of a sale line against the ledger ignores letter case:
    in every state of the ledger the lookup of a line finds a row when one
    holds the requested inventory and product up to case in the requested
    quantity; and a request with one such line, "Widget" in "Main" against a
    row stored as "widget" in "Main" say, whose total fits the column of the
    header, is served from such a row and succeeds. *)
Theorem sale_create_matches_any_case :
  (forall inventory line t r,
      In r t ->
      lower (ip_inventory r) = lower inventory ->
      lower (ip_product r) = lower (l_product line) ->
      (l_quantity line <= ip_quantity r)%Z ->
      exists m,
        select_first (in_stock inventory (l_product line) (l_quantity line)) t
        = Some m
        /\ serves inventory line m)
  /\ (forall req db line r,
         sale_checks_pass insertSaleSchema req db [line] ->
         insertSaleProductSchema line = true ->
         numeric_10_3 (sale_line_total line) <> None ->
         In r (inventoryProducts db) ->
         lower (ip_inventory r) = lower (b_inventory req) ->
         lower (ip_product r) = lower (l_product line) ->
         (l_quantity line <= ip_quantity r)%Z ->
         exists m,
           In m (inventoryProducts db)
           /\ serves (b_inventory req) line m
           /\ status (fst (create req db)) = 201%nat
           /\ inventoryProducts (snd (create req db))
              = update_where (has_id (ip_id m))
                             (quantity_minus (l_quantity line))
                             (inventoryProducts db)
           /\ saleProducts (snd (create req db))
              = saleProducts db ++ [newProduct req line m]).
Proof.
  split.
  { intros inventory line t r Hin Hinv Hprod Hq.
    destruct (stock_lookup_any_case inventory line t r Hin Hinv Hprod Hq)
      as (m & Hm & Hs & _).
    now exists m. }
  intros req db line r Hchk Hvalid Hfits Hin Hinv Hprod Hq.
  destruct (stock_lookup_any_case _ line _ r Hin Hinv Hprod Hq)
    as (m & Hm & Hs & _).
  exists m. split; [now apply find_some_in in Hm|]. split; [exact Hs|].
  rewrite (create_checks_pass _ _ _ Hchk).
  destruct Hchk as (_ & _ & _ & Hb & _).
  assert (Htotal : sum_total_price sp_total_price [newProduct req line m]
                   == sale_line_total line).
  { unfold sum_total_price. cbn [fold_left]. apply Qplus_0_l. }
  destruct (numeric_10_3 (sale_line_total line)) as [total_amount|] eqn:Hfit;
    [clear Hfits|congruence].
  rewrite <- (numeric_10_3_comp _ _ Htotal) in Hfit.
  assert (Htx : exists newSale db1,
             create_tx req [line] db = inr (newSale, db1)
             /\ inventoryProducts db1
                = update_where (has_id (ip_id m))
                               (quantity_minus (l_quantity line))
                               (inventoryProducts db)
             /\ saleProducts db1 = saleProducts db ++ [newProduct req line m]).
  { unfold salesController.create_tx, salesController.insert_sale.
    unfold bind at 1.
    destruct (existsb _ (sales db)) eqn:Hdup.
    { apply existsb_exists in Hdup as (s & Hs' & Heq). cbn in Heq.
      apply String.eqb_eq in Heq.
      unfold findSaleByBillId, select_first in Hb.
      rewrite find_none_iff in Hb. specialize (Hb s Hs'). cbn in Hb.
      rewrite (ilike_eq _ _ Heq) in Hb. discriminate. }
    cbn [for_of]. unfold salesController.create_line. rewrite Hvalid.
    cbn [negb]. unfold bind, get, modify, ret, throw.
    cbn [inventoryProducts set_sales]. unfold select_first in Hm |- *.
    rewrite Hm. cbn [app]. fold (newProduct req line m). rewrite Hfit.
    eexists _, _. split; [reflexivity|]. split; reflexivity. }
  destruct Htx as (newSale & db1 & Htx & Hledger & Hlines).
  unfold transaction. rewrite Htx. cbn [fst snd status]. auto.
Qed.
End SaleCreation.


Lemma positive_quantity_positive line :
  positive_quantity line = true -> (0 < l_quantity line)%Z.
Proof. apply Z.ltb_lt. Qed.


(** C1, the claim as worded fails: both lines of the request, for 3 and for
    4 widgets, are served from the one row of widgets, which holds 10; the
    creation succeeds and the row ends at 3, which is what it held minus the
    quantity of neither line. *)
Lemma sale_create_two_lines_one_row :
  let run := salesController.create accept positive_quantity
               (sale_of "B-1" two_widget_lines) shop in
  status (fst run) = 201%nat
  /\ forall line r r',
       In line two_widget_lines ->
       In r (inventoryProducts shop) ->
       serves "Main" line r ->
       In r' (inventoryProducts (snd run)) ->
       ip_id r' = ip_id r ->
       ip_quantity r' <> (ip_quantity r - l_quantity line)%Z.
Proof.
  cbv zeta. split; [reflexivity|].
  assert (E : inventoryProducts
                (snd (salesController.create accept positive_quantity
                        (sale_of "B-1" two_widget_lines) shop))
              = [mkInventoryProduct 1 "MR0001" "Main" "widget" 3;
                 mkInventoryProduct 2 "MR0002" "Main" "gadget" 5])
    by reflexivity.
  rewrite E. clear E.
  intros line r r' [<-|[<-|[]]] [<-|[<-|[]]] [_ Hs] [<-|[<-|[]]] Hid;
    cbn in Hid; try discriminate; cbn in Hs; try discriminate;
    cbn; discriminate.
Qed.

Lemma sale_create_ledger_all_or_nothing_witness :
  (exists lines matched,
      b_products (sale_of "B-1" two_widget_lines) = Some lines
      /\ Forall2 (served_from "Main" (inventoryProducts shop)) lines matched
      /\ inventoryProducts
           (snd (salesController.create accept positive_quantity
                   (sale_of "B-1" two_widget_lines) shop))
         = map (fun r => quantity_minus (consumed (ip_id r) matched) r)
               (inventoryProducts shop))
  /\ snd (salesController.create accept positive_quantity
            (sale_of "B-2" [eleven_widgets]) shop) = shop.
Proof.
  split.
  - apply (proj1 (sale_create_ledger_all_or_nothing
                    accept positive_quantity positive_quantity_positive
                    (sale_of "B-1" two_widget_lines) shop _ _
                    (surjective_pairing _))).
    reflexivity.
  - apply (proj2 (proj2 (sale_create_ledger_all_or_nothing
                           accept positive_quantity positive_quantity_positive
                           (sale_of "B-2" [eleven_widgets]) shop _ _
                           (surjective_pairing _)))
             [eleven_widgets] eleven_widgets).
    + reflexivity.
    + now left.
    + intros r [<-|[<-|[]]]; reflexivity.
Defined.

Lemma sale_create_existing_bill_id_conflict_witness :
  let db := set_sales (insert (mkSale "b-1" "c1" "12 Dock Road" 0 0 "processing"))
                      shop in
  salesController.create accept positive_quantity
    (sale_of "B-1" two_widget_lines) db = (reply 409, db).
Proof.
  cbv zeta.
  apply (sale_create_existing_bill_id_conflict accept positive_quantity
           _ _ two_widget_lines
           (mkSale "b-1" "c1" "12 Dock Road" 0 0 "processing")).
  - reflexivity.
  - discriminate.
  - reflexivity.
  - cbn. now left.
  - reflexivity.
Defined.

(** The example of the specification: product "Widget" in inventory "Main"
    against a row stored as "widget" in "Main". *)
Lemma sale_create_matches_any_case_witness :
  exists m,
    In m (inventoryProducts shop)
    /\ ip_product m = "widget" /\ ip_inventory m = "Main"
    /\ status (fst (salesController.create accept positive_quantity
                      (sale_of "B-1" [mkSaleLine "Widget" 3 (5 # 1) None])
                      shop)) = 201%nat.
Proof.
  destruct (proj2 (sale_create_matches_any_case accept positive_quantity)
              (sale_of "B-1" [mkSaleLine "Widget" 3 (5 # 1) None]) shop
              (mkSaleLine "Widget" 3 (5 # 1) None)
              (mkInventoryProduct 1 "MR0001" "Main" "widget" 10))
    as (m & Hm & [_ Hs] & H201 & _).
  - repeat split; cbn; discriminate.
  - reflexivity.
  - discriminate.
  - cbn. now left.
  - reflexivity.
  - reflexivity.
  - cbn. lia.
  - exists m. split; [exact Hm|].
    destruct Hm as [<-|[<-|[]]]; [|discriminate Hs].
    repeat split; exact H201.
Defined.

(* ------------------------------------------------------------------ *)
(** ** Pricing *)







(* ------------------------------------------------------------------ *)
(** ** Headers after a creation *)

Lemma find_app_none {A} (f : A -> bool) l x :
  find f l = None -> f x = true -> find f (l ++ [x]) = Some x.
Proof.
  induction l as [|a l IH]; cbn; intros Hl Hx.
  - now rewrite Hx.
  - destruct (f a); [discriminate|]. auto.
Qed.


Section PurchaseCreation.
Variable insertPurchaseSchema : PurchaseBody -> bool.
Variable insertPurchaseProductSchema : PurchaseLine -> bool.

Local Notation "'create'" :=
  (purchasesController.create insertPurchaseSchema insertPurchaseProductSchema).


End PurchaseCreation.


Section HeaderTotals.
Variable insertPurchaseSchema : PurchaseBody -> bool.
Variable insertPurchaseProductSchema : PurchaseLine -> bool.
Variable insertSaleSchema : SaleBody -> bool.
Variable insertSaleProductSchema : SaleLine -> bool.

End HeaderTotals.


(** A sale whose total the column rejects is not created: one widget at ten
    million is found in stock, the update of the total throws, the
    transaction keeps nothing and the answer is 500. *)
Lemma sale_create_total_overflow :
  salesController.create
    accept positive_quantity
    (sale_of "B-1" [mkSaleLine "widget" 1 (10000000 # 1) None]) shop
  = (reply 500, shop).
Proof. reflexivity. Qed.


(* ------------------------------------------------------------------ *)
(** ** Updates and the adjustment *)






Lemma changed_or_str f existing k :
  Js.changed f existing k = false ->
  Js.or_str f existing = existing
  \/ (Js.or_str f existing <> existing /\ k (Js.or_str f existing) = false).
Proof.
  destruct f as [s|]; cbn; [|now left].
  destruct (String.eqb s "") eqn:E0; cbn; [now left|].
  destruct (String.eqb_spec s existing) as [->|Hne]; cbn; [now left|].
  intros Hk. right. now split.
Qed.

Lemma hd_error_returning {A} (f : A -> bool) (g : A -> A) l x :
  find f l = Some x -> hd_error (returning f g l) = Some (g x).
Proof.
  unfold returning. induction l as [|a l IH]; cbn; [discriminate|].
  destruct (f a); cbn; [now intros [= ->]|exact IH].
Qed.


(** Overwriting the key of the rows a filter selects keeps the keys
    distinct when the selected rows shared their key and the new key is
    not in use. *)
Lemma NoDup_map_replace {A B} (k : A -> B) (P : A -> bool) (b : B) l :
  NoDup (map k l) ->
  (forall x y, In x l -> In y l -> P x = true -> P y = true -> k x = k y) ->
  ~ In b (map k l) ->
  NoDup (map (fun x => if P x then b else k x) l).
Proof.
  induction l as [|a l IH]; cbn; intros Hnd Hsame Hb; [constructor|].
  inversion Hnd as [|? ? Ha Hl]; subst. constructor.
  - rewrite in_map_iff. intros (y & Hy & Hin).
    destruct (P a) eqn:Pa; destruct (P y) eqn:Py.
    + apply Ha. rewrite (Hsame a y); auto. now apply in_map.
    + apply Hb. right. rewrite <- Hy. now apply in_map.
    + apply Hb. left. congruence.
    + apply Ha. rewrite <- Hy. now apply in_map.
  - apply IH; auto.
Qed.

Section SaleUpdate.
Variable updateSaleSchema : SaleUpdate -> bool.

Local Notation "'updateByBillId'" :=
  (salesController.updateByBillId updateSaleSchema).

(** The update of a sale keeps the bill ids distinct up to case: the rows it
    overwrites shared their bill id up to case, and the bill id it writes is
    theirs or one the conflict check found unused. *)
Lemma sale_update_keeps_distinct billId body db existingSale a t :
  distinct_bill_ids db ->
  findSaleByBillId db billId = Some existingSale ->
  Js.changed (u_bill_id body) (s_bill_id existingSale)
             (fun bill_id => Js.defined (findSaleByBillId db bill_id)) = false ->
  NoDup (map (fun s => lower (s_bill_id s))
             (update_where (fun s => ilike (s_bill_id s) billId)
                           (salesController.updatedData body existingSale a t)
                           (sales db))).
Proof.
  intros Hnd Hfind Hch. unfold update_where. rewrite map_map.
  apply find_some_in in Hfind as [Hin Hex]. cbn in Hex.
  apply ilike_iff in Hex.
  apply changed_or_str in Hch.
  set (new := Js.or_str (u_bill_id body) (s_bill_id existingSale)) in *.
  assert (Hext : forall s,
             lower (s_bill_id (if ilike (s_bill_id s) billId
                               then salesController.updatedData
                                      body existingSale a t s
                               else s))
             = if ilike (s_bill_id s) billId then lower new
               else lower (s_bill_id s)).
  { intros s. now destruct (ilike (s_bill_id s) billId). }
  rewrite (map_ext _ _ Hext).
  destruct Hch as [Hsame|[_ Hfree]].
  - rewrite (map_ext_in _ (fun s => lower (s_bill_id s))); [exact Hnd|].
    intros s _. destruct (ilike (s_bill_id s) billId) eqn:E; [|reflexivity].
    apply ilike_iff in E. rewrite Hsame. congruence.
  - apply (NoDup_map_replace (fun s => lower (s_bill_id s))
                             (fun s => ilike (s_bill_id s) billId)).
    + exact Hnd.
    + intros x y _ _ Hx Hy. apply ilike_iff in Hx, Hy. congruence.
    + rewrite in_map_iff. intros (s & Hs & Hins).
      destruct (findSaleByBillId db new) eqn:E; [discriminate|].
      unfold findSaleByBillId, select_first in E.
      rewrite find_none_iff in E. specialize (E s Hins). cbn in E.
      apply ilike_iff in Hs. congruence.
Qed.


(** Bill ids distinct up to case are an invariant of the update. *)
Lemma sale_update_invariant billId body db resp db' :
  updateByBillId billId body db = (resp, db') ->
  distinct_bill_ids db -> distinct_bill_ids db'.
Proof.
  intros Hrun Hnd. revert Hrun. unfold salesController.updateByBillId.
  destruct (negb (updateSaleSchema body));
    [intros H; injection H as <- <-; exact Hnd|].
  destruct (findSaleByBillId db billId) as [existingSale|] eqn:Hfind;
    [|intros H; injection H as <- <-; exact Hnd].
  destruct (Js.changed (u_bill_id body) _ _) eqn:Hch;
    [intros H; injection H as <- <-; exact Hnd|].
  destruct (Js.changed (u_customer_id body) _ _);
    [intros H; injection H as <- <-; exact Hnd|].
  destruct (Js.and_num _ _);
    [intros H; injection H as <- <-; exact Hnd|].
  destruct (numeric_10_3 (Js.or_num _ _)) as [adjustment|];
    [|intros H; injection H as <- <-; exact Hnd].
  destruct (numeric_10_3 _) as [total_amount|];
    [|intros H; injection H as <- <-; exact Hnd].
  destruct (negb (unique_bill_ids _));
    [intros H; injection H as <- <-; exact Hnd|].
  destruct (hd_error _); intros H; injection H as <- <-;
    unfold distinct_bill_ids; cbn [sales set_sales];
    now apply sale_update_keeps_distinct.
Qed.




End SaleUpdate.

Section PurchaseUpdate.
Variable updatePurchaseSchema : PurchaseUpdate -> bool.

Local Notation "'updateByMrId'" :=
  (purchasesController.updateByMrId updatePurchaseSchema).


End PurchaseUpdate.

Section Adjustment.
Variable updateSaleSchema : SaleUpdate -> bool.
Variable updatePurchaseSchema : PurchaseUpdate -> bool.

Local Notation "'updateByBillId'" :=
  (salesController.updateByBillId updateSaleSchema).
Local Notation "'updateByMrId'" :=
  (purchasesController.updateByMrId updatePurchaseSchema).

End Adjustment.

Section ZeroAdjustment.
Variable updateSaleSchema : SaleUpdate -> bool.
Variable updatePurchaseSchema : PurchaseUpdate -> bool.

Local Notation "'updateByBillId'" :=
  (salesController.updateByBillId updateSaleSchema).
Local Notation "'updateByMrId'" :=
  (purchasesController.updateByMrId updatePurchaseSchema).

End ZeroAdjustment.




Lemma billed_distinct_bill_ids : distinct_bill_ids billed.
Proof. unfold distinct_bill_ids. cbn. repeat constructor. intros []. Qed.


Lemma billed_held_30 : held (30 # 1).
Proof. apply (numeric_10_3_exact _ 30000); reflexivity. Qed.

Lemma billed_in_column : sales_in_column billed.
Proof.
  unfold sales_in_column. cbn. repeat constructor; cbn.
  - exact billed_held_30.
  - apply (numeric_10_3_exact _ 70000); reflexivity.
Qed.



(* ------------------------------------------------------------------ *)
(** ** The ledger under the statements of a transfer *)

(** Two rows with the fields of [r] are equal when their quantities are. *)
Ltac same_row r :=
  destruct r; unfold quantity_plus, quantity_minus; cbn; f_equal; lia.

Lemma quantity_plus_0 r : quantity_plus 0 r = r.
Proof. same_row r. Qed.

Lemma at_lot_quantity_plus inventory mr_id productName n r :
  at_lot inventory mr_id productName (quantity_plus n r)
  = at_lot inventory mr_id productName r.
Proof. reflexivity. Qed.

Lemma quantity_of_cons f r t :
  quantity_of f (r :: t)
  = ((if f r then ip_quantity r else 0) + quantity_of f t)%Z.
Proof. unfold quantity_of. cbn. now destruct (f r). Qed.

Lemma quantity_of_app f t1 t2 :
  quantity_of f (t1 ++ t2) = (quantity_of f t1 + quantity_of f t2)%Z.
Proof.
  induction t1 as [|r t1 IH]; [reflexivity|].
  cbn [app]. rewrite !quantity_of_cons, IH. lia.
Qed.

Lemma update_where_absent id g (t : list InventoryProduct) :
  ~ In id (map ip_id t) -> update_where (has_id id) g t = t.
Proof.
  unfold update_where. induction t as [|r t IH]; cbn; intros H; [reflexivity|].
  unfold has_id at 1. destruct (Nat.eqb_spec (ip_id r) id) as [E|E].
  - exfalso. apply H. now left.
  - f_equal. apply IH. intros Hin. apply H. now right.
Qed.

Lemma map_ip_id_update f g (t : list InventoryProduct) :
  (forall r, ip_id (g r) = ip_id r) ->
  map ip_id (update_where f g t) = map ip_id t.
Proof.
  intros Hg. unfold update_where. rewrite map_map. apply map_ext.
  intros r. now destruct (f r).
Qed.

(** Adding [n] to the row with the key [id] adds [n] to the quantity of
    every selection the row belongs to. *)
Lemma quantity_of_update_plus f id n t x :
  (forall r m, f (quantity_plus m r) = f r) ->
  distinct_ids t -> In x t -> ip_id x = id ->
  quantity_of f (update_where (has_id id) (quantity_plus n) t)
  = (quantity_of f t + (if f x then n else 0))%Z.
Proof.
  intros Hf. unfold distinct_ids.
  induction t as [|r t IH]; cbn [map]; intros Hnd Hin Hid; [contradiction|].
  inversion Hnd as [|? ? Hr Ht]; subst.
  change (update_where (has_id (ip_id x)) (quantity_plus n) (r :: t))
    with ((if has_id (ip_id x) r then quantity_plus n r else r)
            :: update_where (has_id (ip_id x)) (quantity_plus n) t).
  rewrite !quantity_of_cons.
  destruct Hin as [->|Hin].
  - assert (E : has_id (ip_id x) x = true) by apply Nat.eqb_refl.
    rewrite !E, Hf, (update_where_absent _ _ _ Hr).
    cbn [ip_quantity quantity_plus]. destruct (f x); lia.
  - destruct (has_id (ip_id x) r) eqn:E.
    + exfalso. apply Hr. apply Nat.eqb_eq in E. rewrite E. now apply in_map.
    + rewrite (IH Ht Hin eq_refl). lia.
Qed.

Lemma quantity_minus_plus n r : quantity_minus n r = quantity_plus (- n) r.
Proof. unfold quantity_minus, quantity_plus. f_equal. Qed.

Lemma quantity_of_update_minus f id n t x :
  (forall r m, f (quantity_plus m r) = f r) ->
  distinct_ids t -> In x t -> ip_id x = id ->
  quantity_of f (update_where (has_id id) (quantity_minus n) t)
  = (quantity_of f t - (if f x then n else 0))%Z.
Proof.
  intros Hf Hnd Hin Hid.
  unfold update_where.
  rewrite (map_ext _ (fun r => if has_id id r then quantity_plus (- n) r else r))
    by (intros r; now rewrite quantity_minus_plus).
  fold (update_where (has_id id) (quantity_plus (- n)) t).
  rewrite (quantity_of_update_plus f id (- n) t x Hf Hnd Hin Hid).
  destruct (f x); lia.
Qed.

Lemma fresh_id_above (t : list InventoryProduct) id :
  In id (map ip_id t) -> (id < fresh_id t)%nat.
Proof.
  unfold fresh_id. induction t as [|r t IH]; cbn; [contradiction|].
  intros [<-|H]; [lia|]. specialize (IH H). lia.
Qed.

Lemma fresh_id_fresh (t : list InventoryProduct) :
  ~ In (fresh_id t) (map ip_id t).
Proof. intros H. apply fresh_id_above in H. lia. Qed.

Lemma of_lot_same_lot inventory inventory' mr_id productName r r' m p :
  at_lot inventory mr_id productName r = true ->
  at_lot inventory' mr_id productName r' = true ->
  of_lot m p r = of_lot m p r'.
Proof.
  unfold at_lot, of_lot. intros H H'.
  apply andb_prop in H as [H Hp]. apply andb_prop in H as [_ Hm].
  apply andb_prop in H' as [H' Hp']. apply andb_prop in H' as [_ Hm'].
  rewrite (ilike_congr _ _ m Hm), (ilike_congr _ _ m Hm').
  rewrite (ilike_congr _ _ p Hp), (ilike_congr _ _ p Hp'). reflexivity.
Qed.

Section TransferCreation.
Variable insertTransferSchema : TransferBody -> bool.

Local Notation "'create'" := (transfersController.create insertTransferSchema).
Local Notation "'create_line'" := transfersController.create_line.

Lemma transfer_line_returns req acc line db acc' db' :
  create_line req acc line db = inr (acc', db') ->
  exists source,
    select_first
      (fun r => at_lot (tb_source_inventory req) (tl_mr_id line)
                       (tl_product line) r
                && (tl_quantity line <=? ip_quantity r)%Z)
      (inventoryProducts db) = Some source
    /\ let t1 := update_where (has_id (ip_id source))
                              (quantity_minus (tl_quantity line))
                              (inventoryProducts db) in
       inventoryProducts db'
       = match select_first
                 (at_lot (tb_destination_inventory req) (tl_mr_id line)
                         (tl_product line)) (inventoryProducts db) with
         | Some destination =>
             update_where (has_id (ip_id destination))
                          (quantity_plus (tl_quantity line)) t1
         | None =>
             insert (mkInventoryProduct (fresh_id t1) (tl_mr_id line)
                                        (tb_destination_inventory req)
                                        (tl_product line) (tl_quantity line))
                    t1
         end.
Proof.
  unfold transfersController.create_line.
  destruct (negb (insertTransferProductSchema line)); [discriminate|].
  unfold bind at 1. unfold get at 1.
  destruct (select_first _ (inventoryProducts db)) as [source|] eqn:Hs;
    [|discriminate].
  destruct (select_first (at_lot _ _ _) (inventoryProducts db))
    as [destination|] eqn:Hd;
    unfold bind, modify, ret; intros H; injection H as _ <-;
    exists source; split; reflexivity.
Qed.

(** A line of a transfer moves its quantity between rows, keeps the keys of
    the ledger distinct and keeps the quantity of every lot of every
    product. *)
Lemma transfer_line_moves req acc line db acc' db' :
  distinct_ids (inventoryProducts db) ->
  create_line req acc line db = inr (acc', db') ->
  line_moved req line (inventoryProducts db) (inventoryProducts db')
  /\ distinct_ids (inventoryProducts db')
  /\ forall m p,
      total_quantity m p (inventoryProducts db')
      = total_quantity m p (inventoryProducts db).
Proof.
  intros Hnd Hstep.
  apply transfer_line_returns in Hstep as (source & Hs & Ht').
  cbv zeta in Ht'. set (t := inventoryProducts db) in *.
  set (q := tl_quantity line) in *.
  set (t1 := update_where (has_id (ip_id source)) (quantity_minus q) t) in *.
  destruct (find_some_in _ _ _ Hs) as [Hsin Hsat].
  apply andb_prop in Hsat as [Hsat _].
  assert (Hid1 : map ip_id t1 = map ip_id t)
    by (apply map_ip_id_update; reflexivity).
  assert (Hnd1 : distinct_ids t1) by (unfold distinct_ids; now rewrite Hid1).
  assert (Hq1 : forall m p,
             quantity_of (of_lot m p) t1
             = (quantity_of (of_lot m p) t
                - (if of_lot m p source then q else 0))%Z).
  { intros m p. apply quantity_of_update_minus; auto. }
  assert (Hlost : t1 = map (fun r => quantity_minus
                                       (if has_id (ip_id source) r
                                        then q else 0%Z) r) t).
  { unfold t1, update_where. apply map_ext. intros r.
    destruct (has_id (ip_id source) r); [reflexivity|].
    now rewrite quantity_minus_0. }
  destruct (select_first (at_lot _ _ _) t) as [destination|] eqn:Hd.
  - destruct (find_some_in _ _ _ Hd) as [Hdin Hdat].
    split; [|split].
    + exists source. split; [exact Hs|]. cbv zeta. fold t. rewrite Hd.
      rewrite Ht'. unfold t1, update_where. rewrite map_map.
      apply map_ext. intros r. unfold has_id.
      destruct (Nat.eqb (ip_id r) (ip_id source));
        cbn [ip_id quantity_minus];
        destruct (Nat.eqb (ip_id r) (ip_id destination));
        same_row r.
    + unfold distinct_ids. rewrite Ht', map_ip_id_update by reflexivity.
      exact Hnd1.
    + intros m p. unfold total_quantity. rewrite Ht'.
      rewrite (quantity_of_update_plus
                 (of_lot m p) (ip_id destination) q t1
                 (if has_id (ip_id source) destination
                  then quantity_minus q destination else destination)).
      * rewrite Hq1.
        replace (of_lot m p (if has_id (ip_id source) destination
                             then quantity_minus q destination
                             else destination))
          with (of_lot m p destination)
          by (now destruct (has_id (ip_id source) destination)).
        rewrite (of_lot_same_lot _ _ _ _ _ _ m p Hsat Hdat).
        destruct (of_lot m p destination); lia.
      * reflexivity.
      * exact Hnd1.
      * unfold t1, update_where. apply in_map_iff. now exists destination.
      * now destruct (has_id (ip_id source) destination).
  - split; [|split].
    + exists source. split; [exact Hs|]. cbv zeta. fold t. rewrite Hd.
      exists (fresh_id t1). split.
      * rewrite <- Hid1. apply fresh_id_fresh.
      * rewrite Ht'. unfold insert. f_equal. exact Hlost.
    + unfold distinct_ids. rewrite Ht'. unfold insert.
      rewrite map_app. cbn [map ip_id].
      apply NoDup_app; [exact Hnd1| |].
      * repeat constructor. intros [].
      * intros id Hin [<-|[]]. now apply fresh_id_fresh in Hin.
    + intros m p. unfold total_quantity. rewrite Ht'. unfold insert.
      rewrite quantity_of_app, Hq1, quantity_of_cons.
      cbn [ip_quantity]. unfold quantity_of at 2. cbn.
      replace (of_lot m p (mkInventoryProduct
                             (fresh_id t1) (tl_mr_id line)
                             (tb_destination_inventory req)
                             (tl_product line) q))
        with (of_lot m p source).
      * destruct (of_lot m p source); lia.
      * unfold at_lot in Hsat. apply andb_prop in Hsat as [Hsat Hp].
        apply andb_prop in Hsat as [_ Hm].
        unfold of_lot. cbn [ip_mr_id ip_product].
        now rewrite (ilike_congr _ _ m Hm), (ilike_congr _ _ p Hp).
Qed.

Lemma for_of_transfer_lines req lines : forall acc db acc' db',
  distinct_ids (inventoryProducts db) ->
  for_of (create_line req) lines acc db = inr (acc', db') ->
  chain (line_moved req) lines (inventoryProducts db) (inventoryProducts db')
  /\ distinct_ids (inventoryProducts db')
  /\ forall m p,
      total_quantity m p (inventoryProducts db')
      = total_quantity m p (inventoryProducts db).
Proof.
  induction lines as [|line lines IH]; intros acc db acc' db' Hnd;
    cbn [for_of].
  - unfold ret. intros H. injection H as <- <-. split; [constructor|auto].
  - unfold bind at 1.
    destruct (create_line req acc line db) as [e|[acc1 db1]] eqn:Hstep;
      [discriminate|].
    intros Hloop.
    destruct (transfer_line_moves _ _ _ _ _ _ Hnd Hstep)
      as (Hmoved & Hnd1 & Hq1).
    destruct (IH _ _ _ _ Hnd1 Hloop) as (Hchain & Hnd' & Hq).
    split; [|split].
    + econstructor; eassumption.
    + exact Hnd'.
    + intros m p. now rewrite Hq, Hq1.
Qed.

Lemma transfer_create_201 req db resp db' :
  create req db = (resp, db') -> status resp = 201%nat ->
  exists lines created,
    tb_products req = Some lines
    /\ transfersController.create_tx req lines db = inr (created, db').
Proof.
  unfold transfersController.create.
  destruct (tb_products req) as [[|l lines]|] eqn:Hp;
    try (intros H; injection H as <- <-; cbn; discriminate).
  destruct (negb (insertTransferSchema req));
    [intros H; injection H as <- <-; cbn; discriminate|].
  destruct (Js.defined (findTransferByTrfId db (tb_trf_id req)));
    [intros H; injection H as <- <-; cbn; discriminate|].
  destruct (negb (Js.defined (findInventoryByName db (tb_source_inventory req))));
    [intros H; injection H as <- <-; cbn; discriminate|].
  destruct (negb (Js.defined
                    (findInventoryByName db (tb_destination_inventory req))));
    [intros H; injection H as <- <-; cbn; discriminate|].
  unfold transaction.
  destruct (transfersController.create_tx req (l :: lines) db)
    as [e|[created db1]] eqn:Htx.
  - intros H. injection H as <- <-. intros H. now apply on_error_status in H.
  - intros H. injection H as <- <-. intros _.
    exists (l :: lines), created. auto.
Qed.

(** C2. A successful transfer creation keeps the quantity of every lot of
    every product, summed over all inventories: line by line the row found
    at the source loses the quantity of the line and the row found at the
    destination gains it, or a row is added at the destination with that
    quantity when none was found. *)
Theorem transfer_create_conserves_quantity req db resp db' :
  distinct_ids (inventoryProducts db) ->
  create req db = (resp, db') ->
  status resp = 201%nat ->
  exists lines,
    tb_products req = Some lines
    /\ (forall mr_id productName,
          total_quantity mr_id productName (inventoryProducts db')
          = total_quantity mr_id productName (inventoryProducts db))
    /\ chain (line_moved req) lines
             (inventoryProducts db) (inventoryProducts db').
Proof.
  intros Hnd Hrun H201.
  destruct (transfer_create_201 _ _ _ _ Hrun H201)
    as (lines & created & Hp & Htx).
  exists lines. split; [exact Hp|].
  unfold transfersController.create_tx in Htx.
  unfold bind at 1 in Htx. unfold modify at 1 in Htx.
  unfold bind at 1 in Htx.
  destruct (for_of _ lines _ _) as [e|[all db1]] eqn:Hloop; [discriminate|].
  unfold ret in Htx. injection Htx as _ <-.
  apply for_of_transfer_lines in Hloop as (Hchain & _ & Hq); [|exact Hnd].
  split; [exact Hq|exact Hchain].
Qed.

(** Distinct primary keys of the ledger are an invariant of the creation. *)
Lemma transfer_create_invariant req db resp db' :
  create req db = (resp, db') ->
  distinct_ids (inventoryProducts db) -> distinct_ids (inventoryProducts db').
Proof.
  intros Hrun Hnd.
  destruct (Nat.eq_dec (status resp) 201) as [H201|Hnot].
  - destruct (transfer_create_201 _ _ _ _ Hrun H201)
      as (lines & created & _ & Htx).
    unfold transfersController.create_tx in Htx.
    unfold bind at 1 in Htx. unfold modify at 1 in Htx.
    unfold bind at 1 in Htx.
    destruct (for_of _ lines _ _) as [e|[all db1]] eqn:Hloop; [discriminate|].
    unfold ret in Htx. injection Htx as _ <-.
    now apply for_of_transfer_lines in Hloop as (_ & Hnd' & _).
  - revert Hrun Hnot. unfold transfersController.create.
    destruct (tb_products req) as [[|l lines]|];
      try (intros H; injection H as <- <-; auto).
    destruct (negb (insertTransferSchema req));
      [intros H; injection H as <- <-; auto|].
    destruct (Js.defined (findTransferByTrfId db (tb_trf_id req)));
      [intros H; injection H as <- <-; auto|].
    destruct (negb (Js.defined
                      (findInventoryByName db (tb_source_inventory req))));
      [intros H; injection H as <- <-; auto|].
    destruct (negb (Js.defined
                      (findInventoryByName db (tb_destination_inventory req))));
      [intros H; injection H as <- <-; auto|].
    unfold transaction.
    destruct (transfersController.create_tx req (l :: lines) db)
      as [e|[created db1]];
      intros H; injection H as <- <-; [auto|]. cbn. congruence.
Qed.
End TransferCreation.

Lemma shop_distinct_ids : distinct_ids (inventoryProducts shop).
Proof.
  unfold distinct_ids. cbn. repeat constructor; cbn; intuition discriminate.
Qed.

Lemma transfer_create_conserves_quantity_witness :
  exists lines,
    tb_products (transfer_of "T-1" [four_widgets]) = Some lines
    /\ (forall mr_id productName,
          total_quantity mr_id productName
                         (inventoryProducts shop_after_transfer)
          = total_quantity mr_id productName (inventoryProducts shop))
    /\ chain (line_moved (transfer_of "T-1" [four_widgets])) lines
             (inventoryProducts shop)
             (inventoryProducts shop_after_transfer).
Proof.
  apply (transfer_create_conserves_quantity
           accept (transfer_of "T-1" [four_widgets]) shop _ _
           shop_distinct_ids (surjective_pairing _)).
  reflexivity.
Defined.

(* ------------------------------------------------------------------ *)
(** ** The ledger under the statements of a transfer deletion *)

Lemma existsb_find {A} (f : A -> bool) l :
  existsb f l = Js.defined (find f l).
Proof.
  induction l as [|a l IH]; cbn; [reflexivity|].
  destruct (f a); [reflexivity|exact IH].
Qed.

Lemma same_lots_refl t : same_lots t t.
Proof. induction t; constructor; auto. Qed.

Lemma same_lots_existsb t' t inventory mr_id productName :
  same_lots t' t ->
  existsb (at_lot inventory mr_id productName) t'
  = existsb (at_lot inventory mr_id productName) t.
Proof.
  intros H. induction H as [|r' r t' t (Hi & Hm & Hp) _ IH]; cbn;
    [reflexivity|].
  rewrite IH. unfold at_lot. now rewrite Hi, Hm, Hp.
Qed.

Lemma same_lots_update f g t' t :
  (forall r, ip_inventory (g r) = ip_inventory r
             /\ ip_mr_id (g r) = ip_mr_id r
             /\ ip_product (g r) = ip_product r) ->
  same_lots t' t -> same_lots (update_where f g t') t.
Proof.
  intros Hg H. induction H as [|r' r t' t (Hi & Hm & Hp) _ IH]; cbn;
    constructor; auto.
  destruct (f r'); [|auto]. destruct (Hg r') as (-> & -> & ->). auto.
Qed.

Lemma Forall2_map_r {A B} (P : A -> B -> Prop) (g : A -> B) l :
  (forall x, In x l -> P x (g x)) -> Forall2 P l (map g l).
Proof.
  induction l as [|a l IH]; cbn; intros H; constructor; auto.
Qed.

Section TransferDeletion.
Local Notation "'delete_line'" := transfersController.delete_line.
Local Notation "'delete_tx'" := transfersController.delete_tx.
Local Notation "'deleteByTrfId'" := transfersController.deleteByTrfId.

Variable existingTransfer : Transfer.

Local Notation "'at_source' [ line ]" :=
  (at_lot (t_source_inventory existingTransfer)
          (tp_mr_id line) (tp_product line)).
Local Notation "'at_destination' [ line ]" :=
  (at_lot (t_destination_inventory existingTransfer)
          (tp_mr_id line) (tp_product line)).

Lemma delete_line_cases u line db :
  match select_first (at_destination [line]) (inventoryProducts db) with
  | None => delete_line existingTransfer u line db = inl TypeError
  | Some destination =>
      delete_line existingTransfer u line db
      = inr (tt,
             set_inventoryProducts
               (fun t =>
                  update_where (at_destination [line])
                               (quantity_minus (ip_quantity destination))
                               (update_where (at_source [line])
                                             (quantity_plus
                                                (ip_quantity destination)) t))
               db)
  end.
Proof.
  unfold transfersController.delete_line, bind, get, modify, throw.
  destruct (select_first _ _); reflexivity.
Qed.

Lemma at_source_not_destination line r :
  ilike (t_source_inventory existingTransfer)
        (t_destination_inventory existingTransfer) = false ->
  at_destination [line] r = true -> at_source [line] r = false.
Proof.
  unfold at_lot. intros Hne Hd.
  apply andb_prop in Hd as [Hd _]. apply andb_prop in Hd as [Hd _].
  destruct (ilike (ip_inventory r) (t_source_inventory existingTransfer))
    eqn:Hs; [|reflexivity].
  exfalso. rewrite ilike_sym in Hs.
  rewrite (ilike_trans _ _ _ Hs Hd) in Hne. discriminate.
Qed.

(** A line whose lot has a row at the destination is moved back; the keys
    of the ledger stay. *)
Lemma delete_line_moves_back u line db destination :
  select_first (at_destination [line]) (inventoryProducts db) = Some destination ->
  exists db',
    delete_line existingTransfer u line db = inr (tt, db')
    /\ line_moved_back existingTransfer line
                       (inventoryProducts db) (inventoryProducts db')
    /\ same_lots (inventoryProducts db') (inventoryProducts db)
    /\ transfers db' = transfers db
    /\ transferProducts db' = transferProducts db.
Proof.
  intros Hd. pose proof (delete_line_cases u line db) as Hstep.
  rewrite Hd in Hstep. eexists. split; [exact Hstep|].
  cbn [inventoryProducts set_inventoryProducts transfers transferProducts].
  split; [|split; [|split; reflexivity]].
  - exists destination. split; [exact Hd|]. cbv zeta.
    unfold update_where. rewrite map_map. apply Forall2_map_r.
    intros r _. split.
    + destruct (at_lot (t_source_inventory existingTransfer) _ _ r) eqn:Hs;
        rewrite ?at_lot_quantity_plus;
        destruct (at_lot (t_destination_inventory existingTransfer) _ _ r);
        same_row r.
    + intros -> Hne. destruct (find_some_in _ _ _ Hd) as [_ Hat].
      rewrite (at_source_not_destination _ _ Hne Hat), Hat.
      cbn. lia.
  - apply same_lots_update; [intros r; repeat split|].
    apply same_lots_update; [intros r; repeat split|].
    apply same_lots_refl.
Qed.

(** The loop of a deletion moves every line back when the lot of every line
    has a row at the destination. *)
Lemma for_of_delete_lines t0 lines : forall db,
  same_lots (inventoryProducts db) t0 ->
  (forall line, In line lines -> existsb (at_destination [line]) t0 = true) ->
  exists db',
    for_of (delete_line existingTransfer) lines tt db = inr (tt, db')
    /\ chain (line_moved_back existingTransfer) lines
             (inventoryProducts db) (inventoryProducts db')
    /\ transfers db' = transfers db
    /\ transferProducts db' = transferProducts db.
Proof.
  induction lines as [|line lines IH]; intros db Hsame Hrows;
    cbn [for_of].
  - exists db. repeat split. constructor.
  - assert (Hrow : existsb (at_destination [line]) (inventoryProducts db) = true).
    { rewrite (same_lots_existsb _ _ _ _ _ Hsame). apply Hrows. now left. }
    rewrite existsb_find in Hrow.
    destruct (find (at_destination [line]) (inventoryProducts db))
      as [destination|] eqn:Hd; [|discriminate].
    destruct (delete_line_moves_back tt line db destination Hd)
      as (db1 & Hstep & Hback & Hsame1 & Ht1 & Htp1).
    destruct (IH db1) as (db' & Hloop & Hchain & Ht & Htp).
    + clear - Hsame Hsame1. unfold same_lots in *.
      revert Hsame1 Hsame. generalize (inventoryProducts db1) as t1.
      generalize (inventoryProducts db) as t. intros t t1 H.
      revert t0. induction H as [|a b t1 t Hab _ IH']; intros t0 H0;
        inversion H0; subst; constructor; [|auto].
      intuition congruence.
    + intros l Hl. apply Hrows. now right.
    + exists db'. unfold bind. rewrite Hstep. split; [exact Hloop|].
      split; [econstructor; eassumption|]. split; congruence.
Qed.

(** The loop of a deletion throws when the lot of one of the lines has no
    row at the destination. *)
Lemma for_of_delete_missing t0 lines line : forall db,
  same_lots (inventoryProducts db) t0 ->
  In line lines ->
  existsb (at_destination [line]) t0 = false ->
  for_of (delete_line existingTransfer) lines tt db = inl TypeError.
Proof.
  induction lines as [|l lines IH]; intros db Hsame Hin Hnone;
    [contradiction|].
  cbn [for_of]. unfold bind.
  pose proof (delete_line_cases tt l db) as Hstep.
  destruct (select_first (at_destination [l]) (inventoryProducts db))
    as [destination|] eqn:Hd.
  - rewrite Hstep. destruct Hin as [->|Hin].
    + rewrite <- (same_lots_existsb _ _ _ _ _ Hsame), existsb_find in Hnone.
      unfold select_first in Hd. rewrite Hd in Hnone. discriminate.
    + apply IH; auto. cbn [inventoryProducts set_inventoryProducts].
      clear - Hsame. unfold same_lots in *.
      revert Hsame. generalize (inventoryProducts db) as t. intros t H.
      induction H as [|a b t t0 (Hi & Hm & Hp) _ IH']; cbn; constructor; auto.
      destruct (at_lot _ _ _ a); cbn;
        destruct (at_lot _ _ _ _); cbn; auto.
  - now rewrite Hstep.
Qed.
End TransferDeletion.

(** C5. A transfer deletion, the lot of each of whose lines has a row at
    the destination, succeeds; line by line the quantity that row holds at
    that moment, whatever the line transferred, is added to the rows of the
    lot at the source and taken from those at the destination, which leaves
    the row at 0 (the source and the destination being two inventories); the
    lines of the transfer and its header are deleted. *)
Theorem transfer_delete_moves_back trfId db existingTransfer :
  select_first (fun t => ilike (t_trf_id t) trfId) (transfers db)
  = Some existingTransfer ->
  let of_transfer :=
    fun l => ilike (tp_trf_id l) (t_trf_id existingTransfer) in
  let lines := filter of_transfer (transferProducts db) in
  (forall line,
      In line lines ->
      exists r, In r (inventoryProducts db)
                /\ at_lot (t_destination_inventory existingTransfer)
                          (tp_mr_id line) (tp_product line) r = true) ->
  exists db',
    transfersController.deleteByTrfId trfId db = (reply 200, db')
    /\ chain (line_moved_back existingTransfer) lines
             (inventoryProducts db) (inventoryProducts db')
    /\ transferProducts db' = delete_where of_transfer (transferProducts db)
    /\ transfers db'
       = delete_where (fun t => ilike (t_trf_id t) trfId) (transfers db)
    /\ (forall l, In l (transferProducts db') -> of_transfer l = false)
    /\ findTransferByTrfId db' trfId = None.
Proof.
  intros Hfind of_transfer lines Hrows.
  destruct (for_of_delete_lines existingTransfer (inventoryProducts db) lines
              (set_transferProducts (delete_where of_transfer) db))
    as (db1 & Hloop & Hchain & Ht & Htp).
  { apply same_lots_refl. }
  { intros line Hin. destruct (Hrows line Hin) as (r & Hr & Hat).
    apply existsb_exists. now exists r. }
  exists (set_transfers (delete_where (fun t => ilike (t_trf_id t) trfId)) db1).
  split; [|split; [|split; [|split; [|split]]]].
  - unfold transfersController.deleteByTrfId. rewrite Hfind.
    unfold transaction, transfersController.delete_tx.
    unfold bind at 1. unfold get at 1. unfold bind at 1. unfold modify at 1.
    unfold bind at 1. fold of_transfer. fold lines. rewrite Hloop.
    reflexivity.
  - exact Hchain.
  - cbn [transferProducts set_transfers]. now rewrite Htp.
  - cbn [transfers set_transfers]. now rewrite Ht.
  - cbn [transferProducts set_transfers]. rewrite Htp. cbn.
    unfold delete_where. intros l Hl. apply filter_In in Hl as [_ Hl].
    now apply negb_true_iff in Hl.
  - unfold findTransferByTrfId, select_first. cbn [transfers set_transfers].
    rewrite Ht. cbn. apply find_none_iff. unfold delete_where.
    intros t Hin. apply filter_In in Hin as [_ Hin].
    now apply negb_true_iff in Hin.
Qed.

(** C10. A transfer deletion in which the lot of one of the lines of the
    transfer has no row at the destination throws a TypeError where it reads
    the quantity of that row; the transaction is rolled back, so the ledger,
    the lines and the header stay as they were, and the answer is 500. *)
Theorem transfer_delete_missing_destination trfId db existingTransfer line :
  select_first (fun t => ilike (t_trf_id t) trfId) (transfers db)
  = Some existingTransfer ->
  In line (transferProducts db) ->
  ilike (tp_trf_id line) (t_trf_id existingTransfer) = true ->
  (forall r, In r (inventoryProducts db) ->
             at_lot (t_destination_inventory existingTransfer)
                    (tp_mr_id line) (tp_product line) r = false) ->
  transfersController.delete_tx trfId existingTransfer db = inl TypeError
  /\ transfersController.deleteByTrfId trfId db = (reply 500, db).
Proof.
  intros Hfind Hin Hof Hnone.
  assert (Htx : transfersController.delete_tx trfId existingTransfer db
                = inl TypeError).
  { unfold transfersController.delete_tx.
    unfold bind at 1. unfold get at 1. unfold bind at 1. unfold modify at 1.
    unfold bind at 1.
    rewrite (for_of_delete_missing existingTransfer (inventoryProducts db)
               _ line); [reflexivity| | |].
    - apply same_lots_refl.
    - apply filter_In. now split.
    - rewrite existsb_find. apply find_none_iff in Hnone.
      unfold select_first. now rewrite Hnone. }
  split; [exact Htx|].
  unfold transfersController.deleteByTrfId. rewrite Hfind.
  unfold transaction. now rewrite Htx.
Qed.

(** The example of the specification, with the destination changed since the
    transfer: 4 widgets went from Main to Depot, Depot holds 9 by now, and
    the deletion moves 9 back. *)
Lemma transfer_delete_moves_back_witness :
  exists db',
    transfersController.deleteByTrfId "T-1" depot_restocked = (reply 200, db')
    /\ map ip_quantity (inventoryProducts depot_restocked) = [6; 5; 9]%Z
    /\ map ip_quantity (inventoryProducts db') = [15; 5; 0]%Z
    /\ findTransferByTrfId db' "T-1" = None.
Proof.
  destruct (transfer_delete_moves_back
              "T-1" depot_restocked (mkTransfer "T-1" "Main" "Depot"))
    as (db' & Hrun & _ & _ & _ & _ & Hgone).
  - reflexivity.
  - intros line Hin. vm_compute in Hin. destruct Hin as [<-|[]].
    exists (mkInventoryProduct 3 "mr0001" "Depot" "Widget" 9).
    split; [|reflexivity]. vm_compute. auto.
  - exists db'. split; [exact Hrun|]. split; [reflexivity|].
    split; [|exact Hgone].
    replace db' with (snd (transfersController.deleteByTrfId
                             "T-1" depot_restocked))
      by (now rewrite Hrun).
    reflexivity.
Defined.

Lemma transfer_delete_missing_destination_witness :
  transfersController.deleteByTrfId "T-1" depot_emptied
  = (reply 500, depot_emptied).
Proof.
  apply (transfer_delete_missing_destination
           "T-1" depot_emptied (mkTransfer "T-1" "Main" "Depot")
           (mkTransferProduct "T-1" "mr0001" "Widget" 4)).
  - reflexivity.
  - vm_compute. auto.
  - reflexivity.
  - intros r Hin. vm_compute in Hin.
    destruct Hin as [<-|[<-|[]]]; reflexivity.
Defined.

(* ------------------------------------------------------------------ *)
(** ** Further properties of the sale creation *)

Lemma update_where_none {A} (f : A -> bool) (g : A -> A) l :
  (forall x, In x l -> f x = false) -> update_where f g l = l.
Proof.
  unfold update_where. induction l as [|a l IH]; cbn; intros H; [reflexivity|].
  rewrite (H a (or_introl eq_refl)), IH; auto.
Qed.

Lemma same_lots_trans t1 t2 t3 :
  same_lots t1 t2 -> same_lots t2 t3 -> same_lots t1 t3.
Proof.
  unfold same_lots. intros H. revert t3.
  induction H as [|a b t1 t2 Hab _ IH]; intros t3 H23;
    inversion H23; subst; constructor; [|auto].
  intuition congruence.
Qed.

Lemma whole_stock_update_minus id n t x :
  distinct_ids t -> In x t -> ip_id x = id ->
  whole_stock (update_where (has_id id) (quantity_minus n) t)
  = (whole_stock t - n)%Z.
Proof.
  intros Hnd Hin Hid. unfold whole_stock.
  now rewrite (quantity_of_update_minus _ id n t x) by auto.
Qed.

(** In a ledger with distinct keys the update by key writes one row. *)
Lemma in_update_by_id id g (t : list InventoryProduct) x r' :
  distinct_ids t -> In x t -> ip_id x = id ->
  In r' (update_where (has_id id) g t) ->
  r' = g x \/ In r' t.
Proof.
  unfold distinct_ids. intros Hnd Hx Hid Hr'.
  unfold update_where in Hr'. rewrite in_map_iff in Hr'.
  destruct Hr' as (r & Heq & Hr). subst r'.
  destruct (has_id id r) eqn:E; [|now right].
  left. f_equal. apply Nat.eqb_eq in E.
  clear - Hnd Hx Hr Hid E. subst id.
  induction t as [|a t IH]; [contradiction|].
  cbn in Hnd. inversion Hnd as [|? ? Ha Ht]; subst.
  destruct Hx as [->|Hx], Hr as [->|Hr]; auto.
  - exfalso. apply Ha. rewrite <- E. now apply in_map.
  - exfalso. apply Ha. rewrite E. now apply in_map.
Qed.

Section SaleCreationFurther.
Variable insertSaleSchema : SaleBody -> bool.
Variable insertSaleProductSchema : SaleLine -> bool.

Local Notation "'create_line'" :=
  (salesController.create_line insertSaleProductSchema).
Local Notation "'create'" :=
  (salesController.create insertSaleSchema insertSaleProductSchema).

(** The loop writes the sale lines and the quantities of the ledger, and
    nothing else. *)
Lemma for_of_create_line_rows req lines : forall acc db acc' db',
  for_of (create_line req) lines acc db = inr (acc', db') ->
  exists rows,
    acc' = acc ++ rows
    /\ saleProducts db' = saleProducts db ++ rows
    /\ Forall2 (sale_line_of req (inventoryProducts db)) lines rows
    /\ Forall (fun line => insertSaleProductSchema line = true) lines
    /\ sales db' = sales db
    /\ same_catalogue_and_orders db' db
    /\ map ip_id (inventoryProducts db') = map ip_id (inventoryProducts db)
    /\ same_lots (inventoryProducts db') (inventoryProducts db).
Proof.
  induction lines as [|line lines IH]; intros acc db acc' db'; cbn [for_of].
  - unfold ret. intros H. injection H as <- <-. exists [].
    rewrite !app_nil_r. repeat split; try constructor. apply same_lots_refl.
  - unfold bind at 1.
    destruct (create_line req acc line db) as [e|[acc1 db1]] eqn:Hstep;
      [discriminate|].
    intros Hloop.
    apply create_line_returns in Hstep as (pq & Hvalid & Hpq & -> & ->).
    apply IH in Hloop
      as (rows & -> & Hsp & Hrows & Hvalids & Hsales & Hrest & Hids & Hlots).
    apply find_some_in in Hpq as [Hin Hstock].
    unfold salesController.in_stock in Hstock.
    apply andb_prop in Hstock as [Hstock _].
    apply andb_prop in Hstock as [Hi Hp].
    exists (newProduct req line pq :: rows).
    cbn [saleProducts sales inventoryProducts set_inventoryProducts
         set_saleProducts] in *.
    split; [now rewrite <- app_assoc|].
    split; [rewrite Hsp; unfold insert; now rewrite <- app_assoc|].
    split; [|split; [now constructor|
                     split; [exact Hsales|split; [exact Hrest|split]]]].
    + constructor.
      * repeat split. exists pq. repeat split; assumption.
      * eapply Forall2_impl; [|exact Hrows].
        intros l row (? & ? & ? & ? & ? & ? & r' & Hr' & [Hs1 Hs2] & Hmr).
        repeat split; try assumption.
        apply in_update_quantity in Hr' as (r & Hr & _ & Hri & Hrp & Hrm).
        exists r. unfold serves. rewrite Hri, Hrp, Hrm. auto.
    + rewrite Hids. apply map_ip_id_update. reflexivity.
    + eapply same_lots_trans; [exact Hlots|].
      apply same_lots_update; [intros r; repeat split|apply same_lots_refl].
Qed.

(** The loop keeps the quantities of a ledger with distinct keys at or
    above 0 and takes from it what the lines ask for. *)
Lemma for_of_create_line_stock req lines : forall acc db acc' db',
  distinct_ids (inventoryProducts db) ->
  for_of (create_line req) lines acc db = inr (acc', db') ->
  (nonnegative (inventoryProducts db) -> nonnegative (inventoryProducts db'))
  /\ whole_stock (inventoryProducts db')
     = (whole_stock (inventoryProducts db) - requested lines)%Z.
Proof.
  induction lines as [|line lines IH]; intros acc db acc' db' Hnd;
    cbn [for_of].
  - unfold ret. intros H. injection H as <- <-. split; [auto|].
    unfold requested. cbn. lia.
  - unfold bind at 1.
    destruct (create_line req acc line db) as [e|[acc1 db1]] eqn:Hstep;
      [discriminate|].
    intros Hloop.
    apply create_line_returns in Hstep as (pq & _ & Hpq & -> & ->).
    apply find_some_in in Hpq as [Hin Hstock].
    unfold salesController.in_stock in Hstock.
    apply andb_prop in Hstock as [_ Hle]. apply Z.leb_le in Hle.
    apply IH in Hloop as [Hnn Hsum].
    + cbn [inventoryProducts set_inventoryProducts set_saleProducts] in *.
      split.
      * intros H0. apply Hnn. apply Forall_forall. intros r' Hr'.
        destruct (in_update_by_id _ _ _ pq r' Hnd Hin eq_refl Hr')
          as [Heq|Hr].
        -- rewrite Heq. cbn. lia.
        -- clear Hr'. revert r' Hr. now apply Forall_forall.
      * rewrite Hsum, (whole_stock_update_minus _ _ _ pq) by auto.
        unfold requested. cbn. lia.
    + cbn [inventoryProducts set_inventoryProducts set_saleProducts].
      unfold distinct_ids. now rewrite map_ip_id_update.
Qed.

Lemma filter_none {A} (f : A -> bool) l :
  (forall x, In x l -> f x = false) -> filter f l = [].
Proof.
  induction l as [|a l IH]; cbn; intros H; [reflexivity|].
  rewrite (H a (or_introl eq_refl)). auto.
Qed.

Lemma create_201_rows req db resp db' :
  create req db = (resp, db') ->
  status resp = 201%nat ->
  exists lines rows stored,
    b_products req = Some lines
    /\ findSaleByBillId db (b_bill_id req) = None
    /\ payload resp = Some (Some stored, rows)
    /\ sales db' = sales db ++ [stored]
    /\ s_bill_id stored = b_bill_id req
    /\ s_customer_id stored = b_customer_id req
    /\ s_shipping_address stored = b_shipping_address req
    /\ s_adjustment stored = 0
    /\ saleProducts db' = saleProducts db ++ rows
    /\ Forall2 (sale_line_of req (inventoryProducts db)) lines rows
    /\ Forall (fun line => insertSaleProductSchema line = true) lines
    /\ same_catalogue_and_orders db' db
    /\ map ip_id (inventoryProducts db') = map ip_id (inventoryProducts db)
    /\ same_lots (inventoryProducts db') (inventoryProducts db).
Proof.
  intros Hrun H201.
  destruct (create_201 _ _ _ _ _ _ Hrun H201)
    as (lines & newSale & Hchk & Htx & ->).
  destruct Hchk as (Hp & _ & _ & Hnone & _).
  apply create_tx_returns in Htx
    as (db1 & total_amount & Hloop & Hfit & -> & Hfst).
  apply for_of_create_line_rows in Hloop
    as (rows & Hacc & Hsp & Hrows & Hvalid & Hsales & Hrest & Hids & Hlots).
  cbn [app] in Hacc.
  unfold findSaleByBillId, select_first in Hnone.
  rewrite find_none_iff in Hnone.
  clear Hfit. rename total_amount into total.
  exists lines, rows, (set_total_amount total (header req)).
  cbn [sales saleProducts inventoryProducts set_sales] in *.
  split; [exact Hp|].
  split; [unfold findSaleByBillId, select_first; now apply find_none_iff|].
  split.
  { cbn [payload]. destruct newSale as [stored all]. cbn [fst snd] in *.
    subst all. rewrite Hfst, Hsales. unfold returning, insert.
    rewrite filter_app, (filter_none _ _ Hnone).
    cbn [app filter]. unfold header at 1. cbn [s_bill_id].
    now rewrite ilike_refl. }
  split.
  { rewrite Hsales. unfold update_where, insert. rewrite map_app.
    fold (update_where (fun s => ilike (s_bill_id s) (b_bill_id req))
                       (set_total_amount total) (sales db)).
    rewrite (update_where_none _ _ _ Hnone). cbn [map].
    unfold header at 1. cbn [s_bill_id]. now rewrite ilike_refl. }
  repeat split; try assumption; apply Hrest.
Qed.

(** X1. A successful sale creation appends one header, which carries the
    bill, the customer and the address of the request and no adjustment, and
    one sale line per line of the request, in order, each with the lot of a
    ledger row that serves the line; it answers with these rows. Every line
    of the request passed the line schema. Of the ledger the creation changes
    quantities only; the other tables stay. *)
Theorem sale_create_persists_header_and_lines req db resp db' :
  create req db = (resp, db') ->
  status resp = 201%nat ->
  exists lines rows stored,
    b_products req = Some lines
    /\ payload resp = Some (Some stored, rows)
    /\ sales db' = sales db ++ [stored]
    /\ s_bill_id stored = b_bill_id req
    /\ s_customer_id stored = b_customer_id req
    /\ s_shipping_address stored = b_shipping_address req
    /\ s_adjustment stored = 0
    /\ saleProducts db' = saleProducts db ++ rows
    /\ Forall2 (sale_line_of req (inventoryProducts db)) lines rows
    /\ Forall (fun line => insertSaleProductSchema line = true) lines
    /\ same_catalogue_and_orders db' db
    /\ map ip_id (inventoryProducts db') = map ip_id (inventoryProducts db)
    /\ same_lots (inventoryProducts db') (inventoryProducts db).
Proof.
  intros Hrun H201.
  destruct (create_201_rows _ _ _ _ Hrun H201)
    as (lines & rows & stored & Hp & _ & H).
  now exists lines, rows, stored.
Qed.

(** X2. A sale creation never leaves a negative quantity in a ledger that had
    none, whatever its outcome: a row is decremented by a quantity it was
    checked to hold. *)
Theorem sale_create_keeps_stock_nonnegative req db resp db' :
  distinct_ids (inventoryProducts db) ->
  nonnegative (inventoryProducts db) ->
  create req db = (resp, db') ->
  nonnegative (inventoryProducts db').
Proof.
  intros Hnd Hnn Hrun.
  destruct (Nat.eq_dec (status resp) 201) as [H201|Hnot];
    [|now rewrite (create_not_201 _ _ _ _ _ _ Hrun Hnot)].
  destruct (create_201 _ _ _ _ _ _ Hrun H201)
    as (lines & newSale & _ & Htx & _).
  apply create_tx_returns in Htx as (db1 & total_amount & Hloop & _ & -> & _).
  apply for_of_create_line_stock in Hloop as [Hkeep _]; [|exact Hnd].
  now apply Hkeep.
Qed.

(** X3. A successful sale creation takes from the ledger, all rows together,
    exactly the sum of the quantities of the lines of the request. *)
Theorem sale_create_consumes_requested_total req db resp db' :
  distinct_ids (inventoryProducts db) ->
  create req db = (resp, db') ->
  status resp = 201%nat ->
  exists lines,
    b_products req = Some lines
    /\ whole_stock (inventoryProducts db')
       = (whole_stock (inventoryProducts db) - requested lines)%Z.
Proof.
  intros Hnd Hrun H201.
  destruct (create_201 _ _ _ _ _ _ Hrun H201)
    as (lines & newSale & Hchk & Htx & _).
  apply create_tx_returns in Htx as (db1 & total_amount & Hloop & _ & -> & _).
  apply for_of_create_line_stock in Hloop as [_ Hsum]; [|exact Hnd].
  exists lines. split; [apply Hchk|exact Hsum].
Qed.
End SaleCreationFurther.

(* ------------------------------------------------------------------ *)
(** ** Updates and deletions of headers *)


Lemma filter_all {A} (f : A -> bool) l :
  (forall x, In x l -> f x = true) -> filter f l = l.
Proof.
  induction l as [|a l IH]; cbn; intros H; [reflexivity|].
  rewrite (H a (or_introl eq_refl)). f_equal. auto.
Qed.

Lemma delete_where_none {A} (f : A -> bool) l :
  (forall x, In x l -> f x = false) -> delete_where f l = l.
Proof.
  intros H. unfold delete_where. apply filter_all.
  intros x Hx. now rewrite (H x Hx).
Qed.

Lemma set_sales_same db : set_sales (fun _ => sales db) db = db.
Proof. now destruct db. Qed.

Lemma set_transfers_same db : set_transfers (fun _ => transfers db) db = db.
Proof. now destruct db. Qed.

Lemma hd_error_filter_find {A} (f : A -> bool) l :
  hd_error (filter f l) = find f l.
Proof.
  induction l as [|a l IH]; cbn; [reflexivity|].
  destruct (f a); [reflexivity|exact IH].
Qed.

Lemma find_delete_where {A} (f : A -> bool) l :
  find f (delete_where f l) = None.
Proof.
  apply find_none_iff. unfold delete_where. intros x Hx.
  apply filter_In in Hx as [_ Hx]. now apply negb_true_iff in Hx.
Qed.


Section HeaderUpdates.
Variable updateSaleSchema : SaleUpdate -> bool.
Variable updatePurchaseSchema : PurchaseUpdate -> bool.
Variable updateTransferSchema : Js.field -> bool.

Local Notation "'updateByBillId'" :=
  (salesController.updateByBillId updateSaleSchema).
Local Notation "'updateByMrId'" :=
  (purchasesController.updateByMrId updatePurchaseSchema).
Local Notation "'updateByTrfId'" :=
  (transfersController.updateByTrfId updateTransferSchema).


(** X5. An update that is not answered 200 writes nothing, and neither the
    update of a sale nor the rename of a transfer ever writes the ledger. *)
Theorem update_writes_nothing_unless_200 :
  (forall billId body db resp db',
      updateByBillId billId body db = (resp, db') ->
      (status resp <> 200%nat -> db' = db)
      /\ inventoryProducts db' = inventoryProducts db)
  /\ (forall mrId body db resp db',
         updateByMrId mrId body db = (resp, db') ->
         status resp <> 200%nat -> db' = db)
  /\ (forall trfId trf_id db resp db',
         updateByTrfId trfId trf_id db = (resp, db') ->
         (status resp <> 200%nat -> db' = db)
         /\ inventoryProducts db' = inventoryProducts db).
Proof.
  split; [|split].
  - intros billId body db resp db'. unfold salesController.updateByBillId.
    destruct (negb (updateSaleSchema body));
      [intros H; injection H as <- <-; auto|].
    destruct (findSaleByBillId db billId) as [existingSale|] eqn:Hfind;
      [|intros H; injection H as <- <-; auto].
    destruct (Js.changed (u_bill_id body) _ _);
      [intros H; injection H as <- <-; auto|].
    destruct (Js.changed (u_customer_id body) _ _);
      [intros H; injection H as <- <-; auto|].
    destruct (Js.and_num _ _);
      [intros H; injection H as <- <-; auto|].
    destruct (numeric_10_3 (Js.or_num _ _)) as [adjustment|];
      [|intros H; injection H as <- <-; auto].
    destruct (numeric_10_3 _) as [total_amount|];
      [|intros H; injection H as <- <-; auto].
    destruct (negb (unique_bill_ids _));
      [intros H; injection H as <- <-; auto|].
    unfold findSaleByBillId, select_first in Hfind.
    rewrite (hd_error_returning _ _ _ _ Hfind).
    intros H. injection H as <- <-. split; [cbn; congruence|reflexivity].
  - intros mrId body db resp db'. unfold purchasesController.updateByMrId.
    destruct (negb (updatePurchaseSchema body));
      [intros H; injection H as <- <-; auto|].
    destruct (findPurchaseByMrId db mrId) as [existingPurchase|] eqn:Hfind;
      [|intros H; injection H as <- <-; auto].
    destruct (Js.changed (pu_mr_id body) _ _);
      [intros H; injection H as <- <-; auto|].
    destruct (Js.changed (pu_vendor body) _ _);
      [intros H; injection H as <- <-; auto|].
    destruct (Js.changed (pu_inventory body) _ _);
      [intros H; injection H as <- <-; auto|].
    destruct (Js.and_num _ _);
      [intros H; injection H as <- <-; auto|].
    unfold findPurchaseByMrId, select_first in Hfind.
    rewrite (hd_error_returning _ _ _ _ Hfind).
    intros H. injection H as <- <-. cbn. congruence.
  - intros trfId trf_id db resp db'. unfold transfersController.updateByTrfId.
    destruct (negb (updateTransferSchema trf_id));
      [intros H; injection H as <- <-; auto|].
    destruct (findTransferByTrfId db trfId) as [existingTransfer|];
      [|intros H; injection H as <- <-; auto].
    destruct (Js.changed trf_id _ _);
      [intros H; injection H as <- <-; auto|].
    destruct trf_id as [new|]; intros H; injection H as <- <-; [|auto].
    split; [cbn; congruence|reflexivity].
Qed.
End HeaderUpdates.

(* ------------------------------------------------------------------ *)
(** ** Deletion of a sale *)

Lemma set_sales_id f db : f (sales db) = sales db -> set_sales f db = db.
Proof. destruct db. unfold set_sales. cbn. now intros ->. Qed.

Lemma in_delete_where {A} (f : A -> bool) l x :
  In x (delete_where f l) <-> In x l /\ f x = false.
Proof.
  unfold delete_where. rewrite filter_In, negb_true_iff. reflexivity.
Qed.

Lemma delete_where_app {A} (f : A -> bool) l1 l2 :
  delete_where f (l1 ++ l2) = delete_where f l1 ++ delete_where f l2.
Proof. apply filter_app. Qed.

(** X6. The deletion of a sale answers 404 exactly when no sale matches the
    id, and then writes nothing, and 200 otherwise; after it no sale matches
    the id, every other sale is kept, and the ledger is as it was: the stock
    the sale took is not given back. *)
Theorem sale_delete_removes_header_keeps_stock billId db resp db' :
  salesController.deleteByBillId billId db = (resp, db') ->
  (status resp = 404%nat <-> findSaleByBillId db billId = None)
  /\ (status resp = 200%nat <-> findSaleByBillId db billId <> None)
  /\ (status resp = 404%nat -> db' = db)
  /\ findSaleByBillId db' billId = None
  /\ (forall s, In s (sales db')
                <-> In s (sales db) /\ ilike (s_bill_id s) billId = false)
  /\ inventoryProducts db' = inventoryProducts db.
Proof.
  unfold salesController.deleteByBillId, findSaleByBillId, select_first.
  rewrite hd_error_filter_find.
  destruct (find (fun s => ilike (s_bill_id s) billId) (sales db))
    as [deletedSale|] eqn:Hfind; intros H; injection H as <- <-; cbn [status reply].
  - split; [split; [discriminate|discriminate]|].
    split; [split; [discriminate|reflexivity]|].
    split; [discriminate|].
    split; [cbn; apply find_delete_where|].
    split; [|reflexivity].
    intros s. cbn.
    apply (in_delete_where (fun s => ilike (s_bill_id s) billId)).
  - split; [split; reflexivity|].
    split; [split; [discriminate|congruence]|].
    rewrite find_none_iff in Hfind.
    rewrite set_sales_id by now apply delete_where_none.
    split; [reflexivity|].
    split; [now apply find_none_iff|].
    split; [|reflexivity].
    intros s. split; [intros Hs; split; auto|tauto].
Qed.

Section SaleCreationAndDeletion.
Variable insertSaleSchema : SaleBody -> bool.
Variable insertSaleProductSchema : SaleLine -> bool.

Local Notation "'create'" :=
  (salesController.create insertSaleSchema insertSaleProductSchema).

(** X7. Creating a sale and deleting it again is answered 201 and 200 and
    leaves the sales as they were before the creation, but not the ledger: it
    still lacks what the lines of the sale asked for. *)
Theorem sale_create_then_delete_keeps_stock_consumed
        req db resp db1 resp' db2 :
  distinct_ids (inventoryProducts db) ->
  create req db = (resp, db1) ->
  status resp = 201%nat ->
  salesController.deleteByBillId (b_bill_id req) db1 = (resp', db2) ->
  exists lines,
    b_products req = Some lines
    /\ status resp' = 200%nat
    /\ sales db2 = sales db
    /\ inventoryProducts db2 = inventoryProducts db1
    /\ whole_stock (inventoryProducts db2)
       = (whole_stock (inventoryProducts db) - requested lines)%Z.
Proof.
  intros Hnd Hrun H201 Hdel.
  destruct (create_201_rows _ _ _ _ _ _ Hrun H201)
    as (lines & rows & stored & Hp & Hnone & _ & Hsales & Hid & _).
  destruct (create_201 _ _ _ _ _ _ Hrun H201)
    as (lines' & newSale & Hchk & Htx & _).
  assert (lines' = lines) as -> by (destruct Hchk as [Hp' _]; congruence).
  apply create_tx_returns in Htx as (db0 & total_amount & Hloop & _ & Hdb1 & _).
  apply for_of_create_line_stock in Hloop as [_ Hsum]; [|exact Hnd].
  assert (Hstock : whole_stock (inventoryProducts db1)
                   = (whole_stock (inventoryProducts db) - requested lines)%Z).
  { rewrite Hdb1. exact Hsum. }
  clear Hdb1 Hsum.
  unfold findSaleByBillId, select_first in Hnone.
  rewrite find_none_iff in Hnone.
  unfold salesController.deleteByBillId in Hdel.
  rewrite hd_error_filter_find, Hsales in Hdel.
  rewrite (find_app_none _ _ stored) in Hdel;
    [|now apply find_none_iff|rewrite Hid; apply ilike_refl].
  injection Hdel as <- <-.
  exists lines. cbn [status reply sales inventoryProducts set_sales].
  split; [exact Hp|]. split; [reflexivity|].
  split; [|split; [reflexivity|exact Hstock]].
  rewrite Hsales, delete_where_app, delete_where_none by exact Hnone.
  unfold delete_where. cbn [filter]. rewrite Hid, ilike_refl. cbn.
  apply app_nil_r.
Qed.
End SaleCreationAndDeletion.

(* ------------------------------------------------------------------ *)
(** ** Further properties of the purchases *)

Lemma distinct_ids_insert_fresh t r :
  distinct_ids t -> ip_id r = fresh_id t -> distinct_ids (insert r t).
Proof.
  unfold distinct_ids, insert. intros Hnd Hid. rewrite map_app.
  apply NoDup_app; [exact Hnd|cbn; repeat constructor; auto|].
  intros a Ha [<-|[]]. rewrite Hid in Ha. now apply fresh_id_fresh in Ha.
Qed.

Lemma whole_stock_app t1 t2 :
  whole_stock (t1 ++ t2) = (whole_stock t1 + whole_stock t2)%Z.
Proof. apply quantity_of_app. Qed.

Section PurchaseCreationFurther.
Variable insertPurchaseSchema : PurchaseBody -> bool.
Variable insertPurchaseProductSchema : PurchaseLine -> bool.

Local Notation "'create'" :=
  (purchasesController.create insertPurchaseSchema insertPurchaseProductSchema).

(** The loop of a purchase inserts one purchase line and one ledger row per
    line of the request, and writes nothing else. *)
Lemma for_of_purchase_line_rows req lines : forall acc db,
  exists rows db',
    for_of (purchasesController.create_line req) lines acc db
    = inr (acc ++ map (purchaseProduct req) lines, db')
    /\ purchaseProducts db'
       = purchaseProducts db ++ map (purchaseProduct req) lines
    /\ inventoryProducts db' = inventoryProducts db ++ rows
    /\ Forall2 (ledger_row_of req) lines rows
    /\ whole_stock rows = received lines
    /\ (distinct_ids (inventoryProducts db)
        -> distinct_ids (inventoryProducts db'))
    /\ purchases db' = purchases db
    /\ sales db' = sales db
    /\ saleProducts db' = saleProducts db
    /\ transfers db' = transfers db
    /\ transferProducts db' = transferProducts db
    /\ same_catalogue db' db.
Proof.
  induction lines as [|line lines IH]; intros acc db; cbn [for_of].
  - exists [], db. cbn [map]. rewrite !app_nil_r.
    repeat split; auto; constructor.
  - unfold bind at 1. unfold purchasesController.create_line at 1.
    unfold bind, modify, ret. fold (purchaseProduct req line).
    match goal with
    | |- context [for_of _ lines ?a ?d] =>
        destruct (IH a d)
          as (rows & db' & Hloop & Hpp & Hip & Hrows & Hsum & Hnd & Hp & Hs
              & Hsp & Ht & Htp & Hc)
    end.
    cbn [purchaseProducts inventoryProducts purchases sales saleProducts
         transfers transferProducts set_purchaseProducts
         set_inventoryProducts] in *.
    exists (mkInventoryProduct (fresh_id (inventoryProducts db))
                               (pb_mr_id req) (pb_inventory req)
                               (pl_product line) (pl_quantity line) :: rows),
           db'.
    split; [rewrite Hloop, <- app_assoc; reflexivity|].
    split; [rewrite Hpp; unfold insert; now rewrite <- app_assoc|].
    split; [rewrite Hip; unfold insert; now rewrite <- app_assoc|].
    split; [constructor; [repeat split|exact Hrows]|].
    split.
    { unfold whole_stock in *. rewrite quantity_of_cons, Hsum.
      unfold received. cbn. reflexivity. }
    split.
    { intros H. apply Hnd. now apply distinct_ids_insert_fresh. }
    repeat split; try assumption; apply Hc.
Qed.

Lemma purchase_create_201_resp req db resp db' :
  create req db = (resp, db') -> status resp = 201%nat ->
  exists lines newPurchase,
    pb_products req = Some lines
    /\ findPurchaseByMrId db (pb_mr_id req) = None
    /\ purchasesController.create_tx req lines db = inr (newPurchase, db')
    /\ resp = mkResponse 201 (Some newPurchase).
Proof.
  unfold purchasesController.create.
  destruct (pb_products req) as [[|l lines]|] eqn:Hp;
    try (intros H; injection H as <- <-; cbn; discriminate).
  destruct (negb (insertPurchaseSchema req));
    [intros H; injection H as <- <-; cbn; discriminate|].
  destruct (findPurchaseByMrId db (pb_mr_id req)) eqn:Hb; cbn [Js.defined];
    [intros H; injection H as <- <-; cbn; discriminate|].
  destruct (negb (Js.defined (findVendorByName db (pb_vendor req))));
    [intros H; injection H as <- <-; cbn; discriminate|].
  destruct (negb (Js.defined (findInventoryByName db (pb_inventory req))));
    [intros H; injection H as <- <-; cbn; discriminate|].
  destruct (negb (forallb insertPurchaseProductSchema (l :: lines)));
    [intros H; injection H as <- <-; cbn; discriminate|].
  destruct (negb (forallb (fun product => Js.defined _) (l :: lines)));
    [intros H; injection H as <- <-; cbn; discriminate|].
  unfold transaction.
  destruct (purchasesController.create_tx req (l :: lines) db)
    as [e|[newPurchase db1]] eqn:Htx.
  - intros H. injection H as <- <-. intros H. now apply on_error_status in H.
  - intros H. injection H as <- <-. intros _.
    exists (l :: lines), newPurchase. auto.
Qed.

(** X8. A purchase creation checks every line before it writes: a request that
    is not answered 201 writes nothing, and a request with a line that the
    line schema rejects, or whose product the catalogue lacks, is not answered
    201. *)
Theorem purchase_create_checks_lines_before_writing req db resp db' :
  create req db = (resp, db') ->
  (status resp <> 201%nat -> db' = db)
  /\ (forall lines line,
         pb_products req = Some lines ->
         In line lines ->
         insertPurchaseProductSchema line = false
         \/ findProductByName db (pl_product line) = None ->
         status resp <> 201%nat).
Proof.
  unfold purchasesController.create.
  destruct (pb_products req) as [[|l lines]|] eqn:Hp;
    try (intros H; injection H as <- <-; split; [auto|intros; discriminate]).
  destruct (negb (insertPurchaseSchema req));
    [intros H; injection H as <- <-; split; [auto|intros; discriminate]|].
  destruct (Js.defined (findPurchaseByMrId db (pb_mr_id req)));
    [intros H; injection H as <- <-; split; [auto|intros; discriminate]|].
  destruct (negb (Js.defined (findVendorByName db (pb_vendor req))));
    [intros H; injection H as <- <-; split; [auto|intros; discriminate]|].
  destruct (negb (Js.defined (findInventoryByName db (pb_inventory req))));
    [intros H; injection H as <- <-; split; [auto|intros; discriminate]|].
  destruct (negb (forallb insertPurchaseProductSchema (l :: lines)))
    eqn:Hschema;
    [intros H; injection H as <- <-; split; [auto|intros; discriminate]|].
  destruct (negb (forallb (fun product => Js.defined _) (l :: lines)))
    eqn:Hfound;
    [intros H; injection H as <- <-; split; [auto|intros; discriminate]|].
  apply negb_false_iff in Hschema, Hfound.
  unfold transaction.
  destruct (purchasesController.create_tx req (l :: lines) db)
    as [e|[newPurchase db1]];
    intros H; injection H as <- <-.
  - split; [auto|]. intros ? ? _ _ _ H. now apply on_error_status in H.
  - split; [cbn; congruence|].
    intros lines' line Hl Hin Hbad. injection Hl as <-. exfalso.
    rewrite forallb_forall in Hschema, Hfound.
    specialize (Hschema line Hin). specialize (Hfound line Hin).
    destruct Hbad as [Hbad|Hbad]; [congruence|].
    rewrite Hbad in Hfound. discriminate.
Qed.

(** X9. A successful purchase creation appends one header, which carries the
    MR id, the vendor and the inventory of the request, one purchase line per
    line of the request, and one ledger row per line, in order: the lot of the
    purchase, at the inventory of the purchase, with the product and the
    quantity of the line, under a new key. The ledger gains the quantities of
    the lines, its keys stay distinct, and the other tables stay. *)
Theorem purchase_create_adds_a_ledger_row_per_line req db resp db' :
  create req db = (resp, db') ->
  status resp = 201%nat ->
  exists lines rows stored,
    pb_products req = Some lines
    /\ payload resp = Some (Some stored, map (purchaseProduct req) lines)
    /\ purchases db' = purchases db ++ [stored]
    /\ p_mr_id stored = pb_mr_id req
    /\ p_vendor stored = pb_vendor req
    /\ p_inventory stored = pb_inventory req
    /\ purchaseProducts db'
       = purchaseProducts db ++ map (purchaseProduct req) lines
    /\ inventoryProducts db' = inventoryProducts db ++ rows
    /\ Forall2 (ledger_row_of req) lines rows
    /\ whole_stock (inventoryProducts db')
       = (whole_stock (inventoryProducts db) + received lines)%Z
    /\ (distinct_ids (inventoryProducts db)
        -> distinct_ids (inventoryProducts db'))
    /\ sales db' = sales db
    /\ saleProducts db' = saleProducts db
    /\ transfers db' = transfers db
    /\ transferProducts db' = transferProducts db
    /\ same_catalogue db' db.
Proof.
  intros Hrun H201.
  destruct (purchase_create_201_resp _ _ _ _ Hrun H201)
    as (lines & newPurchase & Hp & Hnone & Htx & ->).
  unfold purchasesController.create_tx in Htx.
  unfold bind at 1 in Htx. unfold modify at 1 in Htx.
  unfold bind at 1 in Htx.
  match type of Htx with
  | context [for_of _ lines ?a ?d] =>
      destruct (for_of_purchase_line_rows req lines a d)
        as (rows & db1 & Hloop & Hpp & Hip & Hrows & Hsum & Hnd & Hpu & Hs
            & Hsp & Ht & Htp & Hc)
  end.
  rewrite Hloop in Htx. cbn [app] in Htx.
  unfold bind, get, modify, ret in Htx. injection Htx as <- <-.
  cbn [purchaseProducts inventoryProducts purchases sales saleProducts
       transfers transferProducts set_purchases] in *.
  unfold findPurchaseByMrId, select_first in Hnone.
  rewrite find_none_iff in Hnone.
  set (total := sum_total_price pp_total_price
                                (map (purchaseProduct req) lines)) in *.
  set (inserted := mkPurchase (pb_mr_id req) (pb_vendor req)
                              (pb_inventory req) 0 0) in *.
  exists lines, rows, (set_total_price total inserted).
  split; [exact Hp|].
  split.
  { cbn [payload]. rewrite Hpu. unfold returning, insert.
    rewrite filter_app, (filter_none _ _ Hnone).
    cbn [app filter]. unfold inserted at 1. cbn [p_mr_id].
    now rewrite ilike_refl. }
  split.
  { rewrite Hpu. unfold update_where, insert. rewrite map_app.
    fold (update_where (fun p => ilike (p_mr_id p) (pb_mr_id req))
                       (set_total_price total) (purchases db)).
    rewrite (update_where_none _ _ _ Hnone). cbn [map].
    unfold inserted at 1. cbn [p_mr_id]. now rewrite ilike_refl. }
  split; [reflexivity|]. split; [reflexivity|]. split; [reflexivity|].
  split; [exact Hpp|]. split; [exact Hip|]. split; [exact Hrows|].
  split; [now rewrite Hip, whole_stock_app, Hsum|].
  split; [exact Hnd|].
  repeat split; try assumption; apply Hc.
Qed.
End PurchaseCreationFurther.

Lemma whole_stock_relocated mrId inventory t t' :
  Forall2 (relocated mrId inventory) t t' -> whole_stock t' = whole_stock t.
Proof.
  unfold whole_stock.
  induction 1 as [|r r' t t' Hr _ IH]; [reflexivity|].
  rewrite !quantity_of_cons, IH. f_equal. unfold relocated in Hr.
  destruct (ilike (ip_mr_id r) mrId); [now destruct Hr as (_ & _ & -> & _)|].
  now subst.
Qed.

Section PurchaseUpdateFurther.
Variable updatePurchaseSchema : PurchaseUpdate -> bool.

Local Notation "'updateByMrId'" :=
  (purchasesController.updateByMrId updatePurchaseSchema).

(** X10. A successful purchase update places every ledger row of the lot at
    the inventory of the updated purchase, which is the inventory stored
    before when the request names none: a row of the lot that a transfer had
    moved to another inventory is placed back. The rows keep their key,
    product and quantity, the rows of other lots are kept, so the ledger holds
    the quantity it held. *)
Theorem purchase_update_relocates_the_lot mrId body db resp db' :
  updateByMrId mrId body db = (resp, db') ->
  status resp = 200%nat ->
  exists existingPurchase updatedPurchase,
    findPurchaseByMrId db mrId = Some existingPurchase
    /\ payload resp = Some updatedPurchase
    /\ p_inventory updatedPurchase
       = Js.or_str (pu_inventory body) (p_inventory existingPurchase)
    /\ Forall2 (relocated mrId (p_inventory updatedPurchase))
               (inventoryProducts db) (inventoryProducts db')
    /\ whole_stock (inventoryProducts db')
       = whole_stock (inventoryProducts db).
Proof.
  unfold purchasesController.updateByMrId.
  destruct (negb (updatePurchaseSchema body));
    [intros H; injection H as <- <-; cbn; discriminate|].
  destruct (findPurchaseByMrId db mrId) as [existingPurchase|] eqn:Hfind;
    [|intros H; injection H as <- <-; cbn; discriminate].
  destruct (Js.changed (pu_mr_id body) _ _);
    [intros H; injection H as <- <-; cbn; discriminate|].
  destruct (Js.changed (pu_vendor body) _ _);
    [intros H; injection H as <- <-; cbn; discriminate|].
  destruct (Js.changed (pu_inventory body) _ _);
    [intros H; injection H as <- <-; cbn; discriminate|].
  destruct (Js.and_num _ _);
    [intros H; injection H as <- <-; cbn; discriminate|].
  pose proof Hfind as Hfind'.
  unfold findPurchaseByMrId, select_first in Hfind'.
  rewrite (hd_error_returning _ _ _ _ Hfind').
  intros H. injection H as <- <-. intros _.
  eexists _, _. split; [reflexivity|]. split; [reflexivity|].
  split; [reflexivity|].
  cbn [inventoryProducts set_inventoryProducts set_purchases].
  match goal with
  | |- Forall2 ?R ?t ?t' /\ _ =>
      assert (Hrel : Forall2 R t t')
  end.
  { unfold update_where. apply Forall2_map_r. intros r _. unfold relocated.
    destruct (ilike (ip_mr_id r) mrId); [repeat split|reflexivity]. }
  split; [exact Hrel|]. eapply whole_stock_relocated. exact Hrel.
Qed.
End PurchaseUpdateFurther.

(* ------------------------------------------------------------------ *)
(** ** Further properties of the transfer creation *)

Lemma valid_transfer_line_iff line :
  insertTransferProductSchema line = true <-> valid_transfer_line line.
Proof.
  unfold insertTransferProductSchema, valid_transfer_line.
  rewrite !andb_true_iff, negb_true_iff, !Nat.leb_le, Z.ltb_lt,
    String.eqb_neq.
  tauto.
Qed.

Lemma in_update_where_inv {A} (f : A -> bool) (g : A -> A) l r' :
  In r' (update_where f g l) ->
  exists r, In r l /\ r' = (if f r then g r else r).
Proof.
  unfold update_where. rewrite in_map_iff.
  intros (r & <- & Hr). now exists r.
Qed.

Lemma same_id_same_row (t : list InventoryProduct) x r :
  distinct_ids t -> In x t -> In r t -> ip_id r = ip_id x -> r = x.
Proof.
  unfold distinct_ids. induction t as [|a t IH]; [contradiction|].
  cbn. intros Hnd Hx Hr E. inversion Hnd as [|? ? Ha Ht]; subst.
  destruct Hx as [->|Hx], Hr as [->|Hr]; auto.
  - exfalso. apply Ha. rewrite <- E. now apply in_map.
  - exfalso. apply Ha. rewrite E. now apply in_map.
Qed.

Lemma nonnegative_update_plus f n t :
  (0 <= n)%Z -> nonnegative t ->
  nonnegative (update_where f (quantity_plus n) t).
Proof.
  unfold nonnegative. intros Hn Ht. apply Forall_forall. intros r' Hr'.
  apply in_update_where_inv in Hr' as (r & Hr & ->).
  rewrite Forall_forall in Ht. specialize (Ht r Hr).
  destruct (f r); cbn; lia.
Qed.

Section TransferCreationFurther.
Variable insertTransferSchema : TransferBody -> bool.

Local Notation "'create'" := (transfersController.create insertTransferSchema).
Local Notation "'create_line'" := transfersController.create_line.

Lemma transfer_line_returns_rows req acc line db acc' db' :
  create_line req acc line db = inr (acc', db') ->
  insertTransferProductSchema line = true
  /\ acc' = acc ++ [newTransferProduct req line]
  /\ transferProducts db'
     = transferProducts db ++ [newTransferProduct req line]
  /\ transfers db' = transfers db
  /\ purchases db' = purchases db
  /\ purchaseProducts db' = purchaseProducts db
  /\ sales db' = sales db
  /\ saleProducts db' = saleProducts db
  /\ same_catalogue db' db.
Proof.
  unfold transfersController.create_line.
  destruct (insertTransferProductSchema line); [|discriminate]. cbn [negb].
  unfold bind at 1. unfold get at 1.
  destruct (select_first _ (inventoryProducts db)) as [source|];
    [|discriminate].
  destruct (select_first (at_lot _ _ _) (inventoryProducts db))
    as [destination|];
    unfold bind, modify, ret; intros H; injection H as <- <-;
    repeat split.
Qed.

Lemma transfer_line_throws req acc line db e :
  create_line req acc line db = inl e ->
  insertTransferProductSchema line = true ->
  e = Error "Product not found in inventory"
  /\ select_first
       (fun r => at_lot (tb_source_inventory req) (tl_mr_id line)
                        (tl_product line) r
                 && (tl_quantity line <=? ip_quantity r)%Z)
       (inventoryProducts db) = None.
Proof.
  unfold transfersController.create_line. intros H Hs. rewrite Hs in H.
  cbn [negb] in H. unfold bind at 1 in H. unfold get at 1 in H.
  destruct (select_first _ (inventoryProducts db)) as [source|] eqn:Hsrc.
  - destruct (select_first (at_lot _ _ _) (inventoryProducts db));
      unfold bind, modify, ret in H; discriminate.
  - unfold throw in H. injection H as <-. auto.
Qed.

(** The loop of a transfer writes one line per line of the request, each
    accepted by the schema, and besides these the ledger only. *)
Lemma for_of_transfer_line_rows req lines : forall acc db acc' db',
  for_of (create_line req) lines acc db = inr (acc', db') ->
  Forall valid_transfer_line lines
  /\ acc' = acc ++ map (newTransferProduct req) lines
  /\ transferProducts db'
     = transferProducts db ++ map (newTransferProduct req) lines
  /\ transfers db' = transfers db
  /\ purchases db' = purchases db
  /\ purchaseProducts db' = purchaseProducts db
  /\ sales db' = sales db
  /\ saleProducts db' = saleProducts db
  /\ same_catalogue db' db.
Proof.
  induction lines as [|line lines IH]; intros acc db acc' db'; cbn [for_of].
  - unfold ret. intros H. injection H as <- <-. cbn [map].
    rewrite !app_nil_r. repeat split. constructor.
  - unfold bind at 1.
    destruct (create_line req acc line db) as [e|[acc1 db1]] eqn:Hstep;
      [discriminate|].
    intros Hloop.
    apply transfer_line_returns_rows in Hstep
      as (Hv & -> & Htp & Ht & Hp & Hpp & Hs & Hsp & Hc).
    apply IH in Hloop
      as (Hvs & -> & Htp' & Ht' & Hp' & Hpp' & Hs' & Hsp' & Hc').
    split; [constructor; [now apply valid_transfer_line_iff|exact Hvs]|].
    cbn [map]. rewrite <- !app_assoc. cbn [app].
    split; [reflexivity|].
    split; [rewrite Htp', Htp, <- app_assoc; reflexivity|].
    repeat split; try congruence;
      destruct Hc as (? & ? & ? & ?), Hc' as (? & ? & ? & ?); congruence.
Qed.

Lemma transfer_create_201_resp req db resp db' :
  create req db = (resp, db') -> status resp = 201%nat ->
  exists lines created,
    tb_products req = Some lines
    /\ findTransferByTrfId db (tb_trf_id req) = None
    /\ transfersController.create_tx req lines db = inr (created, db')
    /\ resp = mkResponse 201 (Some created).
Proof.
  unfold transfersController.create.
  destruct (tb_products req) as [[|l lines]|] eqn:Hp;
    try (intros H; injection H as <- <-; cbn; discriminate).
  destruct (negb (insertTransferSchema req));
    [intros H; injection H as <- <-; cbn; discriminate|].
  destruct (findTransferByTrfId db (tb_trf_id req)) eqn:Hnone;
    cbn [Js.defined];
    [intros H; injection H as <- <-; cbn; discriminate|].
  destruct (negb (Js.defined (findInventoryByName db (tb_source_inventory req))));
    [intros H; injection H as <- <-; cbn; discriminate|].
  destruct (negb (Js.defined
                    (findInventoryByName db (tb_destination_inventory req))));
    [intros H; injection H as <- <-; cbn; discriminate|].
  unfold transaction.
  destruct (transfersController.create_tx req (l :: lines) db)
    as [e|[created db1]] eqn:Htx.
  - intros H. injection H as <- <-. intros H. now apply on_error_status in H.
  - intros H. injection H as <- <-. intros _.
    exists (l :: lines), created. auto.
Qed.

Lemma transfer_create_tx_returns req lines db created db' :
  transfersController.create_tx req lines db = inr (created, db') ->
  created = (newTransfer req, map (newTransferProduct req) lines)
  /\ for_of (create_line req) lines []
            (set_transfers (insert (newTransfer req)) db)
     = inr (map (newTransferProduct req) lines, db').
Proof.
  unfold transfersController.create_tx.
  unfold bind at 1. unfold modify at 1. unfold bind at 1.
  fold (newTransfer req).
  destruct (for_of _ lines _ _) as [e|[all db1]] eqn:Hloop; [discriminate|].
  unfold ret. intros H. injection H as <- <-.
  destruct (for_of_transfer_line_rows _ _ _ _ _ _ Hloop) as (_ & -> & _).
  auto.
Qed.

Lemma transfer_create_not_201 req db resp db' :
  create req db = (resp, db') -> status resp <> 201%nat -> db' = db.
Proof.
  unfold transfersController.create.
  destruct (tb_products req) as [[|l lines]|];
    try (intros H; injection H as <- <-; auto).
  destruct (negb (insertTransferSchema req));
    [intros H; injection H as <- <-; auto|].
  destruct (Js.defined (findTransferByTrfId db (tb_trf_id req)));
    [intros H; injection H as <- <-; auto|].
  destruct (negb (Js.defined
                    (findInventoryByName db (tb_source_inventory req))));
    [intros H; injection H as <- <-; auto|].
  destruct (negb (Js.defined
                    (findInventoryByName db (tb_destination_inventory req))));
    [intros H; injection H as <- <-; auto|].
  unfold transaction.
  destruct (transfersController.create_tx req (l :: lines) db)
    as [e|[created db1]];
    intros H; injection H as <- <-; [auto|]. cbn. congruence.
Qed.

(** X11. A successful transfer creation appends the header of the request and
    one line per line of the request, in order, and answers with them; after
    it the transfer is retrieved under its id in any letter case. Besides
    these rows it writes the ledger only. *)
Theorem transfer_create_persists_header_and_lines req db resp db' :
  create req db = (resp, db') ->
  status resp = 201%nat ->
  exists lines,
    tb_products req = Some lines
    /\ payload resp
       = Some (newTransfer req, map (newTransferProduct req) lines)
    /\ transfers db' = transfers db ++ [newTransfer req]
    /\ transferProducts db'
       = transferProducts db ++ map (newTransferProduct req) lines
    /\ (forall trfId,
           lower trfId = lower (tb_trf_id req) ->
           transfersController.retrieveByTrfId trfId db'
           = (mkResponse 200 (Some (newTransfer req)), db'))
    /\ purchases db' = purchases db
    /\ purchaseProducts db' = purchaseProducts db
    /\ sales db' = sales db
    /\ saleProducts db' = saleProducts db
    /\ same_catalogue db' db.
Proof.
  intros Hrun H201.
  destruct (transfer_create_201_resp _ _ _ _ Hrun H201)
    as (lines & created & Hp & Hnone & Htx & ->).
  apply transfer_create_tx_returns in Htx as [-> Hloop].
  apply for_of_transfer_line_rows in Hloop
    as (_ & _ & Htp & Ht & Hpu & Hpp & Hs & Hsp & Hc).
  cbn [transfers transferProducts purchases purchaseProducts sales
       saleProducts set_transfers] in *.
  exists lines. split; [exact Hp|]. split; [reflexivity|].
  split; [exact Ht|]. split; [exact Htp|].
  split; [|repeat split; try assumption; apply Hc].
  intros trfId Hlow. unfold transfersController.retrieveByTrfId, select_first.
  rewrite Ht. unfold insert.
  unfold findTransferByTrfId, select_first in Hnone.
  rewrite (find_app_none _ _ (newTransfer req)); [reflexivity| |].
  - apply find_none_iff. intros t Ht0.
    rewrite find_none_iff in Hnone. specialize (Hnone t Ht0).
    rewrite <- Hnone. unfold ilike. now rewrite Hlow.
  - cbn. apply ilike_iff. now symmetry.
Qed.

(** X12. A transfer is created with lines that validations.js accepts only: an
    MR id of 6 to 20 characters, a product name that is not empty and of at
    most 80 characters, and a quantity above 0. *)
Theorem transfer_create_accepts_valid_lines_only req db resp db' :
  create req db = (resp, db') ->
  status resp = 201%nat ->
  exists lines,
    tb_products req = Some lines
    /\ lines <> []
    /\ Forall valid_transfer_line lines.
Proof.
  intros Hrun H201.
  destruct (transfer_create_201_resp _ _ _ _ Hrun H201)
    as (lines & created & Hp & _ & Htx & _).
  apply transfer_create_tx_returns in Htx as [_ Hloop].
  apply for_of_transfer_line_rows in Hloop as (Hv & _).
  exists lines. split; [exact Hp|]. split; [|exact Hv].
  intros ->. revert Hrun H201. unfold transfersController.create.
  rewrite Hp. intros H. injection H as <- <-. cbn. discriminate.
Qed.

(** A line of a transfer keeps the quantities of a ledger with distinct
    keys at or above 0. *)
Lemma transfer_line_nonnegative req acc line db acc' db' :
  distinct_ids (inventoryProducts db) ->
  nonnegative (inventoryProducts db) ->
  create_line req acc line db = inr (acc', db') ->
  nonnegative (inventoryProducts db').
Proof.
  intros Hnd Hnn Hstep.
  destruct (transfer_line_returns_rows _ _ _ _ _ _ Hstep) as (Hv & _).
  apply valid_transfer_line_iff in Hv. destruct Hv as (_ & _ & _ & Hq).
  apply transfer_line_returns in Hstep as (source & Hs & Ht').
  cbv zeta in Ht'.
  destruct (find_some_in _ _ _ Hs) as [Hsin Hsat].
  apply andb_prop in Hsat as [_ Hle]. apply Z.leb_le in Hle.
  assert (Hnn1 : nonnegative
                   (update_where (has_id (ip_id source))
                                 (quantity_minus (tl_quantity line))
                                 (inventoryProducts db))).
  { apply Forall_forall. intros r' Hr'.
    destruct (in_update_by_id _ _ _ source r' Hnd Hsin eq_refl Hr')
      as [Heq|Hr].
    - rewrite Heq. cbn. lia.
    - clear Hr'. revert r' Hr. now apply Forall_forall. }
  rewrite Ht'.
  destruct (select_first (at_lot _ _ _) (inventoryProducts db)).
  - apply nonnegative_update_plus; [lia|exact Hnn1].
  - unfold insert, nonnegative. apply Forall_app. split; [exact Hnn1|].
    repeat constructor. cbn. lia.
Qed.

(** X13. A transfer creation never leaves a negative quantity in a ledger that
    had none, whatever its outcome: the row at the source is decremented by a
    quantity it was checked to hold, and the quantity of a line is above 0. *)
Theorem transfer_create_keeps_stock_nonnegative req db resp db' :
  distinct_ids (inventoryProducts db) ->
  nonnegative (inventoryProducts db) ->
  create req db = (resp, db') ->
  nonnegative (inventoryProducts db').
Proof.
  intros Hnd Hnn Hrun.
  destruct (Nat.eq_dec (status resp) 201) as [H201|Hnot];
    [|now rewrite (transfer_create_not_201 _ _ _ _ Hrun Hnot)].
  destruct (transfer_create_201_resp _ _ _ _ Hrun H201)
    as (lines & created & _ & _ & Htx & _).
  apply transfer_create_tx_returns in Htx as [_ Hloop].
  revert Hloop.
  change (inventoryProducts db)
    with (inventoryProducts (set_transfers (insert (newTransfer req)) db))
    in Hnd, Hnn.
  generalize (set_transfers (insert (newTransfer req)) db) Hnd Hnn.
  generalize (map (newTransferProduct req) lines).
  generalize (@nil TransferProduct).
  clear. induction lines as [|line lines IH];
    intros acc acc' db0 Hnd Hnn; cbn [for_of].
  - unfold ret. intros H. injection H as _ <-. exact Hnn.
  - unfold bind at 1.
    destruct (create_line req acc line db0) as [e|[acc1 db1]] eqn:Hstep;
      [discriminate|].
    apply IH.
    + now destruct (transfer_line_moves _ _ _ _ _ _ Hnd Hstep) as (_ & ? & _).
    + eapply transfer_line_nonnegative; eassumption.
Qed.
End TransferCreationFurther.

(* ------------------------------------------------------------------ *)
(** ** A transfer of more than the source holds *)

Section TransferShortStock.
Variable insertTransferSchema : TransferBody -> bool.

Local Notation "'create'" := (transfersController.create insertTransferSchema).
Local Notation "'create_line'" := transfersController.create_line.

(** A line of a transfer between two inventories raises no quantity at the
    source: a row at the source after the line was there before it, with at
    least the quantity it holds now. *)
Lemma transfer_line_source_rows req acc line db acc' db' r' :
  ilike (tb_source_inventory req) (tb_destination_inventory req) = false ->
  distinct_ids (inventoryProducts db) ->
  create_line req acc line db = inr (acc', db') ->
  In r' (inventoryProducts db') ->
  ilike (ip_inventory r') (tb_source_inventory req) = true ->
  exists r,
    In r (inventoryProducts db)
    /\ ip_inventory r = ip_inventory r'
    /\ ip_mr_id r = ip_mr_id r'
    /\ ip_product r = ip_product r'
    /\ (ip_quantity r' <= ip_quantity r)%Z.
Proof.
  intros Hne Hnd Hstep Hr' Hat.
  destruct (transfer_line_returns_rows _ _ _ _ _ _ Hstep) as (Hv & _).
  apply valid_transfer_line_iff in Hv. destruct Hv as (_ & _ & _ & Hq).
  apply transfer_line_returns in Hstep as (source & Hs & Ht').
  cbv zeta in Ht'. rewrite Ht' in Hr'. clear Ht'.
  assert (Hminus : forall r1,
             In r1 (update_where (has_id (ip_id source))
                                 (quantity_minus (tl_quantity line))
                                 (inventoryProducts db)) ->
             exists r, In r (inventoryProducts db)
                       /\ ip_id r = ip_id r1
                       /\ ip_inventory r = ip_inventory r1
                       /\ ip_mr_id r = ip_mr_id r1
                       /\ ip_product r = ip_product r1
                       /\ (ip_quantity r1 <= ip_quantity r)%Z).
  { intros r1 Hr1. apply in_update_where_inv in Hr1 as (r & Hr & ->).
    exists r. split; [exact Hr|].
    destruct (has_id (ip_id source) r); cbn; repeat split; lia. }
  destruct (select_first (at_lot _ _ _) (inventoryProducts db))
    as [destination|] eqn:Hd.
  - apply in_update_where_inv in Hr' as (r1 & Hr1 & ->).
    destruct (Hminus r1 Hr1) as (r & Hr & Hid & Hi & Hm & Hp & Hle).
    destruct (has_id (ip_id destination) r1) eqn:E.
    + exfalso. apply Nat.eqb_eq in E.
      destruct (find_some_in _ _ _ Hd) as [Hdin Hdat].
      assert (r = destination)
        by (apply (same_id_same_row (inventoryProducts db)); auto;
            congruence).
      subst r. unfold at_lot in Hdat.
      apply andb_prop in Hdat as [Hdat _].
      apply andb_prop in Hdat as [Hdat _].
      cbn [quantity_plus ip_inventory] in Hat. rewrite <- Hi in Hat.
      rewrite ilike_sym in Hat.
      rewrite (ilike_trans _ _ _ Hat Hdat) in Hne. discriminate.
    + exists r. auto.
  - unfold insert in Hr'. apply in_app_or in Hr' as [Hr1|[<-|[]]].
    + destruct (Hminus r' Hr1) as (r & Hr & _ & H). now exists r.
    + exfalso. cbn [ip_inventory] in Hat. rewrite ilike_sym in Hat.
      congruence.
Qed.

(** The loop throws when a line of it asks for more than every row of its
    lot at the source holds. *)
Lemma for_of_transfer_line_short req line lines : forall acc db,
  ilike (tb_source_inventory req) (tb_destination_inventory req) = false ->
  distinct_ids (inventoryProducts db) ->
  forallb insertTransferProductSchema lines = true ->
  In line lines ->
  short_at (tb_source_inventory req) line (inventoryProducts db) ->
  for_of (create_line req) lines acc db
  = inl (Error "Product not found in inventory").
Proof.
  induction lines as [|l lines IH]; intros acc db Hne Hnd Hv Hin Hshort;
    [contradiction|].
  cbn [forallb] in Hv. apply andb_prop in Hv as [Hvl Hv].
  cbn [for_of]. unfold bind at 1.
  destruct (create_line req acc l db) as [e|[acc1 db1]] eqn:Hstep.
  - now destruct (transfer_line_throws _ _ _ _ _ Hstep Hvl) as [-> _].
  - destruct Hin as [->|Hin].
    + exfalso.
      apply transfer_line_returns in Hstep as (source & Hs & _).
      apply find_some_in in Hs as [Hsin Hsat].
      apply andb_prop in Hsat as [Hat Hle]. apply Z.leb_le in Hle.
      specialize (Hshort source Hsin Hat). lia.
    + apply IH; auto.
      * now destruct (transfer_line_moves _ _ _ _ _ _ Hnd Hstep)
          as (_ & ? & _).
      * intros r' Hr' Hat'.
        assert (Hinv : ilike (ip_inventory r') (tb_source_inventory req)
                       = true).
        { unfold at_lot in Hat'. apply andb_prop in Hat' as [Hat' _].
          now apply andb_prop in Hat' as [Hat' _]. }
        destruct (transfer_line_source_rows
                    _ _ _ _ _ _ _ Hne Hnd Hstep Hr' Hinv)
          as (r & Hr & Hi & Hm & Hp & Hle).
        assert (Hat : at_lot (tb_source_inventory req) (tl_mr_id line)
                             (tl_product line) r = true)
          by (unfold at_lot in *; now rewrite Hi, Hm, Hp).
        specialize (Hshort r Hr Hat). lia.
Qed.

(** X14. A transfer between two inventories that passes the checks before the
    transaction, every line of which the schema accepts, and one line of which
    asks for more than every row of its lot at the source holds, is answered
    500, and nothing is written. *)
Theorem transfer_create_short_source_500 req db lines line :
  tb_products req = Some lines ->
  insertTransferSchema req = true ->
  findTransferByTrfId db (tb_trf_id req) = None ->
  findInventoryByName db (tb_source_inventory req) <> None ->
  findInventoryByName db (tb_destination_inventory req) <> None ->
  ilike (tb_source_inventory req) (tb_destination_inventory req) = false ->
  distinct_ids (inventoryProducts db) ->
  forallb insertTransferProductSchema lines = true ->
  In line lines ->
  short_at (tb_source_inventory req) line (inventoryProducts db) ->
  create req db = (reply 500, db).
Proof.
  intros Hp Hs Hnone Hsrc Hdst Hne Hnd Hv Hin Hshort.
  unfold transfersController.create. rewrite Hp, Hs, Hnone.
  destruct lines as [|l lines]; [contradiction|].
  destruct (findInventoryByName db (tb_source_inventory req));
    [|contradiction].
  destruct (findInventoryByName db (tb_destination_inventory req));
    [|contradiction].
  cbn [negb Js.defined].
  unfold transaction, transfersController.create_tx.
  unfold bind at 1. unfold modify at 1. unfold bind at 1.
  rewrite (for_of_transfer_line_short req line); auto.
Qed.
End TransferShortStock.

(* ------------------------------------------------------------------ *)
(** ** Renaming and deleting a transfer *)

Lemma delete_tx_run trfId existingTransfer db :
  transfersController.delete_tx trfId existingTransfer db
  = match for_of (transfersController.delete_line existingTransfer)
                 (filter (fun l => ilike (tp_trf_id l)
                                         (t_trf_id existingTransfer))
                         (transferProducts db))
                 tt
                 (set_transferProducts
                    (delete_where (fun l => ilike (tp_trf_id l)
                                                  (t_trf_id existingTransfer)))
                    db) with
    | inl e => inl e
    | inr (_, db') =>
        inr (tt, set_transfers
                   (delete_where (fun t => ilike (t_trf_id t) trfId)) db')
    end.
Proof.
  unfold transfersController.delete_tx, bind, get, modify.
  destruct (for_of _ _ _ _) as [e|[[] db']]; reflexivity.
Qed.

(** The loop of a deletion writes quantities of the ledger only. *)
Lemma for_of_delete_line_keys existingTransfer lines : forall db db',
  for_of (transfersController.delete_line existingTransfer) lines tt db
  = inr (tt, db') ->
  map ip_id (inventoryProducts db') = map ip_id (inventoryProducts db).
Proof.
  induction lines as [|line lines IH]; intros db db'; cbn [for_of].
  - unfold ret. intros H. now injection H as <-.
  - unfold bind at 1.
    pose proof (delete_line_cases existingTransfer tt line db) as Hstep.
    destruct (select_first _ (inventoryProducts db)) as [destination|];
      rewrite Hstep; [|discriminate].
    intros Hloop. apply IH in Hloop. rewrite Hloop.
    cbn [inventoryProducts set_inventoryProducts].
    now rewrite !map_ip_id_update by reflexivity.
Qed.

Lemma find_renamed (t : list Transfer) trfId new existing :
  find (fun x => ilike (t_trf_id x) trfId) t = Some existing ->
  (forall x, In x t -> ilike (t_trf_id x) new = true ->
             ilike (t_trf_id x) trfId = true) ->
  find (fun x => ilike (t_trf_id x) new)
       (update_where (fun x => ilike (t_trf_id x) trfId)
                     (transfersController.set_trf_id new) t)
  = Some (transfersController.set_trf_id new existing).
Proof.
  unfold update_where.
  induction t as [|a t IH]; cbn [find map]; [discriminate|].
  intros Hfind Hnew.
  destruct (ilike (t_trf_id a) trfId) eqn:Ha.
  - injection Hfind as <-.
    unfold transfersController.set_trf_id at 1. cbn [t_trf_id].
    now rewrite ilike_refl.
  - destruct (ilike (t_trf_id a) new) eqn:Hn.
    + rewrite (Hnew a (or_introl eq_refl) Hn) in Ha. discriminate.
    + apply IH; [exact Hfind|]. intros x Hx. apply Hnew. now right.
Qed.

Lemma find_renamed_away (t : list Transfer) trfId new :
  ilike new trfId = false ->
  find (fun x => ilike (t_trf_id x) trfId)
       (update_where (fun x => ilike (t_trf_id x) trfId)
                     (transfersController.set_trf_id new) t)
  = None.
Proof.
  intros Hne. apply find_none_iff. intros x' Hx'.
  apply in_update_where_inv in Hx' as (x & _ & ->).
  destruct (ilike (t_trf_id x) trfId) eqn:E; [exact Hne|exact E].
Qed.

Section TransferHeaders.
Variable insertTransferSchema : TransferBody -> bool.
Variable updateTransferSchema : Js.field -> bool.

Local Notation "'create'" := (transfersController.create insertTransferSchema).
Local Notation "'updateByTrfId'" :=
  (transfersController.updateByTrfId updateTransferSchema).
Local Notation "'retrieveByTrfId'" := transfersController.retrieveByTrfId.
Local Notation "'deleteByTrfId'" := transfersController.deleteByTrfId.
Local Notation "'set_trf_id'" := transfersController.set_trf_id.

(** X15. A successful rename of a transfer to an id that is not empty answers
    with the first transfer that matched, under its new id and with its source
    and destination; the transfer is then retrieved under the new id, and no
    longer under the old one when the two differ by more than letter case. *)
Theorem transfer_rename_moves_the_id trfId new db resp db' :
  new <> "" ->
  updateByTrfId trfId (Some new) db = (resp, db') ->
  status resp = 200%nat ->
  exists existingTransfer,
    findTransferByTrfId db trfId = Some existingTransfer
    /\ payload resp = Some (Some (set_trf_id new existingTransfer))
    /\ retrieveByTrfId new db'
       = (mkResponse 200 (Some (set_trf_id new existingTransfer)), db')
    /\ (ilike new trfId = false -> retrieveByTrfId trfId db' = (reply 404, db')).
Proof.
  intros Hnew. unfold transfersController.updateByTrfId.
  destruct (negb (updateTransferSchema (Some new)));
    [intros H; injection H as <- <-; cbn; discriminate|].
  destruct (findTransferByTrfId db trfId) as [existingTransfer|] eqn:Hfind;
    [|intros H; injection H as <- <-; cbn; discriminate].
  destruct (Js.changed (Some new) trfId _) eqn:Hch;
    [intros H; injection H as <- <-; cbn; discriminate|].
  intros H. injection H as <- <-. intros _.
  unfold findTransferByTrfId, select_first in *.
  exists existingTransfer. split; [reflexivity|].
  split; [cbn [payload]; now rewrite (hd_error_returning _ _ _ _ Hfind)|].
  unfold transfersController.retrieveByTrfId, select_first.
  cbn [transfers set_transfers]. split.
  - rewrite (find_renamed _ _ _ _ Hfind); [reflexivity|].
    intros x Hx Hn. cbn in Hch.
    destruct (String.eqb_spec new "") as [|_]; [contradiction|].
    destruct (String.eqb_spec new trfId) as [<-|_]; [exact Hn|].
    cbn in Hch.
    destruct (find (fun t => ilike (t_trf_id t) new) (transfers db)) eqn:E;
      [discriminate|].
    rewrite find_none_iff in E. rewrite (E x Hx) in Hn. discriminate.
  - intros Hne. now rewrite find_renamed_away.
Qed.

(** X16. The writes of a transfer are all or nothing: a creation that is not
    answered 201 and a deletion that is not answered 200 write nothing, and a
    deletion is answered 404 exactly when no transfer matches the id. *)
Theorem transfer_writes_are_all_or_nothing :
  (forall req db resp db',
      create req db = (resp, db') -> status resp <> 201%nat -> db' = db)
  /\ (forall trfId db resp db',
         deleteByTrfId trfId db = (resp, db') ->
         (status resp <> 200%nat -> db' = db)
         /\ (status resp = 404%nat <-> findTransferByTrfId db trfId = None)).
Proof.
  split.
  - intros req db resp db'. apply transfer_create_not_201.
  - intros trfId db resp db'. unfold transfersController.deleteByTrfId.
    unfold findTransferByTrfId.
    destruct (select_first _ (transfers db)) as [existingTransfer|].
    + unfold transaction.
      destruct (transfersController.delete_tx trfId existingTransfer db)
        as [e|[u db1]]; intros H; injection H as <- <-; cbn.
      * split; [reflexivity|]. split; discriminate.
      * split; [congruence|]. split; discriminate.
    + intros H. injection H as <- <-. cbn.
      split; [reflexivity|]. split; reflexivity.
Qed.
End TransferHeaders.

(* ------------------------------------------------------------------ *)
(** ** Invariants of the tables *)

Lemma NoDup_map_filter {A B} (f : A -> B) (g : A -> bool) l :
  NoDup (map f l) -> NoDup (map f (filter g l)).
Proof.
  induction l as [|a l IH]; cbn; intros H; [constructor|].
  inversion H as [|? ? Ha Hl]; subst.
  destruct (g a); [|auto]. cbn. constructor; [|auto].
  intros Hin. apply Ha. apply in_map_iff in Hin as (x & <- & Hx).
  apply filter_In in Hx as [Hx _]. now apply in_map.
Qed.

Section Invariants.
Variable insertSaleSchema : SaleBody -> bool.
Variable insertSaleProductSchema : SaleLine -> bool.
Variable updateSaleSchema : SaleUpdate -> bool.
Variable insertPurchaseSchema : PurchaseBody -> bool.
Variable insertPurchaseProductSchema : PurchaseLine -> bool.
Variable updatePurchaseSchema : PurchaseUpdate -> bool.
Variable insertTransferSchema : TransferBody -> bool.

(** X17. No handler of the sales leaves two sales with one bill id up to
    letter case, whatever it answers: not the creation, not the update, not
    the deletion. *)
Theorem sale_handlers_keep_bill_ids_distinct db :
  distinct_bill_ids db ->
  (forall req resp db',
      salesController.create insertSaleSchema insertSaleProductSchema req db
      = (resp, db') ->
      distinct_bill_ids db')
  /\ (forall billId body resp db',
         salesController.updateByBillId updateSaleSchema billId body db
         = (resp, db') ->
         distinct_bill_ids db')
  /\ (forall billId resp db',
         salesController.deleteByBillId billId db = (resp, db') ->
         distinct_bill_ids db').
Proof.
  intros Hd. split; [|split].
  - intros req resp db' Hrun. eapply sale_create_invariant; eassumption.
  - intros billId body resp db' Hrun.
    eapply sale_update_invariant; eassumption.
  - intros billId resp db'. unfold salesController.deleteByBillId.
    assert (distinct_bill_ids
              (set_sales (delete_where (fun s => ilike (s_bill_id s) billId))
                         db)).
    { unfold distinct_bill_ids, delete_where. cbn [sales set_sales].
      now apply NoDup_map_filter. }
    destruct (hd_error _); intros H'; now injection H' as _ <-.
Qed.

(** X18. No handler that writes the ledger leaves two rows with one primary
    key, whatever it answers: not the creation of a sale, of a purchase or of
    a transfer, not the update of a purchase, not the deletion of a transfer. *)
Theorem ledger_keys_stay_distinct db :
  distinct_ids (inventoryProducts db) ->
  (forall req resp db',
      salesController.create insertSaleSchema insertSaleProductSchema req db
      = (resp, db') ->
      distinct_ids (inventoryProducts db'))
  /\ (forall req resp db',
         purchasesController.create
           insertPurchaseSchema insertPurchaseProductSchema req db
         = (resp, db') ->
         distinct_ids (inventoryProducts db'))
  /\ (forall mrId body resp db',
         purchasesController.updateByMrId updatePurchaseSchema mrId body db
         = (resp, db') ->
         distinct_ids (inventoryProducts db'))
  /\ (forall req resp db',
         transfersController.create insertTransferSchema req db
         = (resp, db') ->
         distinct_ids (inventoryProducts db'))
  /\ (forall trfId resp db',
         transfersController.deleteByTrfId trfId db = (resp, db') ->
         distinct_ids (inventoryProducts db')).
Proof.
  intros Hnd. split; [|split; [|split; [|split]]].
  - intros req resp db' Hrun.
    destruct (Nat.eq_dec (status resp) 201) as [H201|Hnot];
      [|now rewrite (create_not_201 _ _ _ _ _ _ Hrun Hnot)].
    destruct (create_201_rows _ _ _ _ _ _ Hrun H201)
      as (lines & rows & stored & H).
    unfold distinct_ids.
    now replace (map ip_id (inventoryProducts db'))
      with (map ip_id (inventoryProducts db)) by (symmetry; apply H).
  - intros req resp db' Hrun.
    destruct (Nat.eq_dec (status resp) 201) as [H201|Hnot].
    + destruct (purchase_create_201_resp _ _ _ _ _ _ Hrun H201)
        as (lines & newPurchase & _ & _ & Htx & _).
      unfold purchasesController.create_tx in Htx.
      unfold bind at 1 in Htx. unfold modify at 1 in Htx.
      unfold bind at 1 in Htx.
      match type of Htx with
      | context [for_of _ lines ?a ?d] =>
          destruct (for_of_purchase_line_rows req lines a d)
            as (rows & db1 & Hloop & _ & _ & _ & _ & Hkeep & _)
      end.
      rewrite Hloop in Htx. unfold bind, get, modify, ret in Htx.
      injection Htx as _ <-. cbn [inventoryProducts set_purchases].
      now apply Hkeep.
    + revert Hrun Hnot. unfold purchasesController.create.
      destruct (pb_products req) as [[|l lines]|];
        try (intros H; injection H as <- <-; auto).
      destruct (negb (insertPurchaseSchema req));
        [intros H; injection H as <- <-; auto|].
      destruct (Js.defined (findPurchaseByMrId db (pb_mr_id req)));
        [intros H; injection H as <- <-; auto|].
      destruct (negb (Js.defined (findVendorByName db (pb_vendor req))));
        [intros H; injection H as <- <-; auto|].
      destruct (negb (Js.defined (findInventoryByName db (pb_inventory req))));
        [intros H; injection H as <- <-; auto|].
      destruct (negb (forallb insertPurchaseProductSchema (l :: lines)));
        [intros H; injection H as <- <-; auto|].
      destruct (negb (forallb (fun product => Js.defined _) (l :: lines)));
        [intros H; injection H as <- <-; auto|].
      unfold transaction.
      destruct (purchasesController.create_tx req (l :: lines) db)
        as [e|[newPurchase db1]];
        intros H; injection H as <- <-; [auto|]. cbn. congruence.
  - intros mrId body resp db'. unfold purchasesController.updateByMrId.
    destruct (negb (updatePurchaseSchema body));
      [intros H; injection H as <- <-; auto|].
    destruct (findPurchaseByMrId db mrId) as [existingPurchase|];
      [|intros H; injection H as <- <-; auto].
    destruct (Js.changed (pu_mr_id body) _ _);
      [intros H; injection H as <- <-; auto|].
    destruct (Js.changed (pu_vendor body) _ _);
      [intros H; injection H as <- <-; auto|].
    destruct (Js.changed (pu_inventory body) _ _);
      [intros H; injection H as <- <-; auto|].
    destruct (Js.and_num _ _);
      [intros H; injection H as <- <-; auto|].
    destruct (hd_error _); intros H; injection H as <- <-; [|exact Hnd].
    unfold distinct_ids. cbn [inventoryProducts set_inventoryProducts
                              set_purchases].
    now rewrite map_ip_id_update by reflexivity.
  - intros req resp db' Hrun. eapply transfer_create_invariant; eassumption.
  - intros trfId resp db'. unfold transfersController.deleteByTrfId.
    destruct (select_first _ (transfers db)) as [existingTransfer|];
      [|intros H; now injection H as <- <-].
    unfold transaction. rewrite delete_tx_run.
    destruct (for_of _ _ _ _) as [e|[[] db1]] eqn:Hloop;
      intros H; injection H as <- <-; [exact Hnd|].
    apply for_of_delete_line_keys in Hloop. unfold distinct_ids.
    cbn [inventoryProducts set_transfers set_transferProducts] in *.
    now rewrite Hloop.
Qed.
End Invariants.

(* ------------------------------------------------------------------ *)
(** ** The money columns of the sales *)

Lemma Forall_update_where {A} (P : A -> Prop) (f : A -> bool) (g : A -> A) l :
  Forall P l -> (forall x, P x -> P (g x)) -> Forall P (update_where f g l).
Proof.
  intros Hl Hg. unfold update_where. apply Forall_forall. intros y Hy.
  apply in_map_iff in Hy as (x & <- & Hx).
  rewrite Forall_forall in Hl. destruct (f x); auto.
Qed.

Lemma held_0 : held 0.
Proof. apply (numeric_10_3_exact _ 0); reflexivity. Qed.

Section SaleColumns.
Variable insertSaleSchema : SaleBody -> bool.
Variable insertSaleProductSchema : SaleLine -> bool.
Variable updateSaleSchema : SaleUpdate -> bool.

(** Whatever the handlers of the sales answer, the adjustment and the total
    of every sale stay values of their numeric(10,3) column. *)
Lemma sale_handlers_keep_columns db :
  sales_in_column db ->
  (forall req resp db',
      salesController.create insertSaleSchema insertSaleProductSchema req db
      = (resp, db') ->
      sales_in_column db')
  /\ (forall billId body resp db',
         salesController.updateByBillId updateSaleSchema billId body db
         = (resp, db') ->
         sales_in_column db')
  /\ (forall billId resp db',
         salesController.deleteByBillId billId db = (resp, db') ->
         sales_in_column db').
Proof.
  intros Hcol. split; [|split].
  - intros req resp db' Hrun.
    destruct (Nat.eq_dec (status resp) 201) as [H201|Hnot];
      [|now rewrite (create_not_201 _ _ _ _ _ _ Hrun Hnot)].
    destruct (create_201 _ _ _ _ _ _ Hrun H201)
      as (lines & newSale & _ & Htx & _).
    apply create_tx_returns in Htx
      as (db1 & total_amount & Hloop & Hfit & -> & _).
    apply for_of_create_line_frame in Hloop as [Hsales _].
    unfold sales_in_column. cbn [sales set_sales] in *. rewrite Hsales.
    apply Forall_update_where.
    + unfold insert. apply Forall_app. split; [exact Hcol|].
      repeat constructor; cbn; exact held_0.
    + intros s [Ha _]. split; [exact Ha|]. cbn.
      exact (numeric_10_3_held _ _ Hfit).
  - intros billId body resp db'. unfold salesController.updateByBillId.
    destruct (negb (updateSaleSchema body));
      [intros H; injection H as <- <-; exact Hcol|].
    destruct (findSaleByBillId db billId) as [existingSale|];
      [|intros H; injection H as <- <-; exact Hcol].
    destruct (Js.changed (u_bill_id body) _ _);
      [intros H; injection H as <- <-; exact Hcol|].
    destruct (Js.changed (u_customer_id body) _ _);
      [intros H; injection H as <- <-; exact Hcol|].
    destruct (Js.and_num _ _);
      [intros H; injection H as <- <-; exact Hcol|].
    destruct (numeric_10_3 (Js.or_num _ _)) as [adjustment|] eqn:Ha;
      [|intros H; injection H as <- <-; exact Hcol].
    destruct (numeric_10_3 (_ - _)) as [total_amount|] eqn:Ht;
      [|intros H; injection H as <- <-; exact Hcol].
    destruct (negb (unique_bill_ids _));
      [intros H; injection H as <- <-; exact Hcol|].
    destruct (hd_error _); intros H; injection H as <- <-;
      unfold sales_in_column; cbn [sales set_sales];
      (apply Forall_update_where; [exact Hcol|]);
      intros row _; split; cbn;
      [exact (numeric_10_3_held _ _ Ha)|exact (numeric_10_3_held _ _ Ht)
      |exact (numeric_10_3_held _ _ Ha)|exact (numeric_10_3_held _ _ Ht)].
  - intros billId resp db'. unfold salesController.deleteByBillId.
    assert (sales_in_column
              (set_sales (delete_where (fun s => ilike (s_bill_id s) billId))
                         db)).
    { unfold sales_in_column, delete_where. cbn [sales set_sales].
      apply Forall_forall. intros s Hs. apply filter_In in Hs as [Hs _].
      unfold sales_in_column in Hcol. rewrite Forall_forall in Hcol. auto. }
    destruct (hd_error _); intros H'; now injection H' as _ <-.
Qed.
End SaleColumns.

(* ------------------------------------------------------------------ *)
(** ** Creating a transfer and deleting it again *)

Lemma DB_ext a b :
  customers a = customers b ->
  vendors a = vendors b ->
  inventories a = inventories b ->
  products a = products b ->
  purchases a = purchases b ->
  purchaseProducts a = purchaseProducts b ->
  inventoryProducts a = inventoryProducts b ->
  sales a = sales b ->
  saleProducts a = saleProducts b ->
  transfers a = transfers b ->
  transferProducts a = transferProducts b ->
  a = b.
Proof. destruct a, b; cbn; intros; subst; reflexivity. Qed.

Lemma update_where_app {A} (f : A -> bool) (g : A -> A) l1 l2 :
  update_where f g (l1 ++ l2) = update_where f g l1 ++ update_where f g l2.
Proof. apply map_app. Qed.

Lemma fresh_id_update f g (t : list InventoryProduct) :
  (forall r, ip_id (g r) = ip_id r) ->
  fresh_id (update_where f g t) = fresh_id t.
Proof. intros H. unfold fresh_id. now rewrite map_ip_id_update. Qed.

(** Giving back to the rows of the lot at the source what the one row of
    the lot there lost restores the ledger. *)
Lemma update_plus_minus_single inventory line source
      (t : list InventoryProduct) :
  distinct_ids t ->
  single_row_at inventory line t ->
  In source t ->
  at_lot inventory (tl_mr_id line) (tl_product line) source = true ->
  update_where (at_lot inventory (tl_mr_id line) (tl_product line))
               (quantity_plus (tl_quantity line))
               (update_where (has_id (ip_id source))
                             (quantity_minus (tl_quantity line)) t)
  = t.
Proof.
  intros Hnd Hone Hin Hat. unfold update_where. rewrite map_map.
  rewrite <- (map_id t) at 2. apply map_ext_in. intros r Hr.
  destruct (has_id (ip_id source) r) eqn:E.
  - apply Nat.eqb_eq in E.
    assert (r = source) by now apply (same_id_same_row t).
    subst r. change (at_lot inventory (tl_mr_id line) (tl_product line)
                            (quantity_minus (tl_quantity line) source))
      with (at_lot inventory (tl_mr_id line) (tl_product line) source).
    rewrite Hat. destruct source. unfold quantity_plus, quantity_minus. cbn.
    f_equal. lia.
  - destruct (at_lot inventory (tl_mr_id line) (tl_product line) r) eqn:Hr';
      [|reflexivity].
    rewrite (Hone r source Hr Hin Hr' Hat) in E.
    unfold has_id in E. now rewrite Nat.eqb_refl in E.
Qed.

Section TransferRoundTrip.
Variable insertTransferSchema : TransferBody -> bool.

Local Notation "'create'" := (transfersController.create insertTransferSchema).
Local Notation "'deleteByTrfId'" := transfersController.deleteByTrfId.

(** X19. Creating a transfer of one line between two inventories and deleting
    it again restores the database but for one row of the ledger, when the lot
    of the line has one row at the source and none at the destination and no
    line of another transfer carries the id: the deletion is answered 200, the
    row at the source holds again what it held, the header and the line are
    gone, and the row the creation added at the destination stays, with
    quantity 0. *)
Theorem transfer_create_then_delete_round_trip req line db resp db1 :
  tb_products req = Some [line] ->
  ilike (tb_source_inventory req) (tb_destination_inventory req) = false ->
  distinct_ids (inventoryProducts db) ->
  (forall l, In l (transferProducts db) ->
             ilike (tp_trf_id l) (tb_trf_id req) = false) ->
  single_row_at (tb_source_inventory req) line (inventoryProducts db) ->
  no_row_at (tb_destination_inventory req) line (inventoryProducts db) ->
  create req db = (resp, db1) ->
  status resp = 201%nat ->
  deleteByTrfId (tb_trf_id req) db1
  = (reply 200,
     set_inventoryProducts
       (insert (mkInventoryProduct (fresh_id (inventoryProducts db))
                                   (tl_mr_id line)
                                   (tb_destination_inventory req)
                                   (tl_product line) 0))
       db).
Proof.
  intros Hp Hne Hnd Hlines Hone Hnodst Hrun H201.
  destruct (transfer_create_201_resp _ _ _ _ _ Hrun H201)
    as (lines & created & Hp' & Hnone & Htx & _).
  assert (lines = [line]) as -> by congruence. clear Hp'.
  apply transfer_create_tx_returns in Htx as [_ Hloop].
  cbn [for_of] in Hloop. unfold bind at 1 in Hloop.
  destruct (transfersController.create_line req [] line _)
    as [e|[acc1 dbs]] eqn:Hstep; [discriminate|].
  unfold ret in Hloop. injection Hloop as _ ->.
  destruct (transfer_line_returns_rows _ _ _ _ _ _ Hstep)
    as (_ & _ & Htp & Ht & Hpu & Hpp & Hs & Hsp & Hc).
  apply transfer_line_returns in Hstep as (source & Hsrc & Hledger).
  cbv zeta in Hledger.
  cbn [inventoryProducts transferProducts transfers purchases
       purchaseProducts sales saleProducts set_transfers] in *.
  set (t := inventoryProducts db) in *.
  set (q := tl_quantity line) in *.
  set (t1 := update_where (has_id (ip_id source)) (quantity_minus q) t) in *.
  assert (Hd : select_first
                 (at_lot (tb_destination_inventory req) (tl_mr_id line)
                         (tl_product line)) t = None)
    by (now apply find_none_iff).
  rewrite Hd in Hledger. clear Hd.
  destruct (find_some_in _ _ _ Hsrc) as [Hsin Hsat].
  apply andb_prop in Hsat as [Hsat _].
  set (row := mkInventoryProduct (fresh_id t1) (tl_mr_id line)
                                 (tb_destination_inventory req)
                                 (tl_product line)) in *.
  assert (Hrow_dst : at_lot (tb_destination_inventory req) (tl_mr_id line)
                            (tl_product line) (row q) = true).
  { unfold at_lot, row. cbn [ip_inventory ip_mr_id ip_product].
    now rewrite !ilike_refl. }
  assert (Hrow_src : at_lot (tb_source_inventory req) (tl_mr_id line)
                            (tl_product line) (row q) = false).
  { unfold at_lot, row. cbn [ip_inventory]. rewrite ilike_sym, Hne.
    reflexivity. }
  assert (Ht1_dst : forall r, In r t1 ->
                              at_lot (tb_destination_inventory req)
                                     (tl_mr_id line) (tl_product line) r
                              = false).
  { intros r1 Hr1. apply in_update_where_inv in Hr1 as (r & Hr & ->).
    specialize (Hnodst r Hr). now destruct (has_id (ip_id source) r). }
  unfold findTransferByTrfId, select_first in Hnone.
  (* the deletion runs *)
  set (of_transfer := fun l => ilike (tp_trf_id l) (t_trf_id (newTransfer req))).
  set (moved_back :=
         set_transfers
           (delete_where (fun x => ilike (t_trf_id x) (tb_trf_id req)))
           (set_inventoryProducts
              (fun t =>
                 update_where
                   (at_lot (tb_destination_inventory req) (tl_mr_id line)
                           (tl_product line))
                   (quantity_minus q)
                   (update_where
                      (at_lot (tb_source_inventory req) (tl_mr_id line)
                              (tl_product line))
                      (quantity_plus q) t))
              (set_transferProducts (delete_where of_transfer) db1))).
  assert (Hdel : deleteByTrfId (tb_trf_id req) db1 = (reply 200, moved_back)).
  { unfold transfersController.deleteByTrfId, select_first.
    rewrite Ht. unfold insert.
    rewrite (find_app_none _ _ (newTransfer req) Hnone)
      by (cbn [t_trf_id newTransfer]; apply ilike_refl).
    unfold transaction. rewrite delete_tx_run. fold of_transfer.
    assert (Hfilter : filter of_transfer (transferProducts db1)
                      = [newTransferProduct req line]).
    { rewrite Htp, filter_app, (filter_none of_transfer _ Hlines). cbn [app filter].
      unfold of_transfer. cbn [tp_trf_id newTransferProduct t_trf_id
                               newTransfer].
      now rewrite ilike_refl. }
    rewrite Hfilter. cbn [for_of]. unfold bind.
    pose proof (delete_line_cases
                  (newTransfer req) tt (newTransferProduct req line)
                  (set_transferProducts (delete_where of_transfer) db1))
      as Hcase.
    cbn [inventoryProducts set_transferProducts t_destination_inventory
         t_source_inventory newTransfer tp_mr_id tp_product
         newTransferProduct] in Hcase.
    rewrite Hledger in Hcase. unfold insert, select_first in Hcase.
    rewrite (find_app_none _ _ (row q)) in Hcase;
      [|now apply find_none_iff|exact Hrow_dst].
    rewrite Hcase. unfold ret. reflexivity. }
  rewrite Hdel. f_equal. unfold moved_back.
  apply DB_ext;
    cbn [customers vendors inventories products purchases purchaseProducts
         inventoryProducts sales saleProducts transfers transferProducts
         set_transfers set_inventoryProducts set_transferProducts];
    try assumption; try apply Hc.
  - rewrite Hledger. unfold insert. rewrite !update_where_app.
    unfold t1 at 1. unfold q at 2 3.
    rewrite (update_plus_minus_single _ _ _ _ Hnd Hone Hsin Hsat).
    rewrite (update_where_none _ _ t Hnodst).
    f_equal. unfold update_where. cbn [map].
    rewrite Hrow_src, Hrow_dst. unfold row, quantity_minus.
    cbn [ip_id ip_mr_id ip_inventory ip_product ip_quantity].
    unfold t1. rewrite fresh_id_update by reflexivity.
    do 2 f_equal. lia.
  - rewrite Ht. unfold insert.
    rewrite delete_where_app,
      (delete_where_none _ _ (proj1 (find_none_iff _ _) Hnone)).
    unfold delete_where. cbn [filter t_trf_id newTransfer].
    rewrite ilike_refl. cbn. apply app_nil_r.
  - rewrite Htp, delete_where_app, (delete_where_none of_transfer _ Hlines).
    unfold delete_where, of_transfer.
    cbn [filter tp_trf_id newTransferProduct t_trf_id newTransfer].
    rewrite ilike_refl. cbn. apply app_nil_r.
Qed.
End TransferRoundTrip.

(* ------------------------------------------------------------------ *)
(** ** The further properties on the shop *)

Lemma shop_nonnegative : nonnegative (inventoryProducts shop).
Proof. unfold nonnegative. cbn. repeat constructor; cbn; lia. Qed.

Lemma sale_create_persists_header_and_lines_witness :
  exists lines rows stored,
    b_products (sale_of "B-1" two_widget_lines) = Some lines
    /\ payload (fst widget_sale) = Some (Some stored, rows)
    /\ sales (snd widget_sale) = sales shop ++ [stored]
    /\ s_bill_id stored = b_bill_id (sale_of "B-1" two_widget_lines)
    /\ s_customer_id stored = b_customer_id (sale_of "B-1" two_widget_lines)
    /\ s_shipping_address stored
       = b_shipping_address (sale_of "B-1" two_widget_lines)
    /\ s_adjustment stored = 0
    /\ saleProducts (snd widget_sale) = saleProducts shop ++ rows
    /\ Forall2 (sale_line_of (sale_of "B-1" two_widget_lines)
                             (inventoryProducts shop)) lines rows
    /\ Forall (fun line => positive_quantity line = true) lines
    /\ same_catalogue_and_orders (snd widget_sale) shop
    /\ map ip_id (inventoryProducts (snd widget_sale))
       = map ip_id (inventoryProducts shop)
    /\ same_lots (inventoryProducts (snd widget_sale))
                 (inventoryProducts shop).
Proof.
  exact (sale_create_persists_header_and_lines
           accept positive_quantity (sale_of "B-1" two_widget_lines) shop
           (fst widget_sale) (snd widget_sale)
           (surjective_pairing _) eq_refl).
Defined.

Lemma sale_create_keeps_stock_nonnegative_witness :
  nonnegative (inventoryProducts (snd widget_sale)).
Proof.
  exact (sale_create_keeps_stock_nonnegative
           accept positive_quantity (sale_of "B-1" two_widget_lines) shop
           (fst widget_sale) (snd widget_sale)
           shop_distinct_ids shop_nonnegative (surjective_pairing _)).
Defined.

Lemma sale_create_consumes_requested_total_witness :
  exists lines,
    b_products (sale_of "B-1" two_widget_lines) = Some lines
    /\ whole_stock (inventoryProducts (snd widget_sale))
       = (whole_stock (inventoryProducts shop) - requested lines)%Z.
Proof.
  exact (sale_create_consumes_requested_total
           accept positive_quantity (sale_of "B-1" two_widget_lines) shop
           (fst widget_sale) (snd widget_sale)
           shop_distinct_ids (surjective_pairing _) eq_refl).
Defined.

Lemma sale_delete_removes_header_keeps_stock_witness :
  status (fst (salesController.deleteByBillId "b-1" billed)) = 200%nat
  /\ findSaleByBillId (snd (salesController.deleteByBillId "b-1" billed)) "b-1"
     = None
  /\ inventoryProducts (snd (salesController.deleteByBillId "b-1" billed))
     = inventoryProducts billed.
Proof.
  destruct (sale_delete_removes_header_keeps_stock
              "b-1" billed _ _ (surjective_pairing _))
    as (_ & H200 & _ & Hgone & _ & Hledger).
  split; [|split; [exact Hgone|exact Hledger]].
  apply H200. discriminate.
Defined.

Lemma sale_create_then_delete_keeps_stock_consumed_witness :
  exists lines,
    b_products (sale_of "B-1" two_widget_lines) = Some lines
    /\ status (fst (salesController.deleteByBillId "B-1" (snd widget_sale)))
       = 200%nat
    /\ sales (snd (salesController.deleteByBillId "B-1" (snd widget_sale)))
       = sales shop
    /\ inventoryProducts
         (snd (salesController.deleteByBillId "B-1" (snd widget_sale)))
       = inventoryProducts (snd widget_sale)
    /\ whole_stock
         (inventoryProducts
            (snd (salesController.deleteByBillId "B-1" (snd widget_sale))))
       = (whole_stock (inventoryProducts shop) - requested lines)%Z.
Proof.
  exact (sale_create_then_delete_keeps_stock_consumed
           accept positive_quantity (sale_of "B-1" two_widget_lines) shop
           (fst widget_sale) (snd widget_sale) _ _
           shop_distinct_ids (surjective_pairing _) eq_refl
           (surjective_pairing _)).
Defined.

Lemma sale_handlers_keep_bill_ids_distinct_witness :
  distinct_bill_ids
    (snd (salesController.create accept positive_quantity
                                 (sale_of "B-2" two_widget_lines) billed))
  /\ distinct_bill_ids
       (snd (salesController.updateByBillId accept "B-1" (adjust_sale 40)
                                            billed))
  /\ distinct_bill_ids (snd (salesController.deleteByBillId "B-1" billed)).
Proof.
  destruct (sale_handlers_keep_bill_ids_distinct
              accept positive_quantity accept billed billed_distinct_bill_ids)
    as (Hcreate & Hupdate & Hdelete).
  split; [|split].
  - exact (Hcreate _ _ _ (surjective_pairing _)).
  - exact (Hupdate _ _ _ _ (surjective_pairing _)).
  - exact (Hdelete _ _ _ (surjective_pairing _)).
Defined.


Lemma update_writes_nothing_unless_200_witness :
  snd (salesController.updateByBillId accept "B-9" (adjust_sale 40) billed)
  = billed
  /\ snd (purchasesController.updateByMrId
            accept "MR0001" (adjust_purchase 150) billed)
     = billed
  /\ snd (transfersController.updateByTrfId accept "T-1" None
                                            shop_after_transfer)
     = shop_after_transfer.
Proof.
  destruct (update_writes_nothing_unless_200 accept accept accept)
    as (Hsale & Hpurchase & Htransfer).
  split; [|split].
  - apply (proj1 (Hsale _ _ _ _ _ (surjective_pairing _))). discriminate.
  - apply (Hpurchase _ _ _ _ _ (surjective_pairing _)). discriminate.
  - apply (proj1 (Htransfer _ _ _ _ _ (surjective_pairing _))). discriminate.
Defined.

Lemma purchase_create_checks_lines_before_writing_witness :
  snd (purchasesController.create
         accept accept (purchase_of "MR0009" [one_gizmo]) shop)
  = shop
  /\ status (fst (purchasesController.create
                    accept accept (purchase_of "MR0009" [one_gizmo]) shop))
     <> 201%nat.
Proof.
  destruct (purchase_create_checks_lines_before_writing
              accept accept (purchase_of "MR0009" [one_gizmo]) shop _ _
              (surjective_pairing _))
    as [Hnothing Hline].
  assert (H : status (fst (purchasesController.create
                             accept accept (purchase_of "MR0009" [one_gizmo])
                             shop)) <> 201%nat).
  { apply (Hline [one_gizmo] one_gizmo);
      [reflexivity|now left|right; reflexivity]. }
  split; [exact (Hnothing H)|exact H].
Defined.

Lemma purchase_create_adds_a_ledger_row_per_line_witness :
  exists lines rows stored,
    pb_products (purchase_of "MR0009" two_purchase_lines) = Some lines
    /\ payload (fst widget_purchase)
       = Some (Some stored,
               map (purchaseProduct (purchase_of "MR0009" two_purchase_lines))
                   lines)
    /\ purchases (snd widget_purchase) = purchases shop ++ [stored]
    /\ p_mr_id stored = pb_mr_id (purchase_of "MR0009" two_purchase_lines)
    /\ p_vendor stored = pb_vendor (purchase_of "MR0009" two_purchase_lines)
    /\ p_inventory stored
       = pb_inventory (purchase_of "MR0009" two_purchase_lines)
    /\ purchaseProducts (snd widget_purchase)
       = purchaseProducts shop
         ++ map (purchaseProduct (purchase_of "MR0009" two_purchase_lines))
                lines
    /\ inventoryProducts (snd widget_purchase)
       = inventoryProducts shop ++ rows
    /\ Forall2 (ledger_row_of (purchase_of "MR0009" two_purchase_lines))
               lines rows
    /\ whole_stock (inventoryProducts (snd widget_purchase))
       = (whole_stock (inventoryProducts shop) + received lines)%Z
    /\ (distinct_ids (inventoryProducts shop)
        -> distinct_ids (inventoryProducts (snd widget_purchase)))
    /\ sales (snd widget_purchase) = sales shop
    /\ saleProducts (snd widget_purchase) = saleProducts shop
    /\ transfers (snd widget_purchase) = transfers shop
    /\ transferProducts (snd widget_purchase) = transferProducts shop
    /\ same_catalogue (snd widget_purchase) shop.
Proof.
  exact (purchase_create_adds_a_ledger_row_per_line
           accept accept (purchase_of "MR0009" two_purchase_lines) shop
           (fst widget_purchase) (snd widget_purchase)
           (surjective_pairing _) eq_refl).
Defined.

Lemma purchase_update_relocates_the_lot_witness :
  map ip_inventory (inventoryProducts billed_after_transfer)
  = ["Main"; "Depot"]
  /\ exists existingPurchase updatedPurchase,
      findPurchaseByMrId billed_after_transfer "MR0001"
      = Some existingPurchase
      /\ payload (fst (purchasesController.updateByMrId
                         accept "MR0001" (adjust_purchase 0)
                         billed_after_transfer))
         = Some updatedPurchase
      /\ p_inventory updatedPurchase
         = Js.or_str (pu_inventory (adjust_purchase 0))
                     (p_inventory existingPurchase)
      /\ Forall2 (relocated "MR0001" (p_inventory updatedPurchase))
                 (inventoryProducts billed_after_transfer)
                 (inventoryProducts
                    (snd (purchasesController.updateByMrId
                            accept "MR0001" (adjust_purchase 0)
                            billed_after_transfer)))
      /\ whole_stock
           (inventoryProducts
              (snd (purchasesController.updateByMrId
                      accept "MR0001" (adjust_purchase 0)
                      billed_after_transfer)))
         = whole_stock (inventoryProducts billed_after_transfer).
Proof.
  split; [reflexivity|].
  exact (purchase_update_relocates_the_lot
           accept "MR0001" (adjust_purchase 0) billed_after_transfer _ _
           (surjective_pairing _) eq_refl).
Defined.

Lemma transfer_create_persists_header_and_lines_witness :
  exists lines,
    tb_products (transfer_of "T-1" [four_widgets]) = Some lines
    /\ payload (fst widget_transfer)
       = Some (newTransfer (transfer_of "T-1" [four_widgets]),
               map (newTransferProduct (transfer_of "T-1" [four_widgets]))
                   lines)
    /\ transfers (snd widget_transfer)
       = transfers shop ++ [newTransfer (transfer_of "T-1" [four_widgets])]
    /\ transferProducts (snd widget_transfer)
       = transferProducts shop
         ++ map (newTransferProduct (transfer_of "T-1" [four_widgets])) lines
    /\ (forall trfId,
           lower trfId = lower (tb_trf_id (transfer_of "T-1" [four_widgets])) ->
           transfersController.retrieveByTrfId trfId (snd widget_transfer)
           = (mkResponse
                200 (Some (newTransfer (transfer_of "T-1" [four_widgets]))),
              snd widget_transfer))
    /\ purchases (snd widget_transfer) = purchases shop
    /\ purchaseProducts (snd widget_transfer) = purchaseProducts shop
    /\ sales (snd widget_transfer) = sales shop
    /\ saleProducts (snd widget_transfer) = saleProducts shop
    /\ same_catalogue (snd widget_transfer) shop.
Proof.
  exact (transfer_create_persists_header_and_lines
           accept (transfer_of "T-1" [four_widgets]) shop
           (fst widget_transfer) (snd widget_transfer)
           (surjective_pairing _) eq_refl).
Defined.

Lemma transfer_create_accepts_valid_lines_only_witness :
  exists lines,
    tb_products (transfer_of "T-1" [four_widgets]) = Some lines
    /\ lines <> []
    /\ Forall valid_transfer_line lines.
Proof.
  exact (transfer_create_accepts_valid_lines_only
           accept (transfer_of "T-1" [four_widgets]) shop
           (fst widget_transfer) (snd widget_transfer)
           (surjective_pairing _) eq_refl).
Defined.

Lemma transfer_create_keeps_stock_nonnegative_witness :
  nonnegative (inventoryProducts (snd widget_transfer)).
Proof.
  exact (transfer_create_keeps_stock_nonnegative
           accept (transfer_of "T-1" [four_widgets]) shop
           (fst widget_transfer) (snd widget_transfer)
           shop_distinct_ids shop_nonnegative (surjective_pairing _)).
Defined.

Lemma transfer_create_short_source_500_witness :
  transfersController.create
    accept (transfer_of "T-2" [four_widgets; eleven_widgets_out]) shop
  = (reply 500, shop).
Proof.
  apply (transfer_create_short_source_500
           accept (transfer_of "T-2" [four_widgets; eleven_widgets_out]) shop
           [four_widgets; eleven_widgets_out] eleven_widgets_out).
  - reflexivity.
  - reflexivity.
  - reflexivity.
  - discriminate.
  - discriminate.
  - reflexivity.
  - exact shop_distinct_ids.
  - reflexivity.
  - right. now left.
  - intros r [<-|[<-|[]]]; intros H; vm_compute in H |- *;
      [reflexivity|discriminate].
Defined.

Lemma transfer_writes_are_all_or_nothing_witness :
  snd (transfersController.create accept (transfer_of "t-1" [four_widgets])
                                  shop_after_transfer)
  = shop_after_transfer
  /\ snd (transfersController.deleteByTrfId "T-1" depot_emptied)
     = depot_emptied
  /\ (status (fst (transfersController.deleteByTrfId "T-9" shop)) = 404%nat
      <-> findTransferByTrfId shop "T-9" = None).
Proof.
  destruct (transfer_writes_are_all_or_nothing accept) as [Hcreate Hdelete].
  split; [|split].
  - apply (Hcreate _ _ _ _ (surjective_pairing _)). discriminate.
  - apply (proj1 (Hdelete _ _ _ _ (surjective_pairing _))). discriminate.
  - exact (proj2 (Hdelete _ _ _ _ (surjective_pairing _))).
Defined.

Lemma transfer_rename_moves_the_id_witness :
  exists existingTransfer,
    findTransferByTrfId shop_after_transfer "t-1" = Some existingTransfer
    /\ payload (fst (transfersController.updateByTrfId
                       accept "t-1" (Some "T-2") shop_after_transfer))
       = Some (Some (transfersController.set_trf_id "T-2" existingTransfer))
    /\ transfersController.retrieveByTrfId
         "T-2"
         (snd (transfersController.updateByTrfId
                 accept "t-1" (Some "T-2") shop_after_transfer))
       = (mkResponse
            200 (Some (transfersController.set_trf_id "T-2" existingTransfer)),
          snd (transfersController.updateByTrfId
                 accept "t-1" (Some "T-2") shop_after_transfer))
    /\ (ilike "T-2" "t-1" = false ->
        transfersController.retrieveByTrfId
          "t-1"
          (snd (transfersController.updateByTrfId
                  accept "t-1" (Some "T-2") shop_after_transfer))
        = (reply 404,
           snd (transfersController.updateByTrfId
                  accept "t-1" (Some "T-2") shop_after_transfer))).
Proof.
  apply (transfer_rename_moves_the_id
           accept "t-1" "T-2" shop_after_transfer _ _).
  - discriminate.
  - apply surjective_pairing.
  - reflexivity.
Defined.

Lemma transfer_create_then_delete_round_trip_witness :
  transfersController.deleteByTrfId "T-1" (snd widget_transfer)
  = (reply 200,
     set_inventoryProducts
       (insert (mkInventoryProduct 3 "mr0001" "Depot" "Widget" 0)) shop).
Proof.
  apply (transfer_create_then_delete_round_trip
           accept (transfer_of "T-1" [four_widgets]) four_widgets shop
           (fst widget_transfer) (snd widget_transfer)).
  - reflexivity.
  - reflexivity.
  - exact shop_distinct_ids.
  - intros l [].
  - intros r r' [<-|[<-|[]]] [<-|[<-|[]]] H H';
      vm_compute in H, H'; solve [reflexivity|discriminate].
  - intros r [<-|[<-|[]]]; reflexivity.
  - apply surjective_pairing.
  - reflexivity.
Defined.

Lemma ledger_keys_stay_distinct_witness :
  distinct_ids (inventoryProducts (snd widget_sale))
  /\ distinct_ids (inventoryProducts (snd widget_purchase))
  /\ distinct_ids
       (inventoryProducts
          (snd (purchasesController.updateByMrId
                  accept "MR0001" (adjust_purchase 0) shop)))
  /\ distinct_ids (inventoryProducts (snd widget_transfer))
  /\ distinct_ids
       (inventoryProducts (snd (transfersController.deleteByTrfId "T-1" shop))).
Proof.
  destruct (ledger_keys_stay_distinct
              accept positive_quantity accept accept accept accept
              shop shop_distinct_ids)
    as (Hsale & Hpurchase & Hupdate & Htransfer & Hdelete).
  split; [|split; [|split; [|split]]].
  - exact (Hsale _ _ _ (surjective_pairing _)).
  - exact (Hpurchase _ _ _ (surjective_pairing _)).
  - exact (Hupdate _ _ _ _ (surjective_pairing _)).
  - exact (Htransfer _ _ _ (surjective_pairing _)).
  - exact (Hdelete _ _ _ (surjective_pairing _)).
Defined.
